(** * Test-report normalisation (utils/parser.py, utils/dtos.py)

    A shallow embedding of [TestResultParser] and of the part of Python and
    of [xml.etree.ElementTree] it relies on, followed by the properties of
    the three dialect adapters, of the input resolver and of the facade.

    Conventions.
    - A Python [str] is a [string] whose characters are code points below
      256; [strip], [lower], [int] and [float] follow CPython on that
      range.
    - A Python [int] is a [Z]; a Python [float] is a binary64 value
      ([PrimFloat.float]) with the IEEE operations of the kernel.
    - A call that can raise returns [res]: [Ok v] or [Raise e]. *)

From Stdlib Require Import ZArith NArith Bool List String Ascii Lia.
From Stdlib Require Import PrimFloat SpecFloat FloatOps.
Import ListNotations.

Local Open Scope string_scope.
Local Open Scope list_scope.
Local Open Scope Z_scope.

(* ================================================================== *)
(** ** Python strings *)
(* ================================================================== *)

Module PyStr.

(** [str.isspace] on one character: TAB..CR, FS..US, space, NEL, NBSP. *)
Definition is_space (c : ascii) : bool :=
  let n := N_of_ascii c in
  (((9 <=? n) && (n <=? 13)) || ((28 <=? n) && (n <=? 32))
   || (n =? 133) || (n =? 160))%N.

Fixpoint lstrip (s : string) : string :=
  match s with
  | EmptyString => EmptyString
  | String c r => if is_space c then lstrip r else s
  end.

Fixpoint rstrip (s : string) : string :=
  match s with
  | EmptyString => EmptyString
  | String c r =>
      match rstrip r with
      | EmptyString => if is_space c then EmptyString else String c EmptyString
      | r' => String c r'
      end
  end.

(** [s.strip()] *)
Definition strip (s : string) : string := rstrip (lstrip s).

(** [str.lower] on one character: A..Z and the Latin-1 capitals
    (0xC0..0xDE but the multiplication sign) move up by 32. *)
Definition lower_char (c : ascii) : ascii :=
  let n := N_of_ascii c in
  if (((65 <=? n) && (n <=? 90))
      || ((192 <=? n) && (n <=? 222) && negb (n =? 215)))%N
  then ascii_of_N (n + 32) else c.

(** [s.lower()] *)
Fixpoint lower (s : string) : string :=
  match s with
  | EmptyString => EmptyString
  | String c r => String (lower_char c) (lower r)
  end.

(** [s.startswith(p)] *)
Definition startswith (s p : string) : bool := String.prefix p s.

(** [s.endswith(p)] *)
Definition endswith (s p : string) : bool :=
  let n := String.length s in
  let k := String.length p in
  (k <=? n)%nat && String.eqb (String.substring (n - k) k s) p.

(** [sub in s] *)
Fixpoint contains (sub s : string) : bool :=
  String.prefix sub s
  || match s with
     | EmptyString => false
     | String _ r => contains sub r
     end.

(** Truth value of a string: non-empty. *)
Definition truthy (s : string) : bool :=
  match s with EmptyString => false | _ => true end.

(** Truth value of [str | None]. *)
Definition truthy_opt (o : option string) : bool :=
  match o with Some s => truthy s | None => false end.

(** [a or b] on [str | None] operands. *)
Definition or_else (a b : option string) : option string :=
  if truthy_opt a then a else b.

End PyStr.

(* ================================================================== *)
(** ** Python numeric conversions: [int(str)] and [float(str)] *)
(* ================================================================== *)

Module PyNum.

(** The whitespace [int] and [float] skip around a literal: TAB..CR,
    space, NEL and NBSP. Unlike [str.strip], FS..US are not skipped. *)
Definition is_num_space (c : ascii) : bool :=
  let n := N_of_ascii c in
  (((9 <=? n) && (n <=? 13)) || (n =? 32) || (n =? 133) || (n =? 160))%N.

Fixpoint num_lstrip (s : string) : string :=
  match s with
  | EmptyString => EmptyString
  | String c r => if is_num_space c then num_lstrip r else s
  end.

Fixpoint num_rstrip (s : string) : string :=
  match s with
  | EmptyString => EmptyString
  | String c r =>
      match num_rstrip r with
      | EmptyString => if is_num_space c then EmptyString else String c EmptyString
      | r' => String c r'
      end
  end.

Definition num_strip (s : string) : string := num_rstrip (num_lstrip s).

Definition digit_val (c : ascii) : option Z :=
  let n := N_of_ascii c in
  if ((48 <=? n) && (n <=? 57))%N then Some (Z.of_N n - 48) else None.

(** After a digit: [(["_"] digit)*], the longest match. *)
Fixpoint scan_more (s : string) : list Z * string :=
  match s with
  | EmptyString => ([], EmptyString)
  | String c r =>
      match digit_val c with
      | Some d => let '(ds, rest) := scan_more r in (d :: ds, rest)
      | None =>
          if Ascii.eqb c "_"
          then match r with
               | String c2 r2 =>
                   match digit_val c2 with
                   | Some d => let '(ds, rest) := scan_more r2 in (d :: ds, rest)
                   | None => ([], s)
                   end
               | EmptyString => ([], s)
               end
          else ([], s)
      end
  end.

(** [digitpart ::= digit (["_"] digit)*]; no digit read gives [[]]. *)
Definition scan_digitpart (s : string) : list Z * string :=
  match s with
  | EmptyString => ([], EmptyString)
  | String c r =>
      match digit_val c with
      | Some d => let '(ds, rest) := scan_more r in (d :: ds, rest)
      | None => ([], s)
      end
  end.

Definition of_digits (ds : list Z) : Z :=
  fold_left (fun a d => 10 * a + d) ds 0.

(** An optional sign; [true] is minus. *)
Definition scan_sign (s : string) : bool * string :=
  match s with
  | String "-" r => (true, r)
  | String "+" r => (false, r)
  | _ => (false, s)
  end.

(** [sys.get_int_max_str_digits()], the interpreter's default. *)
Definition int_max_str_digits : nat := 4300.

(** [int(s)] in base 10: surrounding whitespace, a sign, digits with
    single underscores between them, at most [int_max_str_digits] digits.
    [None] is [ValueError]. *)
Definition py_int (s : string) : option Z :=
  let '(neg, t) := scan_sign (num_strip s) in
  match scan_digitpart t with
  | ((_ :: _) as ds, EmptyString) =>
      if (List.length ds <=? int_max_str_digits)%nat
      then Some (if neg then - of_digits ds else of_digits ds)
      else None
  | _ => None
  end.

(** The binary64 value nearest to [(-1)^neg * m * 10^e], ties to even. *)
Definition float_of_decimal (neg : bool) (m e : Z) : float :=
  match m with
  | Z0 => if neg then (-0)%float else 0%float
  | _ =>
      let n := m * 10 ^ (Z.max e 0) in
      let d := 10 ^ (Z.max (- e) 0) in
      let '(mz, ez, lz) := SFdiv_core_binary prec emax n 0 d 0 in
      SF2Prim (binary_round_aux prec emax neg mz ez lz)
  end.

(** [exponent ::= ("e" | "E") [sign] digitpart], up to the end. *)
Definition scan_exponent (s : string) : option Z :=
  match s with
  | EmptyString => Some 0
  | String c r =>
      if Ascii.eqb c "e" || Ascii.eqb c "E"
      then let '(neg, t) := scan_sign r in
           match scan_digitpart t with
           | ((_ :: _) as ds, EmptyString) =>
               Some (if neg then - of_digits ds else of_digits ds)
           | _ => None
           end
      else None
  end.

(** [floatnumber ::= ([digitpart] "." digitpart | digitpart ["."]) [exponent]] *)
Definition scan_floatnumber (neg : bool) (s : string) : option float :=
  let '(ip, r1) := scan_digitpart s in
  let '(fp, r2) :=
    match r1 with
    | String "." r => scan_digitpart r
    | _ => ([], r1)
    end in
  match ip, fp with
  | [], [] => None
  | _, _ =>
      match scan_exponent r2 with
      | Some x =>
          Some (float_of_decimal neg (of_digits (ip ++ fp))
                  (x - Z.of_nat (List.length fp)))
      | None => None
      end
  end.

(** [float(s)]: surrounding whitespace, a sign, then [inf], [infinity] or
    [nan] in any letter case, or a decimal number. [None] is
    [ValueError]. *)
Definition py_float (s : string) : option float :=
  let '(neg, t) := scan_sign (num_strip s) in
  let l := PyStr.lower t in
  if String.eqb l "inf" || String.eqb l "infinity"
  then Some (if neg then neg_infinity else infinity)
  else if String.eqb l "nan" then Some nan
  else scan_floatnumber neg t.

End PyNum.

(* ================================================================== *)
(** ** Exceptions and results *)
(* ================================================================== *)

(** What a [ValueError] of this program is about. *)
Inductive value_error : Type :=
| UnsupportedReportType (report_type : string)
    (* ValueError(f"Unsupported report type: {self.report_type}") *)
| InvalidIntLiteral (s : string)       (* raised by int(s) *)
| InvalidFloatLiteral (s : string).    (* raised by float(s) *)

Inductive exn : Type :=
| ValueError (why : value_error)
| FileNotFoundError (path : string)    (* f"File not found: {test_result}" *)
| ParseError                           (* ET.ParseError *)
| OSError.

Inductive res (A : Type) : Type :=
| Ok (a : A)
| Raise (e : exn).
Arguments Ok {A} a.
Arguments Raise {A} e.

Definition bind {A B : Type} (m : res A) (k : A -> res B) : res B :=
  match m with
  | Ok a => k a
  | Raise e => Raise e
  end.

Notation "x <- m ;; k" := (bind m (fun x => k))
  (at level 61, m at next level, right associativity).

(** A [for] loop whose body may raise, over the state [S]. *)
Fixpoint for_each {S X : Type} (body : S -> X -> res S) (xs : list X) (s : S)
  : res S :=
  match xs with
  | [] => Ok s
  | x :: xs' => s' <- body s x ;; for_each body xs' s'
  end.

(* ================================================================== *)
(** ** xml.etree.ElementTree *)
(* ================================================================== *)

(** An [ET.Element]: tag, attribute dictionary, text (or [None]) and
    children in document order. Attribute names of a well-formed element
    are distinct; lookup takes the first entry. *)
#[warnings="-register-all"] Inductive Element : Type :=
| Elem (tag : string) (attrib : list (string * string))
       (text : option string) (children : list Element).

Module ET.

Definition tag (e : Element) : string :=
  match e with Elem t _ _ _ => t end.
Definition attrib (e : Element) : list (string * string) :=
  match e with Elem _ a _ _ => a end.
Definition text (e : Element) : option string :=
  match e with Elem _ _ x _ => x end.
Definition children (e : Element) : list Element :=
  match e with Elem _ _ _ cs => cs end.

Fixpoint lookup (k : string) (d : list (string * string)) : option string :=
  match d with
  | [] => None
  | (k', v) :: d' => if String.eqb k' k then Some v else lookup k d'
  end.

(** [e.get(key)] *)
Definition get (e : Element) (key : string) : option string :=
  lookup key (attrib e).

(** [e.get(key, default)] with a string default *)
Definition get_str (e : Element) (key default : string) : string :=
  match get e key with Some v => v | None => default end.

Definition has_tag (t : string) (e : Element) : bool :=
  String.eqb (tag e) t.

(** [e.findall(t)]: the children of [e] with tag [t]. *)
Definition findall (e : Element) (t : string) : list Element :=
  filter (has_tag t) (children e).

(** [e.find(t)]: the first child of [e] with tag [t]. *)
Definition find (e : Element) (t : string) : option Element :=
  List.find (has_tag t) (children e).

(** [e.iter()]: [e] and all elements below it, in document order. *)
Fixpoint iter (e : Element) : list Element :=
  match e with
  | Elem _ _ _ cs => e :: flat_map iter cs
  end.

(** The elements strictly below [e], in document order. *)
Definition descendants (e : Element) : list Element :=
  flat_map iter (children e).

(** [e.findall('.//' + t)]: the elements below [e] with tag [t]. *)
Definition findall_desc (e : Element) (t : string) : list Element :=
  filter (has_tag t) (descendants e).

(** [e.find('.//' + t)] *)
Definition find_desc (e : Element) (t : string) : option Element :=
  List.find (has_tag t) (descendants e).

End ET.

(** [int(e.get(key, 0))] *)
Definition int_attr (e : Element) (key : string) : res Z :=
  match ET.get e key with
  | None => Ok 0
  | Some v =>
      match PyNum.py_int v with
      | Some n => Ok n
      | None => Raise (ValueError (InvalidIntLiteral v))
      end
  end.

(** [float(s)] *)
Definition to_float (s : string) : res float :=
  match PyNum.py_float s with
  | Some x => Ok x
  | None => Raise (ValueError (InvalidFloatLiteral s))
  end.

(** [float(e.get(key, 0.0))] *)
Definition float_attr (e : Element) (key : string) : res float :=
  match ET.get e key with
  | None => Ok 0%float
  | Some v => to_float v
  end.

(* ================================================================== *)
(** ** utils/dtos.py *)
(* ================================================================== *)

Record TestCaseResult : Type := mkTestCaseResult {
  name : string;
  suite : string;
  result : string;
  time : float;
  message : option string
}.

Record TestResultSummary : Type := mkTestResultSummary {
  total : Z;
  passed : Z;
  failed : Z;
  skipped : Z;
  errors : Z;
  total_time : float;      (* the field [time] of the summary *)
  test_cases : list TestCaseResult
}.

(* ================================================================== *)
(** ** utils/parser.py: the three dialect adapters on a document root *)
(* ================================================================== *)

(** [x.strip() if x else None] *)
Definition strip_if_any (x : option string) : option string :=
  match x with
  | Some s => if PyStr.truthy s then Some (PyStr.strip s) else None
  | None => None
  end.

(** The summary every adapter starts from: zero counters, [0.0], [[]]. *)
Definition empty_summary : TestResultSummary :=
  mkTestResultSummary 0 0 0 0 0 0%float [].

Definition append_case (st : TestResultSummary) (c : TestCaseResult)
  : TestResultSummary :=
  mkTestResultSummary (total st) (passed st) (failed st) (skipped st)
    (errors st) (total_time st) (test_cases st ++ [c]).

Definition add_time (st : TestResultSummary) (x : float) : TestResultSummary :=
  mkTestResultSummary (total st) (passed st) (failed st) (skipped st)
    (errors st) (total_time st + x)%float (test_cases st).

(** *** NUnit *)

(** The result token of a [test-case], normalised. *)
Definition nunit_result (tc_result : string) : string :=
  let normalized_result := PyStr.lower tc_result in
  if PyStr.contains "success" normalized_result
     || PyStr.contains "pass" normalized_result then "passed"
  else if PyStr.contains "fail" normalized_result then "failed"
  else if PyStr.contains "error" normalized_result then "error"
  else if PyStr.contains "skip" normalized_result
          || PyStr.contains "ignore" normalized_result then "skipped"
  else normalized_result.

(** [tc_message] of a [test-case] (parser.py, lines 156-163). *)
Definition nunit_message (tc : Element) : option string :=
  match ET.find tc "failure" with
  | Some failure =>
      let otherwise := strip_if_any (ET.text failure) in
      match ET.find failure "message" with
      | Some message_elem =>
          match ET.text message_elem with
          | Some t => if PyStr.truthy t then Some (PyStr.strip t) else otherwise
          | None => otherwise
          end
      | None => otherwise
      end
  | None => None
  end.

(** Body of [for tc in results.findall('test-case')]. *)
Definition nunit_test_case (suite_name : string)
  (cases : list TestCaseResult) (tc : Element) : res (list TestCaseResult) :=
  let tc_name := ET.get_str tc "name" "Unknown" in
  tc_time <- float_attr tc "time" ;;
  let tc_result := ET.get_str tc "result" "Unknown" in
  Ok (cases ++ [mkTestCaseResult tc_name suite_name (nunit_result tc_result)
                  tc_time (nunit_message tc)]).

(** What one [test-suite] adds to [suites_sum_time]: its [time] attribute
    when it is non-empty and a float, nothing otherwise. *)
Definition nunit_suite_time (sum : float) (suite : Element) : float :=
  match ET.get suite "time" with
  | Some suite_time_attr =>
      if PyStr.truthy suite_time_attr
      then match to_float suite_time_attr with
           | Ok x => (sum + x)%float
           | Raise _ => sum                      (* except ValueError: pass *)
           end
      else sum
  | None => sum
  end.

(** Body of [for suite in root.findall('.//test-suite')], on the pair
    [(suites_sum_time, test_cases)]. *)
Definition nunit_suite (st : float * list TestCaseResult) (suite : Element)
  : res (float * list TestCaseResult) :=
  let '(suites_sum_time, cases) := st in
  let suite_name := ET.get_str suite "name" "Unknown" in
  let suites_sum_time := nunit_suite_time suites_sum_time suite in
  match ET.find suite "results" with
  | Some results =>
      cases' <- for_each (nunit_test_case suite_name)
                  (ET.findall results "test-case") cases ;;
      Ok (suites_sum_time, cases')
  | None => Ok (suites_sum_time, cases)
  end.

(** The root's [time] attribute as a float, [0.0] when it is not one. *)
Definition nunit_root_time (root : Element) : float :=
  let time_val := ET.get_str root "time" "0" in
  match to_float time_val with
  | Ok x => x
  | Raise _ => 0%float                           (* except ValueError *)
  end.

(** [_parse_nunit] once the root is known. *)
Definition nunit_summary (root : Element) : res TestResultSummary :=
  if String.eqb (ET.tag root) "test-results" then
    total_tests <- int_attr root "total" ;;
    total_errors <- int_attr root "errors" ;;
    total_failed <- int_attr root "failures" ;;
    n_skipped <- int_attr root "skipped" ;;
    n_ignored <- int_attr root "ignored" ;;
    n_not_run <- int_attr root "not-run" ;;
    let total_skipped := n_skipped + n_ignored + n_not_run in
    let total_time := nunit_root_time root in
    let total_passed := total_tests - total_failed - total_errors - total_skipped in
    st <- for_each nunit_suite (ET.findall_desc root "test-suite") (0%float, []) ;;
    let '(suites_sum_time, cases) := st in
    let total_time :=
      if PrimFloat.eqb total_time 0 then suites_sum_time else total_time in
    Ok (mkTestResultSummary total_tests total_passed total_failed total_skipped
          total_errors total_time cases)
  else Ok empty_summary.

(** *** JUnit *)

(** Status, raw message and counters of one [testcase], from its
    [failure], [error] and [skipped] children in that order. *)
Definition junit_outcome (st : TestResultSummary) (tc : Element)
  : string * option string * TestResultSummary :=
  let failure := ET.find tc "failure" in
  let error := ET.find tc "error" in
  let skipped_elem := ET.find tc "skipped" in
  match failure, error, skipped_elem with
  | Some f, _, _ =>
      ("failed", PyStr.or_else (ET.get f "message") (ET.text f),
       mkTestResultSummary (total st) (passed st) (failed st + 1) (skipped st)
         (errors st) (total_time st) (test_cases st))
  | None, Some e, _ =>
      ("error", PyStr.or_else (ET.get e "message") (ET.text e),
       mkTestResultSummary (total st) (passed st) (failed st) (skipped st)
         (errors st + 1) (total_time st) (test_cases st))
  | None, None, Some s =>
      ("skipped", PyStr.or_else (ET.get s "message") (ET.text s),
       mkTestResultSummary (total st) (passed st) (failed st) (skipped st + 1)
         (errors st) (total_time st) (test_cases st))
  | None, None, None =>
      ("passed", None,
       mkTestResultSummary (total st) (passed st + 1) (failed st) (skipped st)
         (errors st) (total_time st) (test_cases st))
  end.

(** Body of [for tc in suite.findall('.//testcase')]. *)
Definition junit_testcase (suite_name : string) (st : TestResultSummary)
  (tc : Element) : res TestResultSummary :=
  let tc_name := ET.get_str tc "name" "Unknown" in
  tc_time <- float_attr tc "time" ;;
  let '(tc_result, tc_message, st1) := junit_outcome st tc in
  let st2 :=
    mkTestResultSummary (total st1 + 1) (passed st1) (failed st1) (skipped st1)
      (errors st1) (total_time st1) (test_cases st1) in
  Ok (append_case st2
        (mkTestCaseResult tc_name suite_name tc_result tc_time
           (strip_if_any tc_message))).

(** [if x: total_time += float(x)] for an attribute value [x]. *)
Definition add_time_attr (st : TestResultSummary) (x : option string)
  : res TestResultSummary :=
  match x with
  | Some v => if PyStr.truthy v then (t <- to_float v ;; Ok (add_time st t))
              else Ok st
  | None => Ok st
  end.

(** Body of [for suite in suites]. *)
Definition junit_suite (root : Element) (st : TestResultSummary)
  (suite : Element) : res TestResultSummary :=
  let suite_name := ET.get_str suite "name" "Unknown" in
  st1 <- (if negb (String.eqb (ET.tag root) "testsuites")
             || negb (PyStr.truthy_opt (ET.get root "time"))
          then add_time_attr st (ET.get suite "time")
          else Ok st) ;;
  for_each (junit_testcase suite_name) (ET.findall_desc suite "testcase") st1.

(** The suites a JUnit root is read as. *)
Definition junit_suites (root : Element) : list Element :=
  if String.eqb (ET.tag root) "testsuites" then ET.findall root "testsuite"
  else if String.eqb (ET.tag root) "testsuite" then [root]
  else ET.findall_desc root "testsuite".

(** [total_time] before the suites are read: the root's [time] when the
    root is [testsuites] and the attribute is non-empty, [0.0] otherwise. *)
Definition junit_root_time (root : Element) : res float :=
  if String.eqb (ET.tag root) "testsuites" then
    match ET.get root "time" with
    | Some root_time =>
        if PyStr.truthy root_time then to_float root_time else Ok 0%float
    | None => Ok 0%float
    end
  else Ok 0%float.

(** [_parse_junit] once the root is known. *)
Definition junit_summary (root : Element) : res TestResultSummary :=
  total_time <- junit_root_time root ;;
  for_each (junit_suite root) (junit_suites root)
    (mkTestResultSummary 0 0 0 0 0 total_time []).

(** *** xUnit *)

Definition xunit_result (test_result_status : string) : string :=
  let normalized_result := PyStr.lower test_result_status in
  if String.eqb normalized_result "pass" then "passed"
  else if String.eqb normalized_result "fail" then "failed"
  else if String.eqb normalized_result "skip" then "skipped"
  else normalized_result.

Definition xunit_message (test : Element) : option string :=
  match ET.find_desc test "failure" with
  | Some failure_elem =>
      match ET.find failure_elem "message" with
      | Some message_elem =>
          match ET.text message_elem with
          | Some t => if PyStr.truthy t then Some (PyStr.strip t) else None
          | None => None
          end
      | None => None
      end
  | None => None
  end.

(** Body of [for test in collection.findall('.//test')]. *)
Definition xunit_test (collection_name : string) (st : TestResultSummary)
  (test : Element) : res TestResultSummary :=
  let test_name := ET.get_str test "name" "Unknown Test" in
  let test_result_status := ET.get_str test "result" "Unknown" in
  test_time <- float_attr test "time" ;;
  Ok (append_case st
        (mkTestCaseResult test_name collection_name
           (xunit_result test_result_status) test_time (xunit_message test))).

(** Body of [for collection in assembly.findall('.//collection')]. *)
Definition xunit_collection (st : TestResultSummary) (collection : Element)
  : res TestResultSummary :=
  let collection_name := ET.get_str collection "name" "Unknown Collection" in
  for_each (xunit_test collection_name) (ET.findall_desc collection "test") st.

(** The assembly-level statistics added to the running totals. *)
Definition xunit_assembly_stats (st : TestResultSummary) (assembly : Element)
  : res TestResultSummary :=
  a_total <- int_attr assembly "total" ;;
  a_passed <- int_attr assembly "passed" ;;
  a_failed <- int_attr assembly "failed" ;;
  a_skipped <- int_attr assembly "skipped" ;;
  a_errors <- int_attr assembly "errors" ;;
  a_time <- float_attr assembly "time" ;;
  Ok (mkTestResultSummary (total st + a_total) (passed st + a_passed)
        (failed st + a_failed) (skipped st + a_skipped) (errors st + a_errors)
        (total_time st + a_time)%float (test_cases st)).

(** Body of [for assembly in root.findall('.//assembly')]. *)
Definition xunit_assembly (st : TestResultSummary) (assembly : Element)
  : res TestResultSummary :=
  st1 <- xunit_assembly_stats st assembly ;;
  for_each xunit_collection (ET.findall_desc assembly "collection") st1.

(** [_parse_xunit] once the root is known. *)
Definition xunit_summary (root : Element) : res TestResultSummary :=
  for_each xunit_assembly (ET.findall_desc root "assembly") empty_summary.

(* ================================================================== *)
(** ** utils/parser.py: input resolution and the facade *)
(* ================================================================== *)

(** What a call does to the outside world or to its input, in order. *)
Inductive event : Type :=
| PathLookup (p : string)     (* Path(p).exists() / .is_file() *)
| FileParse (p : string)      (* ET.parse(p) *)
| StringParse (s : string).   (* ET.fromstring(s) *)

Definition newline : string := String (ascii_of_nat 10) EmptyString.
Definition backslash : string := String (ascii_of_nat 92) EmptyString.

(** The heuristic [is_likely_path] of [_get_root]. *)
Definition is_likely_path (test_result : string) : bool :=
  negb (PyStr.contains newline test_result)
  && (PyStr.contains "/" test_result
      || PyStr.contains backslash test_result
      || PyStr.endswith (PyStr.lower test_result) ".xml").

Section Facade.

(** The file system and the XML parser.
    [path_is_file p] is [path.exists() and path.is_file()], [None] when
    it raises [OSError]; [et_parse p] is [ET.parse(p).getroot()];
    [et_fromstring s] is [ET.fromstring(s)]. *)
Variable path_is_file : string -> option bool.
Variable et_parse : string -> res Element.
Variable et_fromstring : string -> res Element.

(** [_get_root]: the events of the call and its outcome. *)
Definition _get_root (test_result : string) : list event * res Element :=
  let stripped_result := PyStr.strip test_result in
  let '(looked, is_file) :=
    if negb (PyStr.startswith stripped_result "<") then
      if Z.of_nat (String.length test_result) <? 4096 then
        ([PathLookup test_result],
         match path_is_file test_result with
         | Some b => b
         | None => false                         (* except OSError: pass *)
         end)
      else ([], false)
    else ([], false) in
  if is_file then
    (looked ++ [FileParse test_result], et_parse test_result)
  else if PyStr.startswith stripped_result "<" then
    (looked ++ [StringParse test_result], et_fromstring test_result)
  else if is_likely_path test_result then
    (looked, Raise (FileNotFoundError test_result))
  else
    (looked ++ [StringParse test_result], et_fromstring test_result).

Definition with_root (test_result : string)
  (k : Element -> res TestResultSummary) : list event * res TestResultSummary :=
  let '(evs, r) := _get_root test_result in
  (evs, root <- r ;; k root).

Definition _parse_nunit (test_result : string) :=
  with_root test_result nunit_summary.

Definition _parse_junit (test_result : string) :=
  with_root test_result junit_summary.

Definition _parse_xunit (test_result : string) :=
  with_root test_result xunit_summary.

(** [TestResultParser(report_type).parse(test_result)] *)
Definition parse (report_type test_result : string)
  : list event * res TestResultSummary :=
  if String.eqb report_type "junit" then _parse_junit test_result
  else if String.eqb report_type "xunit" then _parse_xunit test_result
  else if String.eqb report_type "nunit" then _parse_nunit test_result
  else ([], Raise (ValueError (UnsupportedReportType report_type))).

End Facade.

(* ================================================================== *)
(** ** The documents of tests/test_parser.py, as element trees *)
(* ================================================================== *)

Module Samples.

Definition leaf (t : string) (a : list (string * string)) : Element :=
  Elem t a None [].

(** Text between a start tag and the first child of an indented element. *)
Definition ws : option string := Some (newline ++ "    ")%string.

Definition JUNIT_XML : Element :=
  Elem "testsuites" [("time", "1.5")] ws
    [ Elem "testsuite" [("name", "Suite 1"); ("time", "1.0")] ws
        [ leaf "testcase" [("name", "Test 1"); ("time", "0.6")];
          Elem "testcase" [("name", "Test 2"); ("time", "0.4")] ws
            [ Elem "failure" [("message", "Assertion failed")]
                (Some "Details") [] ] ];
      Elem "testsuite" [("name", "Suite 2"); ("time", "0.5")] ws
        [ Elem "testcase" [("name", "Test 3"); ("time", "0.5")] ws
            [ leaf "skipped" [("message", "Ignored")] ] ] ].

Definition XUNIT_XML : Element :=
  Elem "assemblies" [] ws
    [ Elem "assembly"
        [("name", "Asm 1"); ("total", "2"); ("passed", "1"); ("failed", "1");
         ("skipped", "0"); ("errors", "0"); ("time", "1.2")] ws
        [ Elem "collection" [("name", "Coll 1")] ws
            [ leaf "test" [("name", "Test 1"); ("result", "Pass"); ("time", "0.7")];
              Elem "test" [("name", "Test 2"); ("result", "Fail"); ("time", "0.5")] ws
                [ leaf "failure" [("message", "Error found")] ] ] ] ].

Definition NUNIT_XML : Element :=
  Elem "test-results"
    [("total", "3"); ("failures", "1"); ("errors", "0"); ("skipped", "1");
     ("time", "2.0")] ws
    [ Elem "test-suite" [("name", "Suite 1"); ("time", "1.0")] ws
        [ Elem "results" [] ws
            [ leaf "test-case" [("name", "Test 1"); ("result", "Success"); ("time", "0.5")];
              Elem "test-case" [("name", "Test 2"); ("result", "Failure"); ("time", "0.5")] ws
                [ Elem "failure" [] ws
                    [ Elem "message" [] (Some "Fail Message") [] ] ] ] ];
      Elem "test-suite" [("name", "Suite 2"); ("time", "1.0")] ws
        [ Elem "results" [] ws
            [ leaf "test-case" [("name", "Test 3"); ("result", "Ignored"); ("time", "0.0")] ] ] ].

End Samples.

(* ================================================================== *)
(** ** Vocabulary of the statements and further sample documents *)
(* ================================================================== *)

Definition returns {A : Type} (r : res A) : bool :=
  match r with Ok _ => true | Raise _ => false end.

(** An all-skipped report with the three vocabularies of "skipped". *)
Definition all_skipped_report : Element :=
  Elem "test-results"
    [("total", "3"); ("failures", "0"); ("errors", "0"); ("skipped", "1");
     ("ignored", "1"); ("not-run", "1"); ("time", "0.5")] None [].

(** The tallies agree with each other and with the case list. *)
Definition tally_consistent (st : TestResultSummary) : Prop :=
  total st = passed st + failed st + errors st + skipped st
  /\ total st = Z.of_nat (List.length (test_cases st)).

(** The test cases a JUnit parse meets, in the order it meets them. *)
Definition junit_testcases (root : Element) : list Element :=
  flat_map (fun suite => ET.findall_desc suite "testcase") (junit_suites root).

(** The status [r] of a test case follows its [failure], [error] and
    [skipped] children, in that order of priority. *)
Definition junit_status_rule (tc : Element) (r : string) : Prop :=
  (r = "passed" <->
     ET.find tc "failure" = None /\ ET.find tc "error" = None
     /\ ET.find tc "skipped" = None)
  /\ (ET.find tc "failure" <> None -> r = "failed")
  /\ (ET.find tc "failure" = None -> ET.find tc "error" <> None -> r = "error")
  /\ (ET.find tc "failure" = None -> ET.find tc "error" = None ->
      ET.find tc "skipped" <> None -> r = "skipped").

(** A test case with all three children, one with [error] and [skipped],
    one with [skipped] only, and one with none. *)
Definition priority_report : Element :=
  Elem "testsuite" [("name", "S")] None
    [ Elem "testcase" [("name", "a")] None
        [ Samples.leaf "skipped" []; Samples.leaf "error" [];
          Samples.leaf "failure" [] ];
      Elem "testcase" [("name", "b")] None
        [ Samples.leaf "skipped" []; Samples.leaf "error" [] ];
      Elem "testcase" [("name", "c")] None [ Samples.leaf "skipped" [] ];
      Samples.leaf "testcase" [("name", "d")] ].

Definition priority_summary : TestResultSummary :=
  mkTestResultSummary 4 1 1 1 1 0
    [ mkTestCaseResult "a" "S" "failed" 0 None;
      mkTestCaseResult "b" "S" "error" 0 None;
      mkTestCaseResult "c" "S" "skipped" 0 None;
      mkTestCaseResult "d" "S" "passed" 0 None ].

(** [sum(int(a.get(key, 0)) for a in els)], raising where [int] does. *)
Definition sum_int_attr (key : string) (els : list Element) : res Z :=
  for_each (fun acc a => x <- int_attr a key ;; Ok (acc + x)) els 0.

(** The float sum, added from the left starting at [0.0]. *)
Definition sum_float_attr (key : string) (els : list Element) : res float :=
  for_each (fun acc a => x <- float_attr a key ;; Ok (acc + x)%float) els 0%float.

(** The cases of a summary whose status is [r]. *)
Definition count_status (r : string) (cases : list TestCaseResult) : Z :=
  Z.of_nat (List.length (filter (fun c => String.eqb (result c) r) cases)).

Definition counters (st : TestResultSummary) : Z * Z * Z * Z * Z * float :=
  (total st, passed st, failed st, skipped st, errors st, total_time st).

(** The six totals of [st] are the sums over the assemblies [done]. *)
Definition sums_over (done : list Element) (st : TestResultSummary) : Prop :=
  sum_int_attr "total" done = Ok (total st)
  /\ sum_int_attr "passed" done = Ok (passed st)
  /\ sum_int_attr "failed" done = Ok (failed st)
  /\ sum_int_attr "skipped" done = Ok (skipped st)
  /\ sum_int_attr "errors" done = Ok (errors st)
  /\ sum_float_attr "time" done = Ok (total_time st).

(** An assembly that announces five tests and holds one. *)
Definition disagreeing_report : Element :=
  Elem "assemblies" [] None
    [ Elem "assembly"
        [("total", "5"); ("passed", "4"); ("failed", "1"); ("time", "2.5")] None
        [ Elem "collection" [("name", "C")] None
            [ Samples.leaf "test" [("name", "t"); ("result", "Fail"); ("time", "0.5")] ] ] ].

Definition disagreeing_summary : TestResultSummary :=
  mkTestResultSummary 5 4 1 0 0 2.5 [ mkTestCaseResult "t" "C" "failed" 0.5 None ].

(** All the [assembly] elements of a document, the root included. *)
Definition document_assemblies (root : Element) : list Element :=
  filter (ET.has_tag "assembly") (ET.iter root).

(** A document whose root is itself an assembly that announces five
    tests. *)
Definition root_assembly_report : Element :=
  Elem "assembly"
    [("total", "5"); ("passed", "4"); ("failed", "1"); ("time", "2.5")] None
    [ Elem "collection" [("name", "C")] None
        [ Samples.leaf "test" [("name", "t"); ("result", "Fail"); ("time", "0.5")] ] ].

(** The events of [_get_root] before it opens or parses anything. *)
Definition lookup_events (test_result : string) : list event :=
  if Z.of_nat (String.length test_result) <? 4096
  then [PathLookup test_result] else [].

(** The [test-case] elements read under one [test-suite]. *)
Definition nunit_test_cases_of (suite : Element) : list Element :=
  match ET.find suite "results" with
  | Some results => ET.findall results "test-case"
  | None => []
  end.

(** The six count attributes of the root are integers. *)
Definition nunit_counts_ok (root : Element) : bool :=
  forallb (fun key => returns (int_attr root key))
    ["total"; "errors"; "failures"; "skipped"; "ignored"; "not-run"].

(** The [time] of every [test-case] read is a float. *)
Definition nunit_case_times_ok (root : Element) : bool :=
  forallb (fun suite =>
             forallb (fun tc => returns (float_attr tc "time"))
               (nunit_test_cases_of suite))
    (ET.findall_desc root "test-suite").








(** The [time] attributes of [suites] that are floats, in order. *)
Definition suite_times (suites : list Element) : list float :=
  flat_map (fun suite =>
              match ET.get suite "time" with
              | Some v => match PyNum.py_float v with
                          | Some x => [x]
                          | None => []
                          end
              | None => []
              end) suites.

(** The sum of floats, added from the left starting at [0.0]. *)
Definition float_sum (xs : list float) : float :=
  fold_left PrimFloat.add xs 0%float.

(** A root with a wall-clock time, one top-level suite of 1.0 s and,
    nested in it, a suite of 2.0 s. *)
Definition nested_suites_report : Element :=
  Elem "test-results" [("total", "0"); ("time", "20:10:11")] None
    [ Elem "test-suite" [("name", "outer"); ("time", "1.0")] None
        [ Elem "results" [] None
            [ Elem "test-suite" [("name", "inner"); ("time", "2.0")] None [] ] ] ].

(** A test case whose [failure] child has text and no [message] child. *)
Definition bare_failure_case : Element :=
  Elem "test-case" [("name", "t"); ("result", "Failure")] None
    [ Elem "failure" [] (Some " boom ") [] ].

(** A world with no file, where every XML string is the JUnit sample. *)
Definition no_file (p : string) : option bool := Some false.
Definition cannot_open (p : string) : res Element := Raise OSError.
Definition always_junit (s : string) : res Element := Ok Samples.JUNIT_XML.
(** A world with no file, where no string is well-formed XML. *)
Definition never_xml (s : string) : res Element := Raise ParseError.

(* ================================================================== *)
(** ** Vocabulary of the further properties of the parser *)
(* ================================================================== *)

(** The elements of [els] with a non-empty [time] attribute. *)
Definition timed (els : list Element) : list Element :=
  filter (fun e => PyStr.truthy_opt (ET.get e "time")) els.

(** The test cases a parse meets, each with the element that names its
    suite, in the order it meets them. *)
Definition junit_cases_of (root : Element) : list (Element * Element) :=
  flat_map (fun suite => map (pair suite) (ET.findall_desc suite "testcase"))
    (junit_suites root).

Definition nunit_cases_of (root : Element) : list (Element * Element) :=
  flat_map (fun suite => map (pair suite) (nunit_test_cases_of suite))
    (ET.findall_desc root "test-suite").

Definition xunit_cases_of (root : Element) : list (Element * Element) :=
  flat_map (fun assembly =>
              flat_map (fun collection =>
                          map (pair collection) (ET.findall_desc collection "test"))
                (ET.findall_desc assembly "collection"))
    (ET.findall_desc root "assembly").

(** The child that decides the status of a JUnit test case. *)
Definition junit_deciding_child (tc : Element) : option Element :=
  match ET.find tc "failure" with
  | Some f => Some f
  | None => match ET.find tc "error" with
            | Some e => Some e
            | None => ET.find tc "skipped"
            end
  end.

(** A path of 4096 characters that ends in [.xml]. *)
Definition long_path : string :=
  String.concat "" (repeat "abcdefgh" 511) ++ "abcd.xml".

(** A world where every path is a regular file holding the NUnit sample. *)
Definition every_file (p : string) : option bool := Some true.
Definition opens_nunit (p : string) : res Element := Ok Samples.NUNIT_XML.

(** Where the message [m] of a JUnit case comes from: the deciding child's
    non-empty [message] attribute, else its text, each trimmed. *)
Definition junit_message_rule (tc : Element) (m : option string) : Prop :=
  (junit_deciding_child tc = None -> m = None)
  /\ (forall ch a, junit_deciding_child tc = Some ch ->
                   ET.get ch "message" = Some a -> a <> "" ->
                   m = Some (PyStr.strip a))
  /\ (forall ch, junit_deciding_child tc = Some ch ->
                 PyStr.truthy_opt (ET.get ch "message") = false ->
                 (forall t, ET.text ch = Some t -> t <> "" ->
                            m = Some (PyStr.strip t))
                 /\ (PyStr.truthy_opt (ET.text ch) = false -> m = None)).

(** The case [c] carries the [name] of its element [tc], the [name] of
    the element [owner] that groups it, with the given placeholders when
    absent, and the [time] of [tc] as a float. *)
Definition case_identity (unknown_name unknown_owner : string)
  (owner tc : Element) (c : TestCaseResult) : Prop :=
  name c = ET.get_str tc "name" unknown_name
  /\ suite c = ET.get_str owner "name" unknown_owner
  /\ float_attr tc "time" = Ok (time c).

(** The four tallies count the cases by status. *)
Definition tallies_by_status (st : TestResultSummary) : Prop :=
  passed st = count_status "passed" (test_cases st)
  /\ failed st = count_status "failed" (test_cases st)
  /\ errors st = count_status "error" (test_cases st)
  /\ skipped st = count_status "skipped" (test_cases st).

(** What the three samples of tests/test_parser.py parse to. *)
Definition junit_sample_summary : TestResultSummary :=
  mkTestResultSummary 3 1 1 1 0 1.5
    [ mkTestCaseResult "Test 1" "Suite 1" "passed"
        (PyNum.float_of_decimal false 6 (-1)) None;
      mkTestCaseResult "Test 2" "Suite 1" "failed"
        (PyNum.float_of_decimal false 4 (-1)) (Some "Assertion failed");
      mkTestCaseResult "Test 3" "Suite 2" "skipped" 0.5 (Some "Ignored") ].

Definition nunit_sample_summary : TestResultSummary :=
  mkTestResultSummary 3 1 1 1 0 2
    [ mkTestCaseResult "Test 1" "Suite 1" "passed" 0.5 None;
      mkTestCaseResult "Test 2" "Suite 1" "failed" 0.5 (Some "Fail Message");
      mkTestCaseResult "Test 3" "Suite 2" "skipped" 0 None ].

Definition xunit_sample_summary : TestResultSummary :=
  mkTestResultSummary 2 1 1 0 0 (PyNum.float_of_decimal false 12 (-1))
    [ mkTestCaseResult "Test 1" "Coll 1" "passed"
        (PyNum.float_of_decimal false 7 (-1)) None;
      mkTestCaseResult "Test 2" "Coll 1" "failed" 0.5 None ].

(** The message of the case [c], when there is one, has no whitespace at
    either end. *)
Definition message_trimmed (c : TestCaseResult) : Prop :=
  forall m, message c = Some m -> PyStr.strip m = m.

(* ================================================================== *)
(** ** tools/run_tests.py *)
(* ================================================================== *)

(** What a run does to the outside world, in order. *)
Inductive sys_event : Type :=
| MkTemp (path : string)             (* tempfile.mkstemp(suffix=".xml"), os.close *)
| Subprocess (cmd : list string)     (* subprocess.run(cmd, ...) *)
| Parser (evs : list event)          (* TestResultParser(...).parse(output_file) *)
| PathExists (p : string)            (* os.path.exists(p) *)
| Remove (p : string).               (* os.remove(p) *)

(** [if not output_file]: [None] or the empty string. *)
Definition no_output_file (output_file : option string) : bool :=
  negb (PyStr.truthy_opt output_file).

(** The command line of [_run_unittest_internal]. *)
Definition helm_cmd (test_suite_files chart_path : string)
  (values_path : list string) (output_type output_file : string)
  (update_snapshot : bool) : list string :=
  ["helm"; "unittest"; "-f"; test_suite_files; chart_path; "-t"; output_type;
   "-o"; output_file]
  ++ (if update_snapshot then ["-u"] else [])
  ++ flat_map (fun v => ["-v"; v]) values_path.

Section RunTests.

(** The machine: its state and the calls that read or change it.
    [mkstemp] creates and closes a temporary file and gives its path;
    [subprocess_run] runs a command to its end; [os_remove] removes a
    file; the others are as in [Facade], in a given state. *)
Variable World : Type.
Variable mkstemp : World -> res string * World.
Variable subprocess_run : list string -> World -> res unit * World.
Variable path_is_file : World -> string -> option bool.
Variable et_parse : World -> string -> res Element.
Variable et_fromstring : string -> res Element.
Variable path_exists : World -> string -> bool.
Variable os_remove : string -> World -> res unit * World.

(** The [try ... finally] of [_run_unittest_internal]: parse, then remove
    the temporary file when it is ours and still there, whatever the parse
    gave; an error of the removal is dropped. *)
Definition parse_and_cleanup (output_type output_file : string) (is_temp : bool)
  (w : World) : list sys_event * res TestResultSummary * World :=
  let '(evs, r) :=
    parse (path_is_file w) (et_parse w) et_fromstring output_type output_file in
  if is_temp then
    if path_exists w output_file then
      ([Parser evs; PathExists output_file; Remove output_file], r,
       snd (os_remove output_file w))
    else ([Parser evs; PathExists output_file], r, w)
  else ([Parser evs], r, w).

Definition _run_unittest_internal (test_suite_files chart_path : string)
  (values_path : list string) (output_type : string)
  (output_file : option string) (update_snapshot : bool) (w : World)
  : list sys_event * res TestResultSummary * World :=
  let '(made, target, w1) :=
    match output_file with
    | Some f =>
        if PyStr.truthy f then ([], Ok (f, false), w)
        else match mkstemp w with
             | (Ok p, w') => ([MkTemp p], Ok (p, true), w')
             | (Raise e, w') => ([], Raise e, w')
             end
    | None =>
        match mkstemp w with
        | (Ok p, w') => ([MkTemp p], Ok (p, true), w')
        | (Raise e, w') => ([], Raise e, w')
        end
    end in
  match target with
  | Raise e => (made, Raise e, w1)
  | Ok (output_file, is_temp) =>
      let cmd := helm_cmd test_suite_files chart_path values_path output_type
                   output_file update_snapshot in
      match subprocess_run cmd w1 with
      | (Raise e, w2) => (made ++ [Subprocess cmd], Raise e, w2)
      | (Ok _, w2) =>
          let '(evs, r, w3) := parse_and_cleanup output_type output_file is_temp w2 in
          (made ++ Subprocess cmd :: evs, r, w3)
      end
  end.

Definition run_unittest (test_suite_files chart_path : string)
  (values_path : list string) (output_type : string)
  (output_file : option string) (w : World) :=
  _run_unittest_internal test_suite_files chart_path values_path output_type
    output_file false w.

Definition update_snapshot (test_suite_files chart_path : string)
  (values_path : list string) (output_type : string)
  (output_file : option string) (w : World) :=
  _run_unittest_internal test_suite_files chart_path values_path output_type
    output_file true w.

End RunTests.

(** An event of the run's own handling of a temporary file: making it
    ([mkstemp]), probing it ([os.path.exists]) or removing it
    ([os.remove]). What the parser does to read the report is inside
    [Parser]. *)
Definition touches_temp (ev : sys_event) : bool :=
  match ev with
  | MkTemp _ | PathExists _ | Remove _ => true
  | Subprocess _ | Parser _ => false
  end.

(** A machine for the examples: the state is the list of the files that
    exist; [mkstemp] creates "/tmp/t.xml"; helm writes nothing. *)
Definition toy_mkstemp (w : list string) : res string * list string :=
  (Ok "/tmp/t.xml", "/tmp/t.xml" :: w).
Definition toy_run (cmd : list string) (w : list string) : res unit * list string :=
  (Ok tt, w).
Definition toy_no_helm (cmd : list string) (w : list string)
  : res unit * list string := (Raise (FileNotFoundError "helm"), w).
Definition toy_is_file (w : list string) (p : string) : option bool :=
  Some (existsb (String.eqb p) w).
Definition toy_parse (w : list string) (p : string) : res Element := Raise ParseError.
Definition toy_exists (w : list string) (p : string) : bool :=
  existsb (String.eqb p) w.
Definition toy_remove (p : string) (w : list string) : res unit * list string :=
  (Ok tt, filter (fun q => negb (String.eqb p q)) w).

(* ================================================================== *)
(** ** tools/get_tests.py *)
(* ================================================================== *)

(** What [yaml.safe_load] can build. A mapping is a list of entries with
    distinct keys; lookup takes the first. *)
#[warnings="-register-all"] Inductive yaml : Type :=
| YNull
| YBool (b : bool)
| YInt (z : Z)
| YFloat (x : float)
| YStr (s : string)
| YBytes (b : string)                         (* !!binary *)
| YDate (with_time : bool) (iso : string)     (* date or datetime *)
| YList (items : list yaml)
| YDict (entries : list (yaml * yaml))
| YSet (members : list yaml)                  (* !!set *)
| YTuple (k v : yaml).                        (* an entry of !!omap or !!pairs *)

Module PyObj.

(** [type(x).__name__] *)
Definition type_name (x : yaml) : string :=
  match x with
  | YNull => "NoneType"
  | YBool _ => "bool"
  | YInt _ => "int"
  | YFloat _ => "float"
  | YStr _ => "str"
  | YBytes _ => "bytes"
  | YDate false _ => "date"
  | YDate true _ => "datetime"
  | YList _ => "list"
  | YDict _ => "dict"
  | YSet _ => "set"
  | YTuple _ _ => "tuple"
  end.

(** The type as an [AttributeError] names it. *)
Definition qualified_type_name (x : yaml) : string :=
  match x with
  | YDate false _ => "datetime.date"
  | YDate true _ => "datetime.datetime"
  | _ => type_name x
  end.

(** [str(AttributeError)] for a missing attribute. *)
Definition no_attribute (x : yaml) (attr : string) : string :=
  "'" ++ qualified_type_name x ++ "' object has no attribute '" ++ attr ++ "'".

(** [d.get(key)] for a string key: [None] is the key is absent. *)
Fixpoint dict_get (key : string) (d : list (yaml * yaml)) : option yaml :=
  match d with
  | [] => None
  | (YStr k, v) :: d' => if String.eqb k key then Some v else dict_get key d'
  | _ :: d' => dict_get key d'
  end.

(** [key in d] *)
Definition dict_has (key : string) (d : list (yaml * yaml)) : bool :=
  match dict_get key d with Some _ => true | None => false end.

(** [bytes.strip]: blank, TAB, LF, VT, FF and CR are whitespace. *)
Definition is_bytes_space (c : ascii) : bool :=
  let n := N_of_ascii c in
  (((9 <=? n) && (n <=? 13)) || (n =? 32))%N.

Fixpoint bytes_lstrip (s : string) : string :=
  match s with
  | EmptyString => EmptyString
  | String c r => if is_bytes_space c then bytes_lstrip r else s
  end.

Fixpoint bytes_rstrip (s : string) : string :=
  match s with
  | EmptyString => EmptyString
  | String c r =>
      match bytes_rstrip r with
      | EmptyString => if is_bytes_space c then EmptyString else String c EmptyString
      | r' => String c r'
      end
  end.

Definition bytes_strip (s : string) : string := bytes_rstrip (bytes_lstrip s).

(** [x.strip()]: the stripped value, or the text of the [AttributeError]. *)
Definition strip (x : yaml) : string + yaml :=
  match x with
  | YStr s => inr (YStr (PyStr.strip s))
  | YBytes b => inr (YBytes (bytes_strip b))
  | _ => inl (no_attribute x "strip")
  end.

(** [", ".join(xs)] *)
Fixpoint join_comma (xs : list string) : string :=
  match xs with
  | [] => ""
  | [x] => x
  | x :: rest => x ++ ", " ++ join_comma rest
  end.

(** [os.path.join(root, name)] on POSIX. *)
Definition path_join (root name : string) : string :=
  if PyStr.startswith name "/" then name
  else if String.eqb root "" || PyStr.endswith root "/" then root ++ name
  else root ++ "/" ++ name.

End PyObj.

(** The exceptions the tools raise, with their message. *)
Inductive tool_exn : Type :=
| ToolValueError (msg : string)
| ToolTypeError (msg : string)
| ToolKeyError (msg : string)
| ToolFileNotFoundError (msg : string)
| ToolNotADirectoryError (msg : string)
| ToolPermissionError (msg : string)
| ToolYAMLError (msg : string)
| ToolIOError (msg : string).

Inductive tres (A : Type) : Type :=
| TOk (a : A)
| TRaise (e : tool_exn).
Arguments TOk {A} a.
Arguments TRaise {A} e.

(** utils/dtos.py: [TestFile] *)
Module TestFile.
Record t : Type := mk {
  suite : string;
  tests : list yaml;
  release : yaml;
  file_path : string
}.
End TestFile.

(** What [open(path)] followed by [yaml.safe_load] comes to, as the
    [except] clauses of [get_test_from_file] tell the errors apart; [e] is
    [str] of the exception. *)
Inductive load_outcome : Type :=
| Loaded (doc : yaml)
| LoadFileNotFound
| LoadPermissionDenied
| LoadYAMLError (e : string)
| LoadOtherError (e : string).

(** [x.get('it').strip()] for one entry of the test list. *)
Definition test_title (x : yaml) : string + yaml :=
  match x with
  | YDict d =>
      match PyObj.dict_get "it" d with
      | Some v => PyObj.strip v
      | None => PyObj.strip YNull
      end
  | _ => inl (PyObj.no_attribute x "get")
  end.

(** [[x.get('it').strip() for x in test_list]]: the titles, or the first
    error. *)
Fixpoint test_titles (test_list : list yaml) : string + list yaml :=
  match test_list with
  | [] => inr []
  | x :: rest =>
      match test_title x with
      | inl e => inl e
      | inr t => match test_titles rest with
                 | inl e => inl e
                 | inr ts => inr (t :: ts)
                 end
      end
  end.

Definition required_fields : list string := ["suite"; "tests"].

Section GetTests.

Variable load_yaml : string -> load_outcome.

Definition get_test_from_file (test_file_path : string) : tres TestFile.t :=
  if negb (PyStr.truthy test_file_path) then
    TRaise (ToolValueError "test_file_path cannot be empty")
  else
    match load_yaml test_file_path with
    | LoadFileNotFound =>
        TRaise (ToolFileNotFoundError
                  ("Test file not found: " ++ test_file_path ++ ". "
                   ++ "Please verify the file path is correct and the file exists."))
    | LoadPermissionDenied =>
        TRaise (ToolPermissionError
                  ("Permission denied when reading test file: " ++ test_file_path
                   ++ ". " ++ "Please check file permissions."))
    | LoadYAMLError e =>
        TRaise (ToolYAMLError
                  ("Invalid YAML syntax in test file " ++ test_file_path ++ ": "
                   ++ e ++ ". " ++ "Please ensure the file contains valid YAML."))
    | LoadOtherError e =>
        TRaise (ToolIOError
                  ("Unexpected error reading test file " ++ test_file_path ++ ": "
                   ++ e))
    | Loaded YNull =>
        TRaise (ToolValueError
                  ("Test file " ++ test_file_path
                   ++ " is empty or contains only null values"))
    | Loaded (YDict tests) =>
        let missing_fields :=
          filter (fun field => negb (PyObj.dict_has field tests)) required_fields in
        match missing_fields with
        | _ :: _ =>
            TRaise (ToolKeyError
                      ("Missing required field(s) in test file " ++ test_file_path
                       ++ ": " ++ PyObj.join_comma missing_fields ++ ". "
                       ++ "Required fields are: "
                       ++ PyObj.join_comma required_fields))
        | [] =>
            match PyObj.dict_get "suite" tests with
            | Some (YStr suite) =>
                if negb (PyStr.truthy (PyStr.strip suite)) then
                  TRaise (ToolValueError
                            ("Field 'suite' cannot be empty in " ++ test_file_path))
                else
                  match PyObj.dict_get "tests" tests with
                  | Some (YList []) =>
                      TRaise (ToolValueError
                                ("Field 'tests' cannot be an empty list in "
                                 ++ test_file_path))
                  | Some (YList items) =>
                      match test_titles items with
                      | inr titles =>
                          TOk (TestFile.mk suite titles
                                 (match PyObj.dict_get "release" tests with
                                  | Some r => r
                                  | None => YDict []
                                  end)
                                 test_file_path)
                      | inl e =>
                          TRaise (ToolValueError
                                    ("Failed to create TestFile object from "
                                     ++ test_file_path ++ ": " ++ e))
                      end
                  | Some other =>
                      TRaise (ToolTypeError
                                ("Field 'tests' must be a list in " ++ test_file_path
                                 ++ ", got " ++ PyObj.type_name other))
                  | None => TRaise (ToolKeyError "tests")  (* tests['tests'] *)
                  end
            | Some suite =>
                TRaise (ToolTypeError
                          ("Field 'suite' must be a string in " ++ test_file_path
                           ++ ", got " ++ PyObj.type_name suite))
            | None => TRaise (ToolKeyError "suite")        (* tests['suite'] *)
            end
        end
    | Loaded other =>
        TRaise (ToolTypeError
                  ("Test file " ++ test_file_path
                   ++ " must contain a YAML dictionary/object, got "
                   ++ PyObj.type_name other))
    end.

(** The file system and the [re] module: [re_compile p] is the matcher
    [re.compile(p).match], or [str] of the [re.error]; [default_pattern] is
    the matcher of [.*\.yaml$] with [re.IGNORECASE]; [os_walk] lists
    [(root, dirs, files)] top-down. *)
Variable path_exists : string -> bool.
Variable path_isdir : string -> bool.
Variable os_walk : string -> list (string * list string * list string).
Variable re_compile : string -> string + (string -> bool).
Variable default_pattern : string -> bool.

(** Body of [for filename in files]: the files parsed so far and the
    warnings printed so far, each a path with the error. *)
Definition visit_file (file_pattern : string -> bool) (root : string)
  (st : list TestFile.t * list (string * tool_exn)) (filename : string)
  : list TestFile.t * list (string * tool_exn) :=
  if file_pattern filename then
    let file_path := PyObj.path_join root filename in
    match get_test_from_file file_path with
    | TOk test_file => (fst st ++ [test_file], snd st)
    | TRaise e => (fst st, snd st ++ [(file_path, e)])
    end
  else st.

(** [blank pattern]: [pattern is None or pattern.strip() == ""] *)
Definition blank_pattern (pattern : option string) : bool :=
  match pattern with
  | None => true
  | Some p => String.eqb (PyStr.strip p) ""
  end.

(** [get_tests]: the parsed files and the warnings printed, or the error
    raised before the walk. *)
Definition get_tests (dir_path : string) (pattern : option string)
  : tres (list TestFile.t * list (string * tool_exn)) :=
  if negb (PyStr.truthy dir_path) then
    TRaise (ToolValueError "dir_path cannot be empty")
  else if negb (path_exists dir_path) then
    TRaise (ToolFileNotFoundError ("Directory not found: " ++ dir_path))
  else if negb (path_isdir dir_path) then
    TRaise (ToolNotADirectoryError ("Path is not a directory: " ++ dir_path))
  else
    let compiled :=
      match pattern with
      | None => inr default_pattern
      | Some p =>
          if String.eqb (PyStr.strip p) "" then inr default_pattern
          else match re_compile p with
               | inr m => inr m
               | inl e =>
                   inl (ToolValueError
                          ("Invalid regex pattern '" ++ p ++ "': " ++ e))
               end
      end in
    match compiled with
    | inl err => TRaise err
    | inr file_pattern =>
        TOk (fold_left
               (fun st entry =>
                  let '(root, _, files) := entry in
                  fold_left (visit_file file_pattern root) files st)
               (os_walk dir_path) ([], []))
    end.

End GetTests.

(** The paths [get_tests] tries to parse: the files of the walk whose name
    matches, joined to their directory, in the order of the walk. *)
Definition matching_paths (walk : list (string * list string * list string))
  (file_pattern : string -> bool) : list string :=
  flat_map (fun entry : string * list string * list string =>
              let '(root, _, files) := entry in
              map (PyObj.path_join root) (filter file_pattern files))
    walk.

(** A title is a string or bytes without whitespace at either end. *)
Definition trimmed_title (t : yaml) : Prop :=
  match t with
  | YStr s => PyStr.strip s = s
  | YBytes b => PyObj.bytes_strip b = b
  | _ => False
  end.

(** The test files of the [paths] that parse, and the warnings for the
    [paths] that do not, each in the order of [paths]. *)
Definition parsed_of (load_yaml : string -> load_outcome) (paths : list string)
  : list TestFile.t :=
  flat_map (fun p => match get_test_from_file load_yaml p with
                     | TOk tf => [tf]
                     | TRaise _ => []
                     end) paths.

Definition warnings_of (load_yaml : string -> load_outcome) (paths : list string)
  : list (string * tool_exn) :=
  flat_map (fun p => match get_test_from_file load_yaml p with
                     | TOk _ => []
                     | TRaise e => [(p, e)]
                     end) paths.

(** A test file for the examples, with one entry without a title. *)
Definition sample_tests_doc : yaml :=
  YDict [ (YStr "suite", YStr "deployment");
          (YStr "tests",
           YList [ YDict [(YStr "it", YStr " should render ")];
                   YDict [(YStr "it", YBytes "works ")] ]) ].

Definition untitled_tests_doc : yaml :=
  YDict [ (YStr "suite", YStr "deployment");
          (YStr "tests",
           YList [ YDict [(YStr "it", YStr "first")];
                   YDict [(YStr "name", YStr "second")];
                   YStr "third" ]) ].

Definition sample_load (p : string) : load_outcome :=
  if String.eqb p "tests/a_test.yaml" then Loaded sample_tests_doc
  else if String.eqb p "tests/b_test.yaml" then Loaded untitled_tests_doc
  else if String.eqb p "tests/c_test.yaml" then Loaded (YDict [(YStr "suite", YInt 1)])
  else LoadFileNotFound.

Definition sample_walk (d : string) : list (string * list string * list string) :=
  [ ("tests", ["sub"], ["a_test.yaml"; "notes.txt"; "b_test.yaml"]);
    ("tests/sub", [], []) ].

Definition ends_in_yaml (f : string) : bool :=
  PyStr.endswith (PyStr.lower f) ".yaml".

Definition sample_compile (p : string) : string + (string -> bool) :=
  if String.eqb p "(" then inl "missing ), unterminated subpattern at position 0"
  else inr (fun f => PyStr.startswith f p).

Definition sample_test_file : TestFile.t :=
  TestFile.mk "deployment" [YStr "should render"; YBytes "works"] (YDict [])
    "tests/a_test.yaml".

(** The matcher [get_tests] walks with, when it walks: the default one for
    a blank pattern, the compiled pattern otherwise. *)
Definition chosen_pattern (re_compile : string -> string + (string -> bool))
  (default_pattern : string -> bool) (pattern : option string)
  (m : string -> bool) : Prop :=
  (blank_pattern pattern = true /\ m = default_pattern)
  \/ (exists p, pattern = Some p /\ PyStr.strip p <> "" /\ re_compile p = inr m).

(* ================================================================== *)
(** ** tools/schema_validator.py *)
(* ================================================================== *)

Definition schema_url : string :=
  "https://raw.githubusercontent.com/helm-unittest/helm-unittest/refs/heads/main/schema/helm-testsuite.json".

(** utils/dtos.py: [ValidationResult] *)
Module ValidationResult.
Record t : Type := mk {
  success : bool;
  message : string;
  errors : option (list string)
}.
End ValidationResult.

(** An exception as the [except] clauses of [validate_schema] tell it
    apart, in their order; [text] is [str(e)], [path] the [str] of the
    items of [e.path] and [msg] is [e.message]. *)
Inductive caught : Type :=
| IsFileNotFoundError (text : string)
| IsYAMLError (text : string)
| IsRequestException (text : string)
| IsValidationError (path : list string) (msg : string)
| IsOtherException (text : string).

(** ["."join(xs)] *)
Fixpoint join_dot (xs : list string) : string :=
  match xs with
  | [] => ""
  | [x] => x
  | x :: rest => x ++ "." ++ join_dot rest
  end.

(** What [validate_schema] returns for an exception. *)
Definition report_caught (test_file_path : string) (e : caught)
  : ValidationResult.t :=
  match e with
  | IsFileNotFoundError text => ValidationResult.mk false text (Some [text])
  | IsYAMLError text =>
      ValidationResult.mk false ("Invalid YAML syntax in " ++ test_file_path)
        (Some [("YAML parsing error: " ++ text)%string])
  | IsRequestException text =>
      ValidationResult.mk false ("Failed to fetch schema from " ++ schema_url)
        (Some [("Network error: " ++ text)%string])
  | IsValidationError path msg =>
      ValidationResult.mk false
        ("Schema validation failed for " ++ test_file_path)
        (Some [("Validation error at " ++ join_dot path ++ ": " ++ msg)%string])
  | IsOtherException text =>
      ValidationResult.mk false "Unexpected error during validation"
        (Some [("Error: " ++ text)%string])
  end.

Section SchemaValidator.

(** The schema as the network gives it, the file system and the
    validator. [http_get_json n url] is the [n]-th request of the process:
    [requests.get(url, timeout=10)], [raise_for_status()], [.json()]. *)
Variable Schema : Type.
Variable http_get_json : nat -> string -> caught + Schema.
Variable file_exists : string -> caught + bool.
Variable load_yaml_utf8 : string -> caught + yaml.
Variable jsonschema_validate : yaml -> Schema -> caught + unit.

(** The state of [lru_cache(maxsize=1)] on [_get_schema], and the number
    of requests made so far. *)
Record schema_state : Type := mkSchemaState {
  cached : option (string * Schema);
  requests_made : nat
}.

(** [_get_schema(url)] through its cache: a hit returns the stored value;
    a miss calls the function and stores what it returns, nothing when it
    raises. *)
Definition _get_schema (url : string) (st : schema_state)
  : (caught + Schema) * schema_state :=
  match cached st with
  | Some (key, value) =>
      if String.eqb key url then (inr value, st)
      else match http_get_json (requests_made st) url with
           | inr value' => (inr value', mkSchemaState (Some (url, value'))
                                          (S (requests_made st)))
           | inl e => (inl e, mkSchemaState (cached st) (S (requests_made st)))
           end
  | None =>
      match http_get_json (requests_made st) url with
      | inr value' => (inr value', mkSchemaState (Some (url, value'))
                                     (S (requests_made st)))
      | inl e => (inl e, mkSchemaState None (S (requests_made st)))
      end
  end.

(** The [try] block of [validate_schema] once the schema is there. *)
Definition validate_file (schema : Schema) (test_file_path : string)
  : caught + unit :=
  match file_exists test_file_path with
  | inl e => inl e
  | inr false =>
      inl (IsFileNotFoundError ("Test file not found: " ++ test_file_path))
  | inr true =>
      match load_yaml_utf8 test_file_path with
      | inl e => inl e
      | inr test_data => jsonschema_validate test_data schema
      end
  end.

Definition validate_schema (test_file_path : string) (st : schema_state)
  : ValidationResult.t * schema_state :=
  match _get_schema schema_url st with
  | (inl e, st') => (report_caught test_file_path e, st')
  | (inr schema, st') =>
      match validate_file schema test_file_path with
      | inr _ =>
          (ValidationResult.mk true
             ("Validation successful for " ++ test_file_path) None, st')
      | inl e => (report_caught test_file_path e, st')
      end
  end.

Variable path_exists : string -> bool.
Variable path_isdir : string -> bool.
Variable os_walk : string -> list (string * list string * list string).
Variable re_compile : string -> string + (string -> bool).
Variable default_pattern : string -> bool.

(** Body of [for filename in files] of [validate_tests]; [validate_schema]
    returns for every exception, so the [except] around it is never
    taken. *)
Definition validate_visit (file_pattern : string -> bool) (root : string)
  (acc : list ValidationResult.t * schema_state) (filename : string)
  : list ValidationResult.t * schema_state :=
  if file_pattern filename then
    let file_path := PyObj.path_join root filename in
    let '(result, st') := validate_schema file_path (snd acc) in
    (fst acc ++ [result], st')
  else acc.

Definition validate_tests (dir_path : string) (pattern : option string)
  (st : schema_state) : tres (list ValidationResult.t * schema_state) :=
  if negb (PyStr.truthy dir_path) then
    TRaise (ToolValueError "dir_path cannot be empty")
  else if negb (path_exists dir_path) then
    TRaise (ToolFileNotFoundError ("Directory not found: " ++ dir_path))
  else if negb (path_isdir dir_path) then
    TRaise (ToolNotADirectoryError ("Path is not a directory: " ++ dir_path))
  else
    let compiled :=
      match pattern with
      | None => inr default_pattern
      | Some p =>
          if String.eqb (PyStr.strip p) "" then inr default_pattern
          else match re_compile p with
               | inr m => inr m
               | inl e =>
                   inl (ToolValueError
                          ("Invalid regex pattern '" ++ p ++ "': " ++ e))
               end
      end in
    match compiled with
    | inl err => TRaise err
    | inr file_pattern =>
        TOk (fold_left
               (fun acc entry =>
                  let '(root, _, files) := entry in
                  fold_left (validate_visit file_pattern root) files acc)
               (os_walk dir_path) ([], st))
    end.

(** The files of [paths] validated one after the other. *)
Fixpoint validate_all (paths : list string) (st : schema_state)
  : list ValidationResult.t * schema_state :=
  match paths with
  | [] => ([], st)
  | p :: rest =>
      let '(r, st1) := validate_schema p st in
      let '(rs, st2) := validate_all rest st1 in
      (r :: rs, st2)
  end.

End SchemaValidator.

(** A network for the examples: the first request fails, the next ones
    give the schema [7]; every file exists and holds the sample document,
    which is valid. *)
Definition flaky_get (n : nat) (url : string) : caught + nat :=
  match n with
  | O => inl (IsRequestException "timed out")
  | S _ => inr 7%nat
  end.
Definition all_exist (p : string) : caught + bool := inr true.
Definition loads_sample (p : string) : caught + yaml := inr sample_tests_doc.
Definition accepts (doc : yaml) (schema : nat) : caught + unit := inr tt.

(** A [testsuites] root without a time, over a suite of 1.0 s, a suite
    without a time and a suite of 0.5 s. *)
Definition untimed_root_report : Element :=
  Elem "testsuites" [("name", "all")] None
    [ Elem "testsuite" [("name", "A"); ("time", "1.0")] None [];
      Elem "testsuite" [("name", "B")] None [];
      Elem "testsuite" [("name", "C"); ("time", "0.5")] None [] ].

(* ================================================================== *)
(** ** Checks on concrete inputs *)
(* ================================================================== *)

Example py_int_ex :
  map PyNum.py_int [" 42 "; "-7"; "+1_000"; "007"; ""; "abc"; "1.5"; "1__0"; "_1"; "- 1"]
  = [Some 42; Some (-7); Some 1000; Some 7; None; None; None; None; None; None].
Proof. reflexivity. Qed.

Example py_float_ex :
  map PyNum.py_float ["1.5"; " 2.0 "; "0"; ".5"; "5."; "1e3"; "1_0.2_5E1"; "-0.0"]
  = [Some 1.5; Some 2; Some 0; Some 0.5; Some 5; Some 1000; Some 102.5;
     Some (-0)]%float
  /\ map PyNum.py_float ["20:10:11"; ""; "abc"; "."; "1e"; "1._5"; "1_.5"; "0x10"]
     = [None; None; None; None; None; None; None; None]
  /\ map PyNum.py_float ["Infinity"; "-inf"; "1e999"]
     = [Some infinity; Some neg_infinity; Some infinity].
Proof. repeat split; vm_compute; reflexivity. Qed.

(** test_parse_junit_string *)
Example test_parse_junit_string :
  exists s, junit_summary Samples.JUNIT_XML = Ok s
    /\ total s = 3 /\ passed s = 1 /\ failed s = 1 /\ skipped s = 1
    /\ total_time s = 1.5%float
    /\ map name (test_cases s) = ["Test 1"; "Test 2"; "Test 3"]
    /\ map result (test_cases s) = ["passed"; "failed"; "skipped"]
    /\ map message (test_cases s) = [None; Some "Assertion failed"; Some "Ignored"].
Proof. eexists; split; [vm_compute; reflexivity | repeat split]. Qed.

(** test_parse_xunit_string *)
Example test_parse_xunit_string :
  exists s, xunit_summary Samples.XUNIT_XML = Ok s
    /\ total s = 2 /\ passed s = 1 /\ failed s = 1
    /\ Some (total_time s) = PyNum.py_float "1.2"
    /\ map result (test_cases s) = ["passed"; "failed"]
    /\ map message (test_cases s) = [None; None].
Proof. eexists; split; [vm_compute; reflexivity | repeat split]. Qed.

(** test_parse_nunit_string *)
Example test_parse_nunit_string :
  exists s, nunit_summary Samples.NUNIT_XML = Ok s
    /\ total s = 3 /\ passed s = 1 /\ failed s = 1 /\ skipped s = 1
    /\ total_time s = 2%float
    /\ map result (test_cases s) = ["passed"; "failed"; "skipped"]
    /\ map message (test_cases s) = [None; Some "Fail Message"; None].
Proof. eexists; split; [vm_compute; reflexivity | repeat split]. Qed.

(* ================================================================== *)
(** ** Loops *)
(* ================================================================== *)

Section ForEach.
Context {S X : Type}.
Variable body : S -> X -> res S.

Lemma for_each_app (xs ys : list X) (s : S) :
  for_each body (xs ++ ys) s = (s' <- for_each body xs s ;; for_each body ys s').
Proof.
  revert s; induction xs as [|x xs IH]; intros s; simpl; [reflexivity|].
  destruct (body s x) as [s1|e]; simpl; [apply IH | reflexivity].
Qed.

(** A property kept by every step that returns is kept by the loop. *)
Lemma for_each_inv (P : S -> Prop) :
  (forall s x s', P s -> body s x = Ok s' -> P s') ->
  forall xs s s', P s -> for_each body xs s = Ok s' -> P s'.
Proof.
  intros Hstep xs; induction xs as [|x xs IH]; intros s s' Hs Hrun; simpl in Hrun.
  - inversion Hrun; subst; exact Hs.
  - destruct (body s x) as [s1|e] eqn:Hb; simpl in Hrun; [|discriminate].
    eapply IH; [eapply Hstep; eauto | exact Hrun].
Qed.

(** The same with the list of the elements already visited. *)
Lemma for_each_track (R : list X -> S -> Prop) :
  (forall done s x s', R done s -> body s x = Ok s' -> R (done ++ [x]) s') ->
  forall xs done s s',
    R done s -> for_each body xs s = Ok s' -> R (done ++ xs) s'.
Proof.
  intros Hstep xs; induction xs as [|x xs IH]; intros done s s' Hs Hrun;
    simpl in Hrun.
  - inversion Hrun; subst; rewrite app_nil_r; exact Hs.
  - destruct (body s x) as [s1|e] eqn:Hb; simpl in Hrun; [|discriminate].
    replace (done ++ x :: xs) with ((done ++ [x]) ++ xs)
      by (rewrite <- app_assoc; reflexivity).
    eapply IH; [eapply Hstep; eauto | exact Hrun].
Qed.

(** When whether a step returns depends on the element only, the loop
    returns exactly when every step does. *)
Lemma for_each_returns (good : X -> bool) :
  (forall s x, (exists s', body s x = Ok s') <-> good x = true) ->
  forall xs s, (exists s', for_each body xs s = Ok s') <-> forallb good xs = true.
Proof.
  intros Hgood xs; induction xs as [|x xs IH]; intros s; simpl.
  - split; [reflexivity | intros _; eexists; reflexivity].
  - rewrite andb_true_iff. split.
    + intros [s' Hrun]. destruct (body s x) as [s1|e] eqn:Hb; simpl in Hrun;
        [|discriminate].
      split; [apply (Hgood s x); eauto | apply (IH s1); eauto].
    + intros [Hx Hxs]. apply (Hgood s x) in Hx. destruct Hx as [s1 Hb].
      rewrite Hb; simpl. apply IH; exact Hxs.
Qed.
End ForEach.

Lemma returns_true {A : Type} (r : res A) :
  returns r = true <-> exists a, r = Ok a.
Proof.
  destruct r as [a|e]; simpl; split; eauto; try discriminate.
  intros [a H]; discriminate.
Qed.

Lemma bind_Ok {A B : Type} (m : res A) (k : A -> res B) (b : B) :
  (x <- m ;; k x) = Ok b <-> exists a, m = Ok a /\ k a = Ok b.
Proof.
  destruct m as [a|e]; simpl; split.
  - eauto.
  - intros [a' [Ha Hk]]; inversion Ha; subst; exact Hk.
  - discriminate.
  - intros [a' [Ha _]]; discriminate.
Qed.

Ltac bind_inv H :=
  let a := fresh "v" in
  let Ha := fresh "Hv" in
  apply bind_Ok in H; destruct H as [a [Ha H]].

(* ================================================================== *)
(** ** NUnit: the root aggregates *)
(* ================================================================== *)

(** The counters of an NUnit summary never depend on the suites. *)
Lemma nunit_summary_Ok (root : Element) (s : TestResultSummary) :
  ET.tag root = "test-results" ->
  nunit_summary root = Ok s ->
  exists t e f sk ig nr sum cases,
    int_attr root "total" = Ok t /\ int_attr root "errors" = Ok e
    /\ int_attr root "failures" = Ok f /\ int_attr root "skipped" = Ok sk
    /\ int_attr root "ignored" = Ok ig /\ int_attr root "not-run" = Ok nr
    /\ for_each nunit_suite (ET.findall_desc root "test-suite") (0%float, [])
       = Ok (sum, cases)
    /\ s = mkTestResultSummary t (t - f - e - (sk + ig + nr)) f (sk + ig + nr) e
             (if PrimFloat.eqb (nunit_root_time root) 0 then sum
              else nunit_root_time root)
             cases.
Proof.
  intros Htag H. unfold nunit_summary in H. rewrite Htag in H. simpl in H.
  bind_inv H. bind_inv H. bind_inv H. bind_inv H. bind_inv H. bind_inv H.
  bind_inv H. destruct v5 as [sum cases]. inversion H; subst.
  exists v, v0, v1, v2, v3, v4, sum, cases. repeat split; assumption.
Qed.

(** C1. For every nunit parse whose root tag is [test-results], the
    summary's skipped count is the sum of the root's [skipped], [ignored]
    and [not-run] attributes and its passed count is
    total - failed - errors - skipped, with total, failures and errors read
    from the root, whatever the value of that difference. *)
Theorem C1_nunit_root_aggregates (root : Element) (s : TestResultSummary) :
  ET.tag root = "test-results" ->
  nunit_summary root = Ok s ->
  exists t f e sk ig nr,
    int_attr root "total" = Ok t /\ int_attr root "failures" = Ok f
    /\ int_attr root "errors" = Ok e /\ int_attr root "skipped" = Ok sk
    /\ int_attr root "ignored" = Ok ig /\ int_attr root "not-run" = Ok nr
    /\ total s = t /\ failed s = f /\ errors s = e
    /\ skipped s = sk + ig + nr
    /\ passed s = total s - failed s - errors s - skipped s.
Proof.
  intros Htag H.
  destruct (nunit_summary_Ok root s Htag H)
    as (t & e & f & sk & ig & nr & sum & cases & Ht & He & Hf & Hsk & Hig & Hnr & _ & ->).
  exists t, f, e, sk, ig, nr. simpl. repeat split; assumption.
Qed.

Lemma C1_nunit_root_aggregates_witness :
  exists t f e sk ig nr,
    int_attr all_skipped_report "total" = Ok t
    /\ int_attr all_skipped_report "failures" = Ok f
    /\ int_attr all_skipped_report "errors" = Ok e
    /\ int_attr all_skipped_report "skipped" = Ok sk
    /\ int_attr all_skipped_report "ignored" = Ok ig
    /\ int_attr all_skipped_report "not-run" = Ok nr
    /\ total (mkTestResultSummary 3 0 0 3 0 0.5 []) = t
    /\ failed (mkTestResultSummary 3 0 0 3 0 0.5 []) = f
    /\ errors (mkTestResultSummary 3 0 0 3 0 0.5 []) = e
    /\ skipped (mkTestResultSummary 3 0 0 3 0 0.5 []) = sk + ig + nr
    /\ passed (mkTestResultSummary 3 0 0 3 0 0.5 [])
       = total (mkTestResultSummary 3 0 0 3 0 0.5 [])
         - failed (mkTestResultSummary 3 0 0 3 0 0.5 [])
         - errors (mkTestResultSummary 3 0 0 3 0 0.5 [])
         - skipped (mkTestResultSummary 3 0 0 3 0 0.5 []).
Proof.
  apply (C1_nunit_root_aggregates all_skipped_report
           (mkTestResultSummary 3 0 0 3 0 0.5 [])).
  - reflexivity.
  - vm_compute. reflexivity.
Defined.

(* ================================================================== *)
(** ** JUnit: tallies and statuses *)
(* ================================================================== *)

Lemma add_time_attr_fields (st st' : TestResultSummary) (x : option string) :
  add_time_attr st x = Ok st' ->
  total st' = total st /\ passed st' = passed st /\ failed st' = failed st
  /\ skipped st' = skipped st /\ errors st' = errors st
  /\ test_cases st' = test_cases st.
Proof.
  unfold add_time_attr. intros H.
  destruct x as [v|]; [destruct (PyStr.truthy v)|];
    try (inversion H; subst; repeat split; reflexivity).
  bind_inv H. inversion H; subst. repeat split; reflexivity.
Qed.

Lemma add_time_attr_consistent (st st' : TestResultSummary) (x : option string) :
  tally_consistent st -> add_time_attr st x = Ok st' -> tally_consistent st'.
Proof.
  intros [H1 H2] H. apply add_time_attr_fields in H.
  destruct H as (Ht & Hp & Hf & Hs & He & Hc).
  unfold tally_consistent. rewrite Ht, Hp, Hf, Hs, He, Hc. split; assumption.
Qed.

Lemma junit_testcase_consistent (suite_name : string)
  (st st' : TestResultSummary) (tc : Element) :
  tally_consistent st -> junit_testcase suite_name st tc = Ok st' ->
  tally_consistent st'.
Proof.
  intros [H1 H2] H. unfold junit_testcase in H. bind_inv H.
  unfold junit_outcome in H.
  destruct (ET.find tc "failure"), (ET.find tc "error"), (ET.find tc "skipped");
    inversion H; subst; unfold tally_consistent; simpl;
    rewrite length_app; simpl; lia.
Qed.

Lemma junit_suite_consistent (root : Element) (st st' : TestResultSummary)
  (suite : Element) :
  tally_consistent st -> junit_suite root st suite = Ok st' -> tally_consistent st'.
Proof.
  intros Hst H. unfold junit_suite in H. bind_inv H.
  eapply for_each_inv; [ | | exact H].
  - intros s x s' Hs Hb. eapply junit_testcase_consistent; eauto.
  - destruct (negb (ET.tag root =? "testsuites")%string
              || negb (PyStr.truthy_opt (ET.get root "time"))).
    + eapply add_time_attr_consistent; eauto.
    + inversion Hv; subst; exact Hst.
Qed.

(** C7. For every junit parse that returns a summary,
    total = passed + failed + errors + skipped and total is the length of
    the case list: the five counts are tallied case by case. *)
Theorem C7_junit_tally_invariant (root : Element) (s : TestResultSummary) :
  junit_summary root = Ok s ->
  total s = passed s + failed s + errors s + skipped s
  /\ total s = Z.of_nat (List.length (test_cases s)).
Proof.
  intros H. unfold junit_summary in H. bind_inv H.
  change (tally_consistent s).
  eapply for_each_inv; [ | | exact H].
  - intros st x st' Hst Hb. eapply junit_suite_consistent; eauto.
  - split; reflexivity.
Qed.

Lemma C7_junit_tally_invariant_witness :
  3 = 1 + 1 + 0 + 1 /\ 3 = Z.of_nat 3.
Proof.
  exact (C7_junit_tally_invariant Samples.JUNIT_XML
           (mkTestResultSummary 3 1 1 1 0 1.5
              [ mkTestCaseResult "Test 1" "Suite 1" "passed"
                  (PyNum.float_of_decimal false 6 (-1)) None;
                mkTestCaseResult "Test 2" "Suite 1" "failed"
                  (PyNum.float_of_decimal false 4 (-1)) (Some "Assertion failed");
                mkTestCaseResult "Test 3" "Suite 2" "skipped" 0.5 (Some "Ignored") ])
           ltac:(vm_compute; reflexivity)).
Defined.

Lemma junit_testcase_status (suite_name : string) (st st' : TestResultSummary)
  (tc : Element) :
  junit_testcase suite_name st tc = Ok st' ->
  exists c, test_cases st' = test_cases st ++ [c]
            /\ junit_status_rule tc (result c).
Proof.
  intros H. unfold junit_testcase in H. bind_inv H. unfold junit_outcome in H.
  destruct (ET.find tc "failure") as [f|] eqn:Hf,
           (ET.find tc "error") as [e|] eqn:He,
           (ET.find tc "skipped") as [k|] eqn:Hk;
    inversion H; subst; simpl; eexists; (split; [reflexivity|]);
    unfold junit_status_rule; rewrite ?Hf, ?He, ?Hk; simpl;
    repeat split; try congruence; try discriminate;
    try (intros (? & ? & ?); discriminate).
Qed.

Lemma junit_suite_status (root : Element) (st st' : TestResultSummary)
  (suite : Element) (seen : list Element) :
  Forall2 (fun c tc => junit_status_rule tc (result c)) (test_cases st) seen ->
  junit_suite root st suite = Ok st' ->
  Forall2 (fun c tc => junit_status_rule tc (result c)) (test_cases st')
    (seen ++ ET.findall_desc suite "testcase").
Proof.
  intros Hst H. unfold junit_suite in H. bind_inv H.
  assert (Hc : test_cases v = test_cases st).
  { destruct (negb (ET.tag root =? "testsuites")%string
              || negb (PyStr.truthy_opt (ET.get root "time"))).
    - apply add_time_attr_fields in Hv; tauto.
    - inversion Hv; reflexivity. }
  rewrite <- Hc in Hst. clear Hv Hc.
  set (R := fun (done : list Element) (s : TestResultSummary) =>
              Forall2 (fun c tc => junit_status_rule tc (result c))
                (test_cases s) (seen ++ done)).
  assert (HR : R ([] ++ ET.findall_desc suite "testcase") st').
  { eapply (for_each_track _ R); [ | | exact H].
    - intros done s x s' Hs Hb. unfold R in *.
      apply junit_testcase_status in Hb. destruct Hb as (c & Hc & Hrule).
      rewrite Hc, app_assoc. apply Forall2_app; [exact Hs|].
      constructor; [exact Hrule | constructor].
    - unfold R. rewrite app_nil_r. exact Hst. }
  exact HR.
Qed.

(** C6. In a junit parse, the status of every test case met is [passed]
    exactly when the element has no [failure], [error] or [skipped] child;
    with several such children [failure] wins over [error], and [error]
    over [skipped]. The cases of the summary stand, in order, for the
    [testcase] elements met. *)
Theorem C6_junit_status_priority (root : Element) (s : TestResultSummary) :
  junit_summary root = Ok s ->
  Forall2 (fun c tc => junit_status_rule tc (result c))
    (test_cases s) (junit_testcases root).
Proof.
  intros H. unfold junit_summary in H. bind_inv H.
  set (R := fun (done : list Element) (st : TestResultSummary) =>
              Forall2 (fun c tc => junit_status_rule tc (result c))
                (test_cases st)
                (flat_map (fun suite => ET.findall_desc suite "testcase") done)).
  assert (HR : R ([] ++ junit_suites root) s).
  { eapply (for_each_track _ R); [ | | exact H].
    - intros done st x st' Hst Hb. unfold R in *.
      rewrite flat_map_app. simpl. rewrite app_nil_r.
      eapply junit_suite_status; eauto.
    - unfold R. simpl. constructor. }
  exact HR.
Qed.

Lemma C6_junit_status_priority_witness :
  junit_summary priority_report = Ok priority_summary
  /\ Forall2 (fun c tc => junit_status_rule tc (result c))
       (test_cases priority_summary) (junit_testcases priority_report).
Proof.
  assert (H : junit_summary priority_report = Ok priority_summary)
    by (vm_compute; reflexivity).
  split; [exact H | exact (C6_junit_status_priority _ _ H)].
Defined.

(* ================================================================== *)
(** ** xUnit: the assembly attributes are the totals *)
(* ================================================================== *)

Lemma sum_int_attr_snoc (key : string) (els : list Element) (a : Element) (v x : Z) :
  sum_int_attr key els = Ok v -> int_attr a key = Ok x ->
  sum_int_attr key (els ++ [a]) = Ok (v + x).
Proof.
  unfold sum_int_attr. intros Hv Hx. rewrite for_each_app, Hv. simpl.
  rewrite Hx. reflexivity.
Qed.

Lemma sum_float_attr_snoc (key : string) (els : list Element) (a : Element)
  (v x : float) :
  sum_float_attr key els = Ok v -> float_attr a key = Ok x ->
  sum_float_attr key (els ++ [a]) = Ok (v + x)%float.
Proof.
  unfold sum_float_attr. intros Hv Hx. rewrite for_each_app, Hv. simpl.
  rewrite Hx. reflexivity.
Qed.

Lemma xunit_test_counters (collection_name : string) (st st' : TestResultSummary)
  (test : Element) :
  xunit_test collection_name st test = Ok st' -> counters st' = counters st.
Proof.
  unfold xunit_test. intros H. bind_inv H. inversion H; subst. reflexivity.
Qed.

Lemma xunit_collection_counters (st st' : TestResultSummary) (collection : Element) :
  xunit_collection st collection = Ok st' -> counters st' = counters st.
Proof.
  unfold xunit_collection. intros H.
  eapply (for_each_inv _ (fun s => counters s = counters st)); [ | | exact H].
  - intros s x s' Hs Hb. apply xunit_test_counters in Hb. congruence.
  - reflexivity.
Qed.

Lemma xunit_assembly_sums (done : list Element) (st st' : TestResultSummary)
  (assembly : Element) :
  sums_over done st -> xunit_assembly st assembly = Ok st' ->
  sums_over (done ++ [assembly]) st'.
Proof.
  intros (Ht & Hp & Hf & Hs & He & Hx) H. unfold xunit_assembly in H.
  bind_inv H. rename v into st1, Hv into Hstats.
  assert (Hc : counters st' = counters st1).
  { eapply (for_each_inv _ (fun s => counters s = counters st1)); [ | | exact H].
    - intros s x s' Hs' Hb. apply xunit_collection_counters in Hb. congruence.
    - reflexivity. }
  unfold xunit_assembly_stats in Hstats.
  bind_inv Hstats. bind_inv Hstats. bind_inv Hstats. bind_inv Hstats.
  bind_inv Hstats. bind_inv Hstats. inversion Hstats; subst st1; clear Hstats.
  unfold counters in Hc; simpl in Hc. inversion Hc as [[Et Ep Ef Es Ee Ex]].
  unfold sums_over. rewrite Et, Ep, Ef, Es, Ee, Ex.
  repeat split;
    first [ apply sum_int_attr_snoc; assumption
          | apply sum_float_attr_snoc; assumption ].
Qed.

(** C5, as stated, fails: the root of this document is itself an
    [assembly] that announces five tests; it is not read, so the summary is
    all zeros while the sum of [total] over the assembly elements of the
    document is 5. *)
Lemma C5_counterexample :
  xunit_summary root_assembly_report = Ok (mkTestResultSummary 0 0 0 0 0 0 [])
  /\ sum_int_attr "total" (document_assemblies root_assembly_report) = Ok 5
  /\ sum_int_attr "total" (document_assemblies root_assembly_report)
     <> Ok (total (mkTestResultSummary 0 0 0 0 0 0 [])).
Proof.
  split; [vm_compute; reflexivity|]. split; [vm_compute; reflexivity|].
  vm_compute. discriminate.
Qed.

(** C5, amended. For every xunit parse the summary's total, passed,
    failed, skipped, errors and time are the sums of those attributes over
    the [assembly] elements below the root of the document, which are all
    the assembly elements of the document when the root is not itself an
    assembly (a root assembly is not read); they are not a recount of the
    test elements, so for a document whose assembly attributes disagree
    with its tests the counts differ from what the case list gives. *)
Theorem C5_xunit_assembly_totals :
  (forall (root : Element) (s : TestResultSummary),
      xunit_summary root = Ok s ->
      let assemblies := ET.findall_desc root "assembly" in
      sum_int_attr "total" assemblies = Ok (total s)
      /\ sum_int_attr "passed" assemblies = Ok (passed s)
      /\ sum_int_attr "failed" assemblies = Ok (failed s)
      /\ sum_int_attr "skipped" assemblies = Ok (skipped s)
      /\ sum_int_attr "errors" assemblies = Ok (errors s)
      /\ sum_float_attr "time" assemblies = Ok (total_time s))
  /\ (forall root : Element,
         ET.tag root <> "assembly" ->
         ET.findall_desc root "assembly" = document_assemblies root)
  /\ (exists (root : Element) (s : TestResultSummary),
         xunit_summary root = Ok s
         /\ total s <> Z.of_nat (List.length (test_cases s))
         /\ passed s <> count_status "passed" (test_cases s)).
Proof.
  split; [|split].
  - intros root s H assemblies. change (sums_over ([] ++ assemblies) s).
    unfold xunit_summary in H.
    eapply (for_each_track _ sums_over); [ | | exact H].
    + intros done st x st' Hst Hb. eapply xunit_assembly_sums; eauto.
    + repeat split.
  - intros root Htag.
    unfold document_assemblies, ET.findall_desc, ET.descendants.
    destruct root as [t a x cs]. simpl in *.
    unfold ET.has_tag at 2. simpl. apply String.eqb_neq in Htag.
    rewrite Htag. reflexivity.
  - exists disagreeing_report, disagreeing_summary.
    split; [vm_compute; reflexivity|]. split; vm_compute; discriminate.
Qed.

Lemma C5_xunit_assembly_totals_witness :
  sum_int_attr "total" (ET.findall_desc disagreeing_report "assembly") = Ok 5
  /\ sum_int_attr "passed" (ET.findall_desc disagreeing_report "assembly") = Ok 4
  /\ sum_int_attr "failed" (ET.findall_desc disagreeing_report "assembly") = Ok 1
  /\ sum_int_attr "skipped" (ET.findall_desc disagreeing_report "assembly") = Ok 0
  /\ sum_int_attr "errors" (ET.findall_desc disagreeing_report "assembly") = Ok 0
  /\ sum_float_attr "time" (ET.findall_desc disagreeing_report "assembly")
     = Ok 2.5%float.
Proof.
  exact (proj1 C5_xunit_assembly_totals disagreeing_report disagreeing_summary
           ltac:(vm_compute; reflexivity)).
Defined.

(* ================================================================== *)
(** ** The facade and the input resolver *)
(* ================================================================== *)

Section FacadeFacts.
Variable path_is_file : string -> option bool.
Variable et_parse : string -> res Element.
Variable et_fromstring : string -> res Element.

Lemma get_root_not_a_file (test_result : string) :
  PyStr.startswith (PyStr.strip test_result) "<" = false ->
  path_is_file test_result <> Some true ->
  _get_root path_is_file et_parse et_fromstring test_result
  = if is_likely_path test_result
    then (lookup_events test_result, Raise (FileNotFoundError test_result))
    else (lookup_events test_result ++ [StringParse test_result],
          et_fromstring test_result).
Proof.
  intros Hlt Hfile. unfold _get_root, lookup_events.
  rewrite Hlt. simpl.
  destruct (Z.of_nat (String.length test_result) <? 4096).
  - destruct (path_is_file test_result) as [[|]|]; try congruence;
      destruct (is_likely_path test_result); reflexivity.
  - destruct (is_likely_path test_result); reflexivity.
Qed.

(** Once the input is resolved to a root, [parse] is the adapter of the
    selected dialect on that root; when resolution raises, so does
    [parse]. *)
Lemma parse_on_root (test_result : string) (root : Element) :
  snd (_get_root path_is_file et_parse et_fromstring test_result) = Ok root ->
  snd (parse path_is_file et_parse et_fromstring "junit" test_result)
  = junit_summary root
  /\ snd (parse path_is_file et_parse et_fromstring "xunit" test_result)
     = xunit_summary root
  /\ snd (parse path_is_file et_parse et_fromstring "nunit" test_result)
     = nunit_summary root.
Proof.
  intros H. unfold parse. simpl.
  unfold _parse_junit, _parse_xunit, _parse_nunit, with_root.
  destruct (_get_root path_is_file et_parse et_fromstring test_result)
    as [evs r]. simpl in *. subst r. repeat split.
Qed.

Lemma parse_unresolved (test_result : string) (e : exn) :
  snd (_get_root path_is_file et_parse et_fromstring test_result) = Raise e ->
  snd (parse path_is_file et_parse et_fromstring "junit" test_result) = Raise e
  /\ snd (parse path_is_file et_parse et_fromstring "xunit" test_result) = Raise e
  /\ snd (parse path_is_file et_parse et_fromstring "nunit" test_result) = Raise e.
Proof.
  intros H. unfold parse. simpl.
  unfold _parse_junit, _parse_xunit, _parse_nunit, with_root.
  destruct (_get_root path_is_file et_parse et_fromstring test_result)
    as [evs r]. simpl in *. subst r. repeat split.
Qed.

(** C8. For every format selector other than [junit], [xunit] and
    [nunit] and every input string, [parse] raises the unsupported-format
    error, and nothing has been looked up, opened or parsed before. *)
Theorem C8_unsupported_format_before_io (report_type test_result : string) :
  report_type <> "junit" -> report_type <> "xunit" -> report_type <> "nunit" ->
  parse path_is_file et_parse et_fromstring report_type test_result
  = ([], Raise (ValueError (UnsupportedReportType report_type))).
Proof.
  intros Hj Hx Hn. unfold parse.
  apply String.eqb_neq in Hj, Hx, Hn. rewrite Hj, Hx, Hn. reflexivity.
Qed.

(** C9. An input that, trimmed, does not start with [<], does not name
    an existing regular file, has no newline, and has a [/] or a
    backslash or ends in [.xml] whatever the letter case, fails with the
    file-not-found error and is never parsed as XML; a string that is
    neither a file nor XML-like and does not match the heuristic is
    parsed as XML, so an invalid one gives the parse error. *)
Theorem C9_missing_path_heuristic (test_result : string) :
  PyStr.startswith (PyStr.strip test_result) "<" = false ->
  path_is_file test_result <> Some true ->
  (PyStr.contains newline test_result = false ->
   PyStr.contains "/" test_result = true
   \/ PyStr.contains backslash test_result = true
   \/ PyStr.endswith (PyStr.lower test_result) ".xml" = true ->
   _get_root path_is_file et_parse et_fromstring test_result
   = (lookup_events test_result, Raise (FileNotFoundError test_result)))
  /\ (~ (PyStr.contains newline test_result = false
         /\ (PyStr.contains "/" test_result = true
             \/ PyStr.contains backslash test_result = true
             \/ PyStr.endswith (PyStr.lower test_result) ".xml" = true)) ->
      _get_root path_is_file et_parse et_fromstring test_result
      = (lookup_events test_result ++ [StringParse test_result],
         et_fromstring test_result)
      /\ (et_fromstring test_result = Raise ParseError ->
          snd (_get_root path_is_file et_parse et_fromstring test_result)
          = Raise ParseError)).
Proof.
  intros Hlt Hfile. rewrite (get_root_not_a_file _ Hlt Hfile).
  unfold is_likely_path. split.
  - intros Hnl Hsep. rewrite Hnl. simpl.
    destruct Hsep as [-> | [-> | ->]]; rewrite ?orb_true_r; reflexivity.
  - intros Hno.
    destruct (PyStr.contains newline test_result) eqn:Hnl; simpl.
    + split; [reflexivity | intros ->; reflexivity].
    + destruct (PyStr.contains "/" test_result) eqn:H1;
        [exfalso; apply Hno; auto|].
      destruct (PyStr.contains backslash test_result) eqn:H2;
        [exfalso; apply Hno; auto|].
      destruct (PyStr.endswith (PyStr.lower test_result) ".xml") eqn:H3;
        [exfalso; apply Hno; auto|].
      simpl. split; [reflexivity | intros ->; reflexivity].
Qed.

Lemma filter_no_tag (t : string) (l : list Element) :
  Forall (fun e => ET.tag e <> t) l -> filter (ET.has_tag t) l = [].
Proof.
  induction 1 as [|e l He _ IH]; simpl; [reflexivity|].
  unfold ET.has_tag at 1. apply String.eqb_neq in He. rewrite He. exact IH.
Qed.

Lemma iter_unfold (e : Element) : ET.iter e = e :: ET.descendants e.
Proof. destruct e; reflexivity. Qed.

Lemma no_assembly_below (root : Element) :
  Forall (fun e => ET.tag e <> "assembly") (ET.iter root) ->
  ET.findall_desc root "assembly" = [].
Proof.
  rewrite iter_unfold. intros H. inversion H; subst.
  apply filter_no_tag; assumption.
Qed.

(** C10. When the input resolves to a document whose shape is not the
    selected dialect's (nunit: the root tag is not [test-results];
    xunit: no [assembly] element in the document), [parse] returns the
    summary with all five counts zero, time [0.0] and no case. *)
Theorem C10_foreign_structure_is_empty (test_result : string) (root : Element) :
  snd (_get_root path_is_file et_parse et_fromstring test_result) = Ok root ->
  (ET.tag root <> "test-results" ->
   snd (parse path_is_file et_parse et_fromstring "nunit" test_result)
   = Ok (mkTestResultSummary 0 0 0 0 0 0%float []))
  /\ (Forall (fun e => ET.tag e <> "assembly") (ET.iter root) ->
      snd (parse path_is_file et_parse et_fromstring "xunit" test_result)
      = Ok (mkTestResultSummary 0 0 0 0 0 0%float [])).
Proof.
  intros Hroot. destruct (parse_on_root _ _ Hroot) as (_ & Hx & Hn).
  rewrite Hx, Hn. split.
  - intros Htag. unfold nunit_summary. apply String.eqb_neq in Htag.
    rewrite Htag. reflexivity.
  - intros Hno. unfold xunit_summary. rewrite (no_assembly_below _ Hno).
    reflexivity.
Qed.

End FacadeFacts.

(* ================================================================== *)
(** ** Which numeric attributes can make a parse raise *)
(* ================================================================== *)

Lemma returns_iff {A : Type} (r : res A) (b : bool) :
  ((exists a, r = Ok a) <-> b = true) -> returns r = b.
Proof.
  intros H. apply Bool.eq_iff_eq_true. rewrite returns_true. exact H.
Qed.

Lemma for_each_returns_eq {S X : Type} (body : S -> X -> res S) (good : X -> bool) :
  (forall s x, returns (body s x) = good x) ->
  forall xs s, returns (for_each body xs s) = forallb good xs.
Proof.
  intros H xs s. apply returns_iff. apply for_each_returns.
  intros s0 x. rewrite <- returns_true, H. tauto.
Qed.






(** *** NUnit *)

Lemma nunit_test_case_returns (suite_name : string) (cases : list TestCaseResult)
  (tc : Element) :
  returns (nunit_test_case suite_name cases tc) = returns (float_attr tc "time").
Proof.
  unfold nunit_test_case. destruct (float_attr tc "time"); reflexivity.
Qed.

Lemma nunit_suite_returns (st : float * list TestCaseResult) (suite : Element) :
  returns (nunit_suite st suite)
  = forallb (fun tc => returns (float_attr tc "time")) (nunit_test_cases_of suite).
Proof.
  destruct st as [sum cases]. unfold nunit_suite, nunit_test_cases_of.
  destruct (ET.find suite "results") as [results|]; [|reflexivity].
  rewrite <- (for_each_returns_eq (nunit_test_case (ET.get_str suite "name" "Unknown"))
                _ (nunit_test_case_returns _) _ cases).
  destruct (for_each _ _ cases); reflexivity.
Qed.

Lemma nunit_suites_return (root : Element) :
  returns (for_each nunit_suite (ET.findall_desc root "test-suite") (0%float, []))
  = nunit_case_times_ok root.
Proof. apply for_each_returns_eq. intros s x. apply nunit_suite_returns. Qed.

(** An NUnit parse of a [test-results] root returns exactly when the six
    counts are integers and the time of every test case read is a float:
    the time of the root and the times of the suites play no part. *)
Lemma nunit_returns (root : Element) :
  ET.tag root = "test-results" ->
  returns (nunit_summary root) = nunit_counts_ok root && nunit_case_times_ok root.
Proof.
  intros Htag. unfold nunit_summary, nunit_counts_ok. rewrite Htag. simpl.
  rewrite <- nunit_suites_return.
  destruct (int_attr root "total"); simpl; [|reflexivity].
  destruct (int_attr root "errors"); simpl; [|reflexivity].
  destruct (int_attr root "failures"); simpl; [|reflexivity].
  destruct (int_attr root "skipped"); simpl; [|reflexivity].
  destruct (int_attr root "ignored"); simpl; [|reflexivity].
  destruct (int_attr root "not-run"); simpl; [|reflexivity].
  destruct (for_each nunit_suite _ _) as [[sum cases]|]; reflexivity.
Qed.


(** *** xUnit *)





(* ================================================================== *)
(** ** C2: numeric attributes that fail to parse *)
(* ================================================================== *)




(* ================================================================== *)
(** ** C3: the NUnit time fallback *)
(* ================================================================== *)

Lemma nunit_suite_time_spec (sum : float) (suite : Element) :
  fold_left PrimFloat.add (suite_times [suite]) sum = nunit_suite_time sum suite.
Proof.
  unfold suite_times, nunit_suite_time, to_float. simpl.
  destruct (ET.get suite "time") as [v|]; [|reflexivity].
  destruct v as [|c v']; [reflexivity|]. simpl PyStr.truthy. cbv iota.
  destruct (PyNum.py_float (String c v')); reflexivity.
Qed.

Lemma suite_times_cons (suite : Element) (suites : list Element) :
  suite_times (suite :: suites) = suite_times [suite] ++ suite_times suites.
Proof. unfold suite_times. simpl. rewrite app_nil_r. reflexivity. Qed.

Lemma nunit_suite_sum (sum0 sum1 : float) (cases0 cases1 : list TestCaseResult)
  (suite : Element) :
  nunit_suite (sum0, cases0) suite = Ok (sum1, cases1) ->
  sum1 = nunit_suite_time sum0 suite.
Proof.
  unfold nunit_suite. intros H. destruct (ET.find suite "results").
  - bind_inv H. inversion H; reflexivity.
  - inversion H; reflexivity.
Qed.

Lemma nunit_suites_sum (suites : list Element) (sum0 sum : float)
  (cases0 cases : list TestCaseResult) :
  for_each nunit_suite suites (sum0, cases0) = Ok (sum, cases) ->
  sum = fold_left PrimFloat.add (suite_times suites) sum0.
Proof.
  revert sum0 cases0. induction suites as [|suite suites IH];
    intros sum0 cases0 H; simpl in H.
  - inversion H; reflexivity.
  - bind_inv H. destruct v as [sum1 cases1].
    apply nunit_suite_sum in Hv.
    rewrite suite_times_cons, fold_left_app, nunit_suite_time_spec, <- Hv.
    eapply IH; exact H.
Qed.

(** C3, as stated, fails: with a nested suite the fallback is not the sum
    over the top-level suites (the children of the root). *)
Lemma C3_counterexample :
  PyNum.py_float (ET.get_str nested_suites_report "time" "0") = None
  /\ float_sum (suite_times (ET.findall nested_suites_report "test-suite"))
     = 1%float
  /\ exists s, nunit_summary nested_suites_report = Ok s
               /\ total_time s = 3%float
               /\ total_time s
                  <> float_sum (suite_times (ET.findall nested_suites_report "test-suite")).
Proof.
  split; [reflexivity|]. split; [reflexivity|].
  eexists. split; [vm_compute; reflexivity|]. split; [reflexivity|].
  intros H. apply (f_equal (fun x => PrimFloat.eqb x 1)) in H.
  vm_compute in H. discriminate.
Qed.

(** C3, amended. In a nunit parse of a [test-results] document whose root
    time does not parse as a float, that attribute never makes the parse
    raise: when the counts are integers and the test-case times are floats
    the parse returns, and the total time is the sum of the time
    attributes of all [test-suite] elements below the root, at any depth
    (those that are floats). *)
Theorem C3_nunit_time_fallback (root : Element) :
  ET.tag root = "test-results" ->
  PyNum.py_float (ET.get_str root "time" "0") = None ->
  nunit_counts_ok root = true -> nunit_case_times_ok root = true ->
  exists s, nunit_summary root = Ok s
            /\ total_time s
               = float_sum (suite_times (ET.findall_desc root "test-suite")).
Proof.
  intros Htag Htime Hc Ht.
  assert (Hret : returns (nunit_summary root) = true)
    by (rewrite (nunit_returns _ Htag), Hc, Ht; reflexivity).
  apply returns_true in Hret. destruct Hret as [s Hs]. exists s.
  split; [exact Hs|].
  destruct (nunit_summary_Ok root s Htag Hs)
    as (t & e & f & sk & ig & nr & sum & cases & _ & _ & _ & _ & _ & _ & Hloop & ->).
  simpl. unfold nunit_root_time, to_float. rewrite Htime.
  replace (PrimFloat.eqb 0 0) with true by reflexivity.
  apply nunit_suites_sum in Hloop. exact Hloop.
Qed.

Lemma C3_nunit_time_fallback_witness :
  exists s, nunit_summary nested_suites_report = Ok s
            /\ total_time s
               = float_sum (suite_times (ET.findall_desc nested_suites_report "test-suite")).
Proof.
  apply (C3_nunit_time_fallback nested_suites_report); reflexivity.
Defined.

(* ================================================================== *)
(** ** C4: the message of a failed NUnit test case *)
(* ================================================================== *)

(** C4, as stated, fails: the [failure] child has no [message] element and
    the case still carries a message, the text of the [failure] element. *)
Lemma C4_counterexample :
  exists failure c,
    ET.find bare_failure_case "failure" = Some failure
    /\ ET.find failure "message" = None
    /\ nunit_test_case "S" [] bare_failure_case = Ok [c]
    /\ message c = Some "boom"
    /\ message c <> None.
Proof.
  eexists. eexists. split; [reflexivity|]. split; [reflexivity|].
  split; [vm_compute; reflexivity|]. split; [reflexivity | discriminate].
Qed.

Lemma truthy_nonempty (t : string) : t <> "" -> PyStr.truthy t = true.
Proof. destruct t; [congruence | reflexivity]. Qed.

Lemma nunit_message_of_failure (tc failure : Element) :
  ET.find tc "failure" = Some failure ->
  (forall m t, ET.find failure "message" = Some m -> ET.text m = Some t ->
               t <> "" -> nunit_message tc = Some (PyStr.strip t))
  /\ ((ET.find failure "message" = None
       \/ exists m, ET.find failure "message" = Some m
                    /\ (ET.text m = None \/ ET.text m = Some "")) ->
      (forall t, ET.text failure = Some t -> t <> "" ->
                 nunit_message tc = Some (PyStr.strip t))
      /\ (ET.text failure = None \/ ET.text failure = Some "" ->
          nunit_message tc = None)).
Proof.
  intros Hf. unfold nunit_message. rewrite Hf. split.
  - intros m t Hm Ht Hne. rewrite Hm, Ht, (truthy_nonempty _ Hne). reflexivity.
  - intros Hno.
    assert (Hfall : match ET.find failure "message" with
                    | Some message_elem =>
                        match ET.text message_elem with
                        | Some t => if PyStr.truthy t then Some (PyStr.strip t)
                                    else strip_if_any (ET.text failure)
                        | None => strip_if_any (ET.text failure)
                        end
                    | None => strip_if_any (ET.text failure)
                    end = strip_if_any (ET.text failure)).
    { destruct Hno as [-> | (m & -> & [-> | ->])]; reflexivity. }
    rewrite Hfall. split.
    + intros t Ht Hne. rewrite Ht. simpl. rewrite (truthy_nonempty _ Hne).
      reflexivity.
    + intros [-> | ->]; reflexivity.
Qed.

(** C4, amended. For every nunit test case with a [failure] child, the
    case message is the trimmed text of the failure's nested [message]
    element when that element is there and has text; otherwise it is the
    trimmed text of the [failure] element itself when it has text, and
    there is no message only when the [failure] element has no text
    either. *)
Theorem C4_nunit_failure_message (suite_name : string)
  (cases cases' : list TestCaseResult) (tc failure : Element) :
  ET.find tc "failure" = Some failure ->
  nunit_test_case suite_name cases tc = Ok cases' ->
  exists c,
    cases' = cases ++ [c]
    /\ (forall m t, ET.find failure "message" = Some m -> ET.text m = Some t ->
                    t <> "" -> message c = Some (PyStr.strip t))
    /\ ((ET.find failure "message" = None
         \/ exists m, ET.find failure "message" = Some m
                      /\ (ET.text m = None \/ ET.text m = Some "")) ->
        (forall t, ET.text failure = Some t -> t <> "" ->
                   message c = Some (PyStr.strip t))
        /\ (ET.text failure = None \/ ET.text failure = Some "" ->
            message c = None)).
Proof.
  intros Hf H. unfold nunit_test_case in H. bind_inv H. inversion H; subst.
  eexists. split; [reflexivity|]. simpl.
  exact (nunit_message_of_failure tc failure Hf).
Qed.

Lemma C4_nunit_failure_message_witness :
  exists c,
    [mkTestCaseResult "t" "S" "failed" 0 (Some "boom")] = [] ++ [c]
    /\ (forall m t, ET.find (Elem "failure" [] (Some " boom ") []) "message" = Some m ->
                    ET.text m = Some t -> t <> "" -> message c = Some (PyStr.strip t))
    /\ ((ET.find (Elem "failure" [] (Some " boom ") []) "message" = None
         \/ exists m, ET.find (Elem "failure" [] (Some " boom ") []) "message" = Some m
                      /\ (ET.text m = None \/ ET.text m = Some "")) ->
        (forall t, ET.text (Elem "failure" [] (Some " boom ") []) = Some t -> t <> "" ->
                   message c = Some (PyStr.strip t))
        /\ (ET.text (Elem "failure" [] (Some " boom ") []) = None
            \/ ET.text (Elem "failure" [] (Some " boom ") []) = Some "" ->
            message c = None)).
Proof.
  apply (C4_nunit_failure_message "S" [] _ bare_failure_case
           (Elem "failure" [] (Some " boom ") [])).
  - reflexivity.
  - vm_compute. reflexivity.
Defined.

(* ================================================================== *)
(** ** The facade on a concrete file system *)
(* ================================================================== *)

Lemma C8_unsupported_format_before_io_witness :
  parse no_file cannot_open always_junit "invalid" "<xml/>"
  = ([], Raise (ValueError (UnsupportedReportType "invalid"))).
Proof.
  apply (C8_unsupported_format_before_io no_file cannot_open always_junit
           "invalid" "<xml/>"); discriminate.
Defined.

Lemma C9_missing_path_heuristic_witness :
  _get_root no_file cannot_open never_xml "/nonexistent/path/to/report.xml"
  = ([PathLookup "/nonexistent/path/to/report.xml"],
     Raise (FileNotFoundError "/nonexistent/path/to/report.xml"))
  /\ _get_root no_file cannot_open never_xml "Not even XML"
     = ([PathLookup "Not even XML"; StringParse "Not even XML"], Raise ParseError).
Proof.
  split.
  - apply (proj1 (C9_missing_path_heuristic no_file cannot_open never_xml
                    "/nonexistent/path/to/report.xml"
                    ltac:(reflexivity) ltac:(discriminate)));
      [reflexivity | left; reflexivity].
  - apply (proj2 (C9_missing_path_heuristic no_file cannot_open never_xml
                    "Not even XML" ltac:(reflexivity) ltac:(discriminate))).
    intros [_ [H | [H | H]]]; vm_compute in H; discriminate.
Defined.

Lemma C10_foreign_structure_is_empty_witness :
  snd (parse no_file cannot_open always_junit "nunit" "<testsuites/>")
  = Ok (mkTestResultSummary 0 0 0 0 0 0%float [])
  /\ snd (parse no_file cannot_open always_junit "xunit" "<testsuites/>")
     = Ok (mkTestResultSummary 0 0 0 0 0 0%float []).
Proof.
  pose proof (C10_foreign_structure_is_empty no_file cannot_open always_junit
                "<testsuites/>" Samples.JUNIT_XML ltac:(reflexivity)) as [Hn Hx].
  split.
  - apply Hn. discriminate.
  - apply Hx. repeat constructor; discriminate.
Defined.

(* ================================================================== *)
(** ** Further properties of the input resolver and of the facade *)
(* ================================================================== *)

Section ResolverFacts.
Variable path_is_file : string -> option bool.
Variable et_parse : string -> res Element.
Variable et_fromstring : string -> res Element.

(** X1. An input that, trimmed, starts with [<] is parsed as an XML string
    and the file system is never consulted, whatever files exist. *)
Theorem X1_xml_like_input_skips_file_system (test_result : string) :
  PyStr.startswith (PyStr.strip test_result) "<" = true ->
  _get_root path_is_file et_parse et_fromstring test_result
  = ([StringParse test_result], et_fromstring test_result).
Proof.
  intros H. unfold _get_root. rewrite H. reflexivity.
Qed.

(** X2. An input shorter than 4096 characters that is not XML-like and
    names an existing regular file is read from that file and never parsed
    as an XML string. *)
Theorem X2_existing_file_is_parsed_from_disk (test_result : string) :
  PyStr.startswith (PyStr.strip test_result) "<" = false ->
  Z.of_nat (String.length test_result) < 4096 ->
  path_is_file test_result = Some true ->
  _get_root path_is_file et_parse et_fromstring test_result
  = ([PathLookup test_result; FileParse test_result], et_parse test_result).
Proof.
  intros Hlt Hlen Hfile. unfold _get_root. rewrite Hlt. simpl.
  apply Z.ltb_lt in Hlen. rewrite Hlen, Hfile. reflexivity.
Qed.

(** X3. An input of 4096 characters or more is never looked up nor opened,
    even when it names an existing file: when it is not XML-like it is
    reported as a missing file if it looks like a path and parsed as an XML
    string otherwise. *)
Theorem X3_long_input_never_touches_files (test_result : string) :
  4096 <= Z.of_nat (String.length test_result) ->
  PyStr.startswith (PyStr.strip test_result) "<" = false ->
  _get_root path_is_file et_parse et_fromstring test_result
  = if is_likely_path test_result
    then ([], Raise (FileNotFoundError test_result))
    else ([StringParse test_result], et_fromstring test_result).
Proof.
  intros Hlen Hlt. unfold _get_root. rewrite Hlt. simpl.
  apply Z.ltb_ge in Hlen. rewrite Hlen.
  destruct (is_likely_path test_result); reflexivity.
Qed.

(** X4. For the three dialects [parse] does nothing to the outside world
    but what input resolution does, and an error of the resolution (file
    not found, malformed document) is raised unchanged: no summary is
    returned. *)
Theorem X4_parse_adds_no_io_and_keeps_errors (report_type test_result : string) :
  In report_type ["junit"; "xunit"; "nunit"] ->
  fst (parse path_is_file et_parse et_fromstring report_type test_result)
  = fst (_get_root path_is_file et_parse et_fromstring test_result)
  /\ (forall e,
         snd (_get_root path_is_file et_parse et_fromstring test_result) = Raise e ->
         snd (parse path_is_file et_parse et_fromstring report_type test_result)
         = Raise e).
Proof.
  intros Hin. simpl in Hin.
  destruct Hin as [<- | [<- | [<- | []]]]; unfold parse; simpl;
    unfold _parse_junit, _parse_xunit, _parse_nunit, with_root;
    destruct (_get_root path_is_file et_parse et_fromstring test_result)
      as [evs r]; simpl; (split; [reflexivity | intros e ->; reflexivity]).
Qed.

End ResolverFacts.

Lemma X1_xml_like_input_skips_file_system_witness :
  _get_root every_file opens_nunit never_xml " <xml/>"
  = ([StringParse " <xml/>"], Raise ParseError).
Proof.
  apply (X1_xml_like_input_skips_file_system every_file opens_nunit never_xml
           " <xml/>"). reflexivity.
Defined.

Lemma X2_existing_file_is_parsed_from_disk_witness :
  _get_root every_file opens_nunit never_xml "report.xml"
  = ([PathLookup "report.xml"; FileParse "report.xml"], Ok Samples.NUNIT_XML).
Proof.
  apply (X2_existing_file_is_parsed_from_disk every_file opens_nunit never_xml
           "report.xml"); reflexivity.
Defined.

Lemma X3_long_input_never_touches_files_witness :
  _get_root every_file opens_nunit never_xml long_path
  = ([], Raise (FileNotFoundError long_path)).
Proof.
  apply (X3_long_input_never_touches_files every_file opens_nunit never_xml
           long_path); [vm_compute; discriminate | vm_compute; reflexivity].
Defined.

Lemma X4_parse_adds_no_io_and_keeps_errors_witness :
  fst (parse no_file cannot_open never_xml "xunit" "missing/report.xml")
  = fst (_get_root no_file cannot_open never_xml "missing/report.xml")
  /\ (forall e,
         snd (_get_root no_file cannot_open never_xml "missing/report.xml") = Raise e ->
         snd (parse no_file cannot_open never_xml "xunit" "missing/report.xml")
         = Raise e).
Proof.
  apply (X4_parse_adds_no_io_and_keeps_errors no_file cannot_open never_xml
           "xunit" "missing/report.xml"). simpl. auto.
Defined.

(* ================================================================== *)
(** ** Further properties of the JUnit adapter *)
(* ================================================================== *)

Lemma junit_testcase_shape (suite_name : string) (st st' : TestResultSummary)
  (tc : Element) :
  junit_testcase suite_name st tc = Ok st' ->
  total_time st' = total_time st
  /\ exists c, test_cases st' = test_cases st ++ [c]
               /\ name c = ET.get_str tc "name" "Unknown"
               /\ suite c = suite_name
               /\ float_attr tc "time" = Ok (time c)
               /\ message c
                  = strip_if_any
                      (match junit_deciding_child tc with
                       | Some ch => PyStr.or_else (ET.get ch "message") (ET.text ch)
                       | None => None
                       end)
               /\ passed st' = passed st + (if String.eqb (result c) "passed" then 1 else 0)
               /\ failed st' = failed st + (if String.eqb (result c) "failed" then 1 else 0)
               /\ errors st' = errors st + (if String.eqb (result c) "error" then 1 else 0)
               /\ skipped st' = skipped st + (if String.eqb (result c) "skipped" then 1 else 0).
Proof.
  intros H. unfold junit_testcase in H. bind_inv H.
  unfold junit_outcome, junit_deciding_child in *.
  destruct (ET.find tc "failure"), (ET.find tc "error"), (ET.find tc "skipped");
    inversion H; subst; simpl; (split; [reflexivity|]); eexists;
    (split; [reflexivity|]); simpl; rewrite ?Z.add_0_r; repeat split; assumption.
Qed.

Lemma junit_suite_time_kept (root : Element) (st st' : TestResultSummary)
  (suite : Element) (st1 : TestResultSummary) :
  for_each (junit_testcase (ET.get_str suite "name" "Unknown"))
    (ET.findall_desc suite "testcase") st1 = Ok st' ->
  total_time st' = total_time st1.
Proof.
  intros H.
  eapply (for_each_inv _ (fun s => total_time s = total_time st1)); [ | | exact H].
  - intros s x s' Hs Hb. apply junit_testcase_shape in Hb. destruct Hb as [Ht _].
    congruence.
  - reflexivity.
Qed.

(** X5. In a junit parse whose root is [testsuites] with a non-empty
    [time] attribute, the total time of a returned summary is that
    attribute read as a float, whatever the [time] attributes of the suites
    are. *)
Theorem X5_junit_root_time_wins (root : Element) (v : string)
  (s : TestResultSummary) :
  ET.tag root = "testsuites" ->
  ET.get root "time" = Some v -> v <> "" ->
  junit_summary root = Ok s ->
  PyNum.py_float v = Some (total_time s).
Proof.
  intros Htag Hget Hne H. unfold junit_summary, junit_root_time in H.
  rewrite Htag, Hget, (truthy_nonempty _ Hne) in H. simpl in H.
  bind_inv H. unfold to_float in Hv.
  destruct (PyNum.py_float v) as [x|]; [|discriminate]. inversion Hv; subst v0.
  f_equal. symmetry.
  eapply (for_each_inv _ (fun st => total_time st = x)); [ | | exact H].
  - intros st suite st' Hst Hb. unfold junit_suite in Hb.
    rewrite Htag, Hget in Hb. simpl in Hb. rewrite (truthy_nonempty _ Hne) in Hb.
    simpl in Hb. apply (junit_suite_time_kept root st st' suite st) in Hb.
    congruence.
  - reflexivity.
Qed.

Lemma X5_junit_root_time_wins_witness :
  PyNum.py_float "1.5" = Some 1.5%float.
Proof.
  exact (X5_junit_root_time_wins Samples.JUNIT_XML "1.5"
           (mkTestResultSummary 3 1 1 1 0 1.5
              [ mkTestCaseResult "Test 1" "Suite 1" "passed"
                  (PyNum.float_of_decimal false 6 (-1)) None;
                mkTestCaseResult "Test 2" "Suite 1" "failed"
                  (PyNum.float_of_decimal false 4 (-1)) (Some "Assertion failed");
                mkTestCaseResult "Test 3" "Suite 2" "skipped" 0.5 (Some "Ignored") ])
           ltac:(reflexivity) ltac:(reflexivity) ltac:(discriminate)
           ltac:(vm_compute; reflexivity)).
Defined.

Lemma timed_snoc (done : list Element) (suite : Element) :
  timed (done ++ [suite])
  = timed done ++ (if PyStr.truthy_opt (ET.get suite "time") then [suite] else []).
Proof. unfold timed. rewrite filter_app. reflexivity. Qed.

(** X6. In a junit parse whose root is not [testsuites], or whose root has
    no [time] attribute or an empty one, the total time is the sum, from
    the left and starting at 0.0, of the non-empty [time] attributes of
    the suites read. *)
Theorem X6_junit_suite_times_are_summed (root : Element) (s : TestResultSummary) :
  ET.tag root <> "testsuites" \/ PyStr.truthy_opt (ET.get root "time") = false ->
  junit_summary root = Ok s ->
  sum_float_attr "time" (timed (junit_suites root)) = Ok (total_time s).
Proof.
  intros Hcond H. unfold junit_summary in H. bind_inv H.
  assert (Hv0 : v = 0%float).
  { unfold junit_root_time in Hv.
    destruct (ET.tag root =? "testsuites")%string eqn:Htag.
    - destruct Hcond as [Hne | Hfalse];
        [apply String.eqb_eq in Htag; contradiction|].
      unfold PyStr.truthy_opt in Hfalse.
      destruct (ET.get root "time") as [t|]; [|inversion Hv; reflexivity].
      rewrite Hfalse in Hv. inversion Hv; reflexivity.
    - inversion Hv; reflexivity. }
  subst v.
  assert (Hguard : negb (ET.tag root =? "testsuites")%string
                   || negb (PyStr.truthy_opt (ET.get root "time")) = true).
  { destruct Hcond as [Hne | ->]; [|apply orb_true_r].
    apply String.eqb_neq in Hne. rewrite Hne. reflexivity. }
  set (R := fun (done : list Element) (st : TestResultSummary) =>
              sum_float_attr "time" (timed done) = Ok (total_time st)).
  change (R ([] ++ junit_suites root) s).
  eapply (for_each_track _ R); [ | | exact H].
  - intros done st suite st' Hst Hb. unfold R in *.
    unfold junit_suite in Hb. rewrite Hguard in Hb.
    apply bind_Ok in Hb. destruct Hb as (st1 & Hadd & Hb).
    apply (junit_suite_time_kept root st st' suite st1) in Hb. rewrite Hb.
    rewrite timed_snoc. unfold add_time_attr in Hadd.
    destruct (ET.get suite "time") as [t|] eqn:Hget; simpl.
    + destruct (PyStr.truthy t) eqn:Ht.
      * apply bind_Ok in Hadd. destruct Hadd as (x & Hx & Hadd).
        inversion Hadd; subst st1. simpl.
        apply sum_float_attr_snoc; [exact Hst|].
        unfold float_attr. rewrite Hget. exact Hx.
      * inversion Hadd; subst st1. rewrite app_nil_r. exact Hst.
    + inversion Hadd; subst st1. rewrite app_nil_r. exact Hst.
  - reflexivity.
Qed.

Lemma X6_junit_suite_times_are_summed_witness :
  sum_float_attr "time" (timed (junit_suites untimed_root_report)) = Ok 1.5%float.
Proof.
  exact (X6_junit_suite_times_are_summed untimed_root_report
           (mkTestResultSummary 0 0 0 0 0 1.5 [])
           ltac:(right; reflexivity) ltac:(vm_compute; reflexivity)).
Defined.

(** The cases of a JUnit summary stand, in order, for the test cases met,
    each related to its element and its suite by any property [R] the
    loop body gives to the case it appends. *)
Lemma junit_cases_related (R : Element -> Element -> TestCaseResult -> Prop) :
  (forall suite st tc st',
      junit_testcase (ET.get_str suite "name" "Unknown") st tc = Ok st' ->
      exists c, test_cases st' = test_cases st ++ [c] /\ R suite tc c) ->
  forall root s,
    junit_summary root = Ok s ->
    Forall2 (fun c p => R (fst p) (snd p) c) (test_cases s) (junit_cases_of root).
Proof.
  intros Hbody root s H. unfold junit_summary in H. bind_inv H.
  set (Q := fun (done : list Element) (st : TestResultSummary) =>
              Forall2 (fun c p => R (fst p) (snd p) c) (test_cases st)
                (flat_map (fun suite =>
                             map (pair suite) (ET.findall_desc suite "testcase"))
                   done)).
  change (Q ([] ++ junit_suites root) s).
  eapply (for_each_track _ Q); [ | | exact H]; [|constructor].
  intros done st suite st' Hst Hb. unfold Q in *.
  rewrite flat_map_app. simpl. rewrite app_nil_r.
  unfold junit_suite in Hb. apply bind_Ok in Hb. destruct Hb as (st1 & Hadd & Hb).
  assert (Hc : test_cases st1 = test_cases st).
  { destruct (negb (ET.tag root =? "testsuites")%string
              || negb (PyStr.truthy_opt (ET.get root "time"))).
    - apply add_time_attr_fields in Hadd; tauto.
    - inversion Hadd; reflexivity. }
  rewrite <- Hc in Hst. clear Hadd Hc.
  set (seen := flat_map (fun suite0 =>
                           map (pair suite0) (ET.findall_desc suite0 "testcase"))
                 done) in *.
  set (Q1 := fun (tcs : list Element) (st2 : TestResultSummary) =>
               Forall2 (fun c p => R (fst p) (snd p) c) (test_cases st2)
                 (seen ++ map (pair suite) tcs)).
  change (Q1 ([] ++ ET.findall_desc suite "testcase") st').
  eapply (for_each_track _ Q1); [ | | exact Hb].
  - intros tcs st2 tc st3 Hst2 Hb2. unfold Q1 in *.
    apply Hbody in Hb2. destruct Hb2 as (c & Hc & HR).
    rewrite Hc, map_app, app_assoc. apply Forall2_app; [exact Hst2|].
    constructor; [exact HR | constructor].
  - unfold Q1. simpl. rewrite app_nil_r. exact Hst.
Qed.

(** X7. In a junit parse the message of a case comes from the child that
    decides its status ([failure], else [error], else [skipped]): the
    child's non-empty [message] attribute, trimmed, and only without one
    the child's text, trimmed; a case without such a child, or whose child
    has neither, has no message. *)
Theorem X7_junit_message_source (root : Element) (s : TestResultSummary) :
  junit_summary root = Ok s ->
  Forall2 (fun c p => junit_message_rule (snd p) (message c))
    (test_cases s) (junit_cases_of root).
Proof.
  apply (junit_cases_related (fun _ tc c => junit_message_rule tc (message c))).
  intros suite st tc st' H. apply junit_testcase_shape in H.
  destruct H as (_ & c & Hc & _ & _ & _ & Hm & _). exists c.
  split; [exact Hc|]. unfold junit_message_rule. rewrite Hm. split; [|split].
  - intros ->. reflexivity.
  - intros ch m -> Hget Hne. unfold PyStr.or_else. rewrite Hget. simpl.
    rewrite (truthy_nonempty _ Hne). simpl. rewrite (truthy_nonempty _ Hne).
    reflexivity.
  - intros ch -> Hno. unfold PyStr.or_else. rewrite Hno. split.
    + intros t -> Hne. simpl. rewrite (truthy_nonempty _ Hne). reflexivity.
    + intros Hnot. destruct (ET.text ch) as [t|]; [|reflexivity].
      simpl in *. rewrite Hnot. reflexivity.
Qed.

Lemma X7_junit_message_source_witness :
  Forall2 (fun c p => junit_message_rule (snd p) (message c))
    (test_cases junit_sample_summary) (junit_cases_of Samples.JUNIT_XML).
Proof.
  exact (X7_junit_message_source Samples.JUNIT_XML junit_sample_summary
           ltac:(vm_compute; reflexivity)).
Defined.

(** X8. The cases of a junit summary are, in the order of the document,
    the [testcase] elements found below each suite read, suite after
    suite; each carries the element's [name] and its suite's [name]
    ("Unknown" when absent) and the element's [time] as a float (0.0 when
    absent). *)
Theorem X8_junit_cases_in_document_order (root : Element) (s : TestResultSummary) :
  junit_summary root = Ok s ->
  Forall2 (fun c p => case_identity "Unknown" "Unknown" (fst p) (snd p) c)
    (test_cases s) (junit_cases_of root).
Proof.
  apply (junit_cases_related (case_identity "Unknown" "Unknown")).
  intros su st tc st' H. apply junit_testcase_shape in H.
  destruct H as (_ & c & Hc & Hn & Hs & Ht & _). exists c.
  unfold case_identity. tauto.
Qed.

Lemma X8_junit_cases_in_document_order_witness :
  Forall2 (fun c p => case_identity "Unknown" "Unknown" (fst p) (snd p) c)
    (test_cases junit_sample_summary) (junit_cases_of Samples.JUNIT_XML).
Proof.
  exact (X8_junit_cases_in_document_order Samples.JUNIT_XML junit_sample_summary
           ltac:(vm_compute; reflexivity)).
Defined.

Lemma count_status_snoc (r : string) (cases : list TestCaseResult)
  (c : TestCaseResult) :
  count_status r (cases ++ [c])
  = count_status r cases + (if String.eqb (result c) r then 1 else 0).
Proof.
  unfold count_status. rewrite filter_app, length_app. simpl.
  destruct (result c =? r)%string; simpl; lia.
Qed.

(** X12. In a junit summary each tally is the number of cases of the list
    with that status: passed, failed, errors and skipped count the cases
    whose result is "passed", "failed", "error" and "skipped". *)
Theorem X12_junit_tallies_count_statuses (root : Element) (s : TestResultSummary) :
  junit_summary root = Ok s ->
  passed s = count_status "passed" (test_cases s)
  /\ failed s = count_status "failed" (test_cases s)
  /\ errors s = count_status "error" (test_cases s)
  /\ skipped s = count_status "skipped" (test_cases s).
Proof.
  intros H. unfold junit_summary in H. bind_inv H.
  change (tallies_by_status s).
  eapply for_each_inv; [ | | exact H]; [|repeat split].
  intros st suite st' Hst Hb. unfold junit_suite in Hb.
  apply bind_Ok in Hb. destruct Hb as (st1 & Hadd & Hb).
  assert (Hst1 : tallies_by_status st1).
  { destruct (negb (ET.tag root =? "testsuites")%string
              || negb (PyStr.truthy_opt (ET.get root "time"))).
    - apply add_time_attr_fields in Hadd.
      destruct Hadd as (_ & Hp & Hf & Hs & He & Hc).
      unfold tallies_by_status. rewrite Hp, Hf, Hs, He, Hc. exact Hst.
    - inversion Hadd; subst; exact Hst. }
  eapply for_each_inv; [ | exact Hst1 | exact Hb].
  intros st2 tc st3 (Hp & Hf & He & Hs) Hb2. apply junit_testcase_shape in Hb2.
  destruct Hb2 as (_ & c & Hc & _ & _ & _ & _ & Hp' & Hf' & He' & Hs').
  unfold tallies_by_status. rewrite Hc, !count_status_snoc.
  rewrite Hp', Hf', He', Hs', Hp, Hf, He, Hs. repeat split.
Qed.

Lemma X12_junit_tallies_count_statuses_witness :
  passed junit_sample_summary = count_status "passed" (test_cases junit_sample_summary)
  /\ failed junit_sample_summary = count_status "failed" (test_cases junit_sample_summary)
  /\ errors junit_sample_summary = count_status "error" (test_cases junit_sample_summary)
  /\ skipped junit_sample_summary = count_status "skipped" (test_cases junit_sample_summary).
Proof.
  exact (X12_junit_tallies_count_statuses Samples.JUNIT_XML junit_sample_summary
           ltac:(vm_compute; reflexivity)).
Defined.

(* ================================================================== *)
(** ** Further properties of the NUnit and xUnit adapters *)
(* ================================================================== *)

Lemma nunit_test_case_shape (suite_name : string) (cases cases' : list TestCaseResult)
  (tc : Element) :
  nunit_test_case suite_name cases tc = Ok cases' ->
  exists c, cases' = cases ++ [c]
            /\ name c = ET.get_str tc "name" "Unknown"
            /\ suite c = suite_name
            /\ float_attr tc "time" = Ok (time c)
            /\ result c = nunit_result (ET.get_str tc "result" "Unknown")
            /\ message c = nunit_message tc.
Proof.
  intros H. unfold nunit_test_case in H. bind_inv H. inversion H; subst.
  eexists. split; [reflexivity|]. simpl. repeat split. exact Hv.
Qed.

Lemma nunit_cases_related (R : Element -> Element -> TestCaseResult -> Prop) :
  (forall suite cases tc cases',
      nunit_test_case (ET.get_str suite "name" "Unknown") cases tc = Ok cases' ->
      exists c, cases' = cases ++ [c] /\ R suite tc c) ->
  forall root s,
    ET.tag root = "test-results" ->
    nunit_summary root = Ok s ->
    Forall2 (fun c p => R (fst p) (snd p) c) (test_cases s) (nunit_cases_of root).
Proof.
  intros Hbody root s Htag H.
  destruct (nunit_summary_Ok root s Htag H)
    as (t & e & f & sk & ig & nr & sum & cases & _ & _ & _ & _ & _ & _ & Hloop & ->).
  simpl. clear H.
  set (Q := fun (done : list Element) (st : float * list TestCaseResult) =>
              Forall2 (fun c p => R (fst p) (snd p) c) (snd st)
                (flat_map (fun suite => map (pair suite) (nunit_test_cases_of suite))
                   done)).
  change (Q ([] ++ ET.findall_desc root "test-suite") (sum, cases)).
  eapply (for_each_track _ Q); [ | | exact Hloop]; [|constructor].
  intros done [sum0 cases0] suite [sum1 cases1] Hst Hb. unfold Q in *. simpl in *.
  rewrite flat_map_app. simpl. rewrite app_nil_r.
  unfold nunit_suite in Hb. unfold nunit_test_cases_of at 2.
  destruct (ET.find suite "results") as [results|].
  - apply bind_Ok in Hb. destruct Hb as (cs & Hb & Heq). inversion Heq; subst.
    set (seen := flat_map (fun suite0 =>
                             map (pair suite0) (nunit_test_cases_of suite0)) done) in *.
    set (Q1 := fun (tcs : list Element) (cs : list TestCaseResult) =>
                 Forall2 (fun c p => R (fst p) (snd p) c) cs
                   (seen ++ map (pair suite) tcs)).
    change (Q1 ([] ++ ET.findall results "test-case") cases1).
    eapply (for_each_track _ Q1); [ | | exact Hb].
    + intros tcs cs tc cs' Hcs Hb2. unfold Q1 in *.
      apply Hbody in Hb2. destruct Hb2 as (c & -> & HR).
      rewrite map_app, app_assoc. apply Forall2_app; [exact Hcs|].
      constructor; [exact HR | constructor].
    + unfold Q1. simpl. rewrite app_nil_r. exact Hst.
  - inversion Hb; subst. simpl. rewrite app_nil_r. exact Hst.
Qed.



Lemma xunit_test_shape (collection_name : string) (st st' : TestResultSummary)
  (test : Element) :
  xunit_test collection_name st test = Ok st' ->
  exists c, test_cases st' = test_cases st ++ [c]
            /\ name c = ET.get_str test "name" "Unknown Test"
            /\ suite c = collection_name
            /\ float_attr test "time" = Ok (time c)
            /\ result c = xunit_result (ET.get_str test "result" "Unknown")
            /\ message c = xunit_message test.
Proof.
  intros H. unfold xunit_test in H. bind_inv H. inversion H; subst.
  eexists. split; [reflexivity|]. simpl. repeat split. exact Hv.
Qed.

Lemma xunit_cases_related (R : Element -> Element -> TestCaseResult -> Prop) :
  (forall collection st test st',
      xunit_test (ET.get_str collection "name" "Unknown Collection") st test = Ok st' ->
      exists c, test_cases st' = test_cases st ++ [c] /\ R collection test c) ->
  forall root s,
    xunit_summary root = Ok s ->
    Forall2 (fun c p => R (fst p) (snd p) c) (test_cases s) (xunit_cases_of root).
Proof.
  intros Hbody root s H. unfold xunit_summary in H.
  set (per_collection := fun collection =>
         map (pair collection) (ET.findall_desc collection "test")).
  set (per_assembly := fun assembly =>
         flat_map per_collection (ET.findall_desc assembly "collection")).
  set (Q := fun (done : list Element) (st : TestResultSummary) =>
              Forall2 (fun c p => R (fst p) (snd p) c) (test_cases st)
                (flat_map per_assembly done)).
  change (Q ([] ++ ET.findall_desc root "assembly") s).
  eapply (for_each_track _ Q); [ | | exact H]; [|constructor].
  intros done st assembly st' Hst Hb. unfold Q in *.
  rewrite flat_map_app. simpl. rewrite app_nil_r.
  unfold xunit_assembly in Hb. apply bind_Ok in Hb. destruct Hb as (st1 & Hstats & Hb).
  assert (Hc : test_cases st1 = test_cases st).
  { unfold xunit_assembly_stats in Hstats.
    bind_inv Hstats. bind_inv Hstats. bind_inv Hstats. bind_inv Hstats.
    bind_inv Hstats. bind_inv Hstats. inversion Hstats; reflexivity. }
  rewrite <- Hc in Hst. clear Hstats Hc.
  set (seen := flat_map per_assembly done) in *.
  set (Q1 := fun (cols : list Element) (st2 : TestResultSummary) =>
               Forall2 (fun c p => R (fst p) (snd p) c) (test_cases st2)
                 (seen ++ flat_map per_collection cols)).
  change (Q1 ([] ++ ET.findall_desc assembly "collection") st').
  eapply (for_each_track _ Q1); [ | | exact Hb];
    [|unfold Q1; simpl; rewrite app_nil_r; exact Hst].
  intros cols st2 collection st3 Hst2 Hb2. unfold Q1 in *.
  rewrite flat_map_app. simpl. rewrite app_nil_r, app_assoc.
  set (seen1 := seen ++ flat_map per_collection cols) in *.
  unfold xunit_collection in Hb2.
  set (Q2 := fun (tests : list Element) (st4 : TestResultSummary) =>
               Forall2 (fun c p => R (fst p) (snd p) c) (test_cases st4)
                 (seen1 ++ map (pair collection) tests)).
  change (Q2 ([] ++ ET.findall_desc collection "test") st3).
  eapply (for_each_track _ Q2); [ | | exact Hb2];
    [|unfold Q2; simpl; rewrite app_nil_r; exact Hst2].
  intros tests st4 test st5 Hst4 Hb3. unfold Q2 in *.
  apply Hbody in Hb3. destruct Hb3 as (c & Hc & HR).
  rewrite Hc, map_app, app_assoc. apply Forall2_app; [exact Hst4|].
  constructor; [exact HR | constructor].
Qed.

(** X10. The cases of an xunit summary are, in the order of the document,
    the [test] elements below every [collection] below every [assembly]
    element found below the root (a root that is itself an assembly is
    not read, so its tests are not listed); each carries the element's
    [name] ("Unknown Test" when absent), its collection's [name] ("Unknown
    Collection" when absent), its [time] as a float and its [result] token
    normalised. *)
Theorem X10_xunit_cases_in_document_order (root : Element) (s : TestResultSummary) :
  xunit_summary root = Ok s ->
  Forall2 (fun c p =>
             case_identity "Unknown Test" "Unknown Collection" (fst p) (snd p) c
             /\ result c = xunit_result (ET.get_str (snd p) "result" "Unknown"))
    (test_cases s) (xunit_cases_of root).
Proof.
  apply (xunit_cases_related
           (fun col test c =>
              case_identity "Unknown Test" "Unknown Collection" col test c
              /\ result c = xunit_result (ET.get_str test "result" "Unknown"))).
  intros col st test st' H. apply xunit_test_shape in H.
  destruct H as (c & Hc & Hn & Hs & Ht & Hr & _). exists c.
  unfold case_identity. tauto.
Qed.

Lemma X10_xunit_cases_in_document_order_witness :
  Forall2 (fun c p =>
             case_identity "Unknown Test" "Unknown Collection" (fst p) (snd p) c
             /\ result c = xunit_result (ET.get_str (snd p) "result" "Unknown"))
    (test_cases xunit_sample_summary) (xunit_cases_of Samples.XUNIT_XML).
Proof.
  exact (X10_xunit_cases_in_document_order Samples.XUNIT_XML xunit_sample_summary
           ltac:(vm_compute; reflexivity)).
Defined.

(** X11. In a nunit parse of a [test-results] document whose root time
    parses as a float, a value different from zero (or not a number) is
    the total time as it is, and the suites' times are ignored; a value
    equal to zero, as for an absent attribute, gives the same fallback as
    an unparsable one: the sum of the suites' times. *)
Theorem X11_nunit_root_time_or_fallback (root : Element) (x : float)
  (s : TestResultSummary) :
  ET.tag root = "test-results" ->
  PyNum.py_float (ET.get_str root "time" "0") = Some x ->
  nunit_summary root = Ok s ->
  (PrimFloat.eqb x 0 = false -> total_time s = x)
  /\ (PrimFloat.eqb x 0 = true ->
      total_time s = float_sum (suite_times (ET.findall_desc root "test-suite"))).
Proof.
  intros Htag Htime H.
  destruct (nunit_summary_Ok root s Htag H)
    as (t & e & f & sk & ig & nr & sum & cases & _ & _ & _ & _ & _ & _ & Hloop & ->).
  simpl. unfold nunit_root_time, to_float. rewrite Htime. split.
  - intros ->. reflexivity.
  - intros ->. apply nunit_suites_sum in Hloop. exact Hloop.
Qed.

Lemma X11_nunit_root_time_or_fallback_witness :
  (PrimFloat.eqb 2 0 = false -> total_time nunit_sample_summary = 2%float)
  /\ (PrimFloat.eqb 2 0 = true ->
      total_time nunit_sample_summary
      = float_sum (suite_times (ET.findall_desc Samples.NUNIT_XML "test-suite"))).
Proof.
  exact (X11_nunit_root_time_or_fallback Samples.NUNIT_XML 2 nunit_sample_summary
           ltac:(reflexivity) ltac:(vm_compute; reflexivity)
           ltac:(vm_compute; reflexivity)).
Defined.

(* ================================================================== *)
(** ** Status normalisation and trimming *)
(* ================================================================== *)

Lemma lower_char_idem (c : ascii) :
  PyStr.lower_char (PyStr.lower_char c) = PyStr.lower_char c.
Proof.
  destruct c as [[] [] [] [] [] [] [] []]; vm_compute; reflexivity.
Qed.

Lemma lower_idem (s : string) : PyStr.lower (PyStr.lower s) = PyStr.lower s.
Proof.
  induction s as [|c s IH]; simpl; [reflexivity|].
  rewrite lower_char_idem, IH. reflexivity.
Qed.

(** The normal form of an NUnit result depends on its lower-case form
    only. *)
Lemma nunit_result_of_lower (s : string) :
  nunit_result s
  = let n := PyStr.lower s in
    if PyStr.contains "success" n || PyStr.contains "pass" n then "passed"
    else if PyStr.contains "fail" n then "failed"
    else if PyStr.contains "error" n then "error"
    else if PyStr.contains "skip" n || PyStr.contains "ignore" n then "skipped"
    else n.
Proof. reflexivity. Qed.

(** X13. The NUnit status normalisation is insensitive to letter case and
    idempotent: a normalised status is left as it is, so the four
    canonical statuses are fixed points and any other token is only
    lower-cased. *)
Theorem X13_nunit_result_idempotent (tc_result : string) :
  nunit_result (PyStr.lower tc_result) = nunit_result tc_result
  /\ nunit_result (nunit_result tc_result) = nunit_result tc_result
  /\ (In (nunit_result tc_result) ["passed"; "failed"; "error"; "skipped"]
      \/ nunit_result tc_result = PyStr.lower tc_result).
Proof.
  split; [|split].
  - rewrite !nunit_result_of_lower. cbv zeta. rewrite lower_idem. reflexivity.
  - rewrite (nunit_result_of_lower tc_result). cbv zeta.
    destruct (PyStr.contains "success" (PyStr.lower tc_result)
              || PyStr.contains "pass" (PyStr.lower tc_result)) eqn:H1;
      [reflexivity|].
    destruct (PyStr.contains "fail" (PyStr.lower tc_result)) eqn:H2;
      [reflexivity|].
    destruct (PyStr.contains "error" (PyStr.lower tc_result)) eqn:H3;
      [reflexivity|].
    destruct (PyStr.contains "skip" (PyStr.lower tc_result)
              || PyStr.contains "ignore" (PyStr.lower tc_result)) eqn:H4;
      [reflexivity|].
    rewrite nunit_result_of_lower. cbv zeta.
    rewrite lower_idem, H1, H2, H3, H4. reflexivity.
  - rewrite nunit_result_of_lower. cbv zeta.
    destruct (PyStr.contains "success" (PyStr.lower tc_result)
              || PyStr.contains "pass" (PyStr.lower tc_result));
      [left; simpl; auto|].
    destruct (PyStr.contains "fail" (PyStr.lower tc_result));
      [left; simpl; auto|].
    destruct (PyStr.contains "error" (PyStr.lower tc_result));
      [left; simpl; auto|].
    destruct (PyStr.contains "skip" (PyStr.lower tc_result)
              || PyStr.contains "ignore" (PyStr.lower tc_result));
      [left; simpl; auto 6 | right; reflexivity].
Qed.

(** X14. The xUnit status normalisation is insensitive to letter case and
    idempotent; it maps exactly the tokens whose lower-case form is "pass"
    or "passed" to "passed", and likewise for "fail" and "skip", and only
    lower-cases every other token. *)
Theorem X14_xunit_result_idempotent (status : string) :
  xunit_result (PyStr.lower status) = xunit_result status
  /\ xunit_result (xunit_result status) = xunit_result status
  /\ (xunit_result status = "passed"
      <-> PyStr.lower status = "pass" \/ PyStr.lower status = "passed")
  /\ (xunit_result status = "failed"
      <-> PyStr.lower status = "fail" \/ PyStr.lower status = "failed")
  /\ (xunit_result status = "skipped"
      <-> PyStr.lower status = "skip" \/ PyStr.lower status = "skipped").
Proof.
  unfold xunit_result. cbv zeta. rewrite lower_idem.
  split; [reflexivity|].
  destruct (PyStr.lower status =? "pass")%string eqn:H1.
  { apply String.eqb_eq in H1. rewrite H1. simpl.
    repeat split; try (intros; auto; fail);
      try (intros H; discriminate); intros [H | H]; discriminate. }
  destruct (PyStr.lower status =? "fail")%string eqn:H2.
  { apply String.eqb_eq in H2. rewrite H2. simpl.
    repeat split; try (intros; auto; fail);
      try (intros H; discriminate); intros [H | H]; discriminate. }
  destruct (PyStr.lower status =? "skip")%string eqn:H3.
  { apply String.eqb_eq in H3. rewrite H3. simpl.
    repeat split; try (intros; auto; fail);
      try (intros H; discriminate); intros [H | H]; discriminate. }
  rewrite lower_idem, H1, H2, H3.
  apply String.eqb_neq in H1, H2, H3.
  repeat split; try (intros; auto; fail); intros [H | H]; congruence.
Qed.

Lemma rstrip_idem (s : string) : PyStr.rstrip (PyStr.rstrip s) = PyStr.rstrip s.
Proof.
  induction s as [|c s IH]; simpl; [reflexivity|].
  destruct (PyStr.rstrip s) as [|c' r'] eqn:Hr.
  - destruct (PyStr.is_space c) eqn:Hc; simpl; [reflexivity|].
    rewrite Hc. reflexivity.
  - simpl in *. rewrite IH. reflexivity.
Qed.

Lemma lstrip_head (s : string) :
  match PyStr.lstrip s with
  | EmptyString => True
  | String c _ => PyStr.is_space c = false
  end.
Proof.
  induction s as [|c s IH]; simpl; [exact I|].
  destruct (PyStr.is_space c) eqn:Hc; [exact IH | exact Hc].
Qed.

Lemma rstrip_keeps_head (c : ascii) (s : string) :
  PyStr.is_space c = false ->
  exists r, PyStr.rstrip (String c s) = String c r.
Proof.
  intros Hc. simpl. destruct (PyStr.rstrip s); [rewrite Hc|]; eexists; reflexivity.
Qed.

Lemma strip_idem (s : string) : PyStr.strip (PyStr.strip s) = PyStr.strip s.
Proof.
  unfold PyStr.strip. pose proof (lstrip_head s) as Hh.
  destruct (PyStr.lstrip s) as [|c t]; [reflexivity|].
  destruct (rstrip_keeps_head c t Hh) as [r Hr]. rewrite Hr.
  simpl PyStr.lstrip. rewrite Hh. rewrite <- Hr. apply rstrip_idem.
Qed.

Lemma strip_if_any_trimmed (x : option string) (m : string) :
  strip_if_any x = Some m -> PyStr.strip m = m.
Proof.
  unfold strip_if_any. destruct x as [t|]; [|discriminate].
  destruct (PyStr.truthy t); [|discriminate].
  intros H; inversion H; subst. apply strip_idem.
Qed.

Lemma nunit_message_trimmed (tc : Element) (m : string) :
  nunit_message tc = Some m -> PyStr.strip m = m.
Proof.
  unfold nunit_message. destruct (ET.find tc "failure") as [f|]; [|discriminate].
  destruct (ET.find f "message") as [me|]; [|apply strip_if_any_trimmed].
  destruct (ET.text me) as [t|]; [|apply strip_if_any_trimmed].
  destruct (PyStr.truthy t); [|apply strip_if_any_trimmed].
  intros H; inversion H; subst. apply strip_idem.
Qed.

Lemma xunit_message_trimmed (test : Element) (m : string) :
  xunit_message test = Some m -> PyStr.strip m = m.
Proof.
  unfold xunit_message.
  destruct (ET.find_desc test "failure") as [f|]; [|discriminate].
  destruct (ET.find f "message") as [me|]; [|discriminate].
  destruct (ET.text me) as [t|]; [|discriminate].
  destruct (PyStr.truthy t); [|discriminate].
  intros H; inversion H; subst. apply strip_idem.
Qed.

Lemma Forall2_left {A B : Type} (P : A -> Prop) (l : list A) (l' : list B) :
  Forall2 (fun a _ => P a) l l' -> Forall P l.
Proof. induction 1; constructor; assumption. Qed.

(** X15. Every message of every case returned by any of the three
    adapters is trimmed: it has no whitespace at either end. *)
Theorem X15_messages_are_trimmed (root : Element) (s : TestResultSummary) :
  junit_summary root = Ok s \/ nunit_summary root = Ok s
  \/ xunit_summary root = Ok s ->
  Forall message_trimmed (test_cases s).
Proof.
  intros [H | [H | H]].
  - apply (Forall2_left _ _ (junit_cases_of root)).
    apply (junit_cases_related (fun _ _ c => message_trimmed c)); [|exact H].
    intros su st tc st' Hb. apply junit_testcase_shape in Hb.
    destruct Hb as (_ & c & Hc & _ & _ & _ & Hm & _). exists c.
    split; [exact Hc|]. intros m Hmsg. rewrite Hm in Hmsg.
    eapply strip_if_any_trimmed; eauto.
  - destruct (ET.tag root =? "test-results")%string eqn:Htag.
    + apply String.eqb_eq in Htag.
      apply (Forall2_left _ _ (nunit_cases_of root)).
      apply (nunit_cases_related (fun _ _ c => message_trimmed c)); [|exact Htag|exact H].
      intros su cases tc cases' Hb. apply nunit_test_case_shape in Hb.
      destruct Hb as (c & Hc & _ & _ & _ & _ & Hm). exists c.
      split; [exact Hc|]. intros m Hmsg. rewrite Hm in Hmsg.
      eapply nunit_message_trimmed; eauto.
    + unfold nunit_summary in H. rewrite Htag in H. inversion H; subst.
      constructor.
  - apply (Forall2_left _ _ (xunit_cases_of root)).
    apply (xunit_cases_related (fun _ _ c => message_trimmed c)); [|exact H].
    intros col st test st' Hb. apply xunit_test_shape in Hb.
    destruct Hb as (c & Hc & _ & _ & _ & _ & Hm). exists c.
    split; [exact Hc|]. intros m Hmsg. rewrite Hm in Hmsg.
    eapply xunit_message_trimmed; eauto.
Qed.

Lemma X15_messages_are_trimmed_witness :
  Forall message_trimmed (test_cases junit_sample_summary).
Proof.
  apply (X15_messages_are_trimmed Samples.JUNIT_XML junit_sample_summary).
  left. vm_compute. reflexivity.
Defined.

(* ================================================================== *)
(** ** tools/run_tests.py: the report file and the helm process *)
(* ================================================================== *)

Section RunTestsFacts.
Variable World : Type.
Variable mkstemp : World -> res string * World.
Variable subprocess_run : list string -> World -> res unit * World.
Variable path_is_file : World -> string -> option bool.
Variable et_parse : World -> string -> res Element.
Variable et_fromstring : string -> res Element.
Variable path_exists : World -> string -> bool.
Variable os_remove : string -> World -> res unit * World.

(** X16. Without an output file ([None] or the empty string) the report
    goes to a fresh temporary file: that path is given to helm after [-o]
    and to the parser, the result is the parser's, and afterwards the file
    is removed if it still exists, whether the parser returned or
    raised. *)
Theorem X16_temporary_report_is_removed (test_suite_files chart_path : string)
  (values_path : list string) (output_type : string)
  (output_file : option string) (update : bool) (w w1 w2 : World) (p : string) (u : unit) :
  no_output_file output_file = true ->
  mkstemp w = (Ok p, w1) ->
  subprocess_run
    (helm_cmd test_suite_files chart_path values_path output_type p update) w1
  = (Ok u, w2) ->
  _run_unittest_internal World mkstemp subprocess_run path_is_file et_parse
    et_fromstring path_exists os_remove test_suite_files chart_path values_path
    output_type output_file update w
  = ([MkTemp p;
      Subprocess (helm_cmd test_suite_files chart_path values_path output_type p update);
      Parser (fst (parse (path_is_file w2) (et_parse w2) et_fromstring output_type p));
      PathExists p]
     ++ (if path_exists w2 p then [Remove p] else []),
     snd (parse (path_is_file w2) (et_parse w2) et_fromstring output_type p),
     if path_exists w2 p then snd (os_remove p w2) else w2).
Proof.
  intros Hno Hmk Hrun. unfold _run_unittest_internal.
  assert (Htarget :
            match output_file with
            | Some f =>
                if PyStr.truthy f then ([], Ok (f, false), w)
                else match mkstemp w with
                     | (Ok p0, w') => ([MkTemp p0], Ok (p0, true), w')
                     | (Raise e, w') => ([], Raise e, w')
                     end
            | None =>
                match mkstemp w with
                | (Ok p0, w') => ([MkTemp p0], Ok (p0, true), w')
                | (Raise e, w') => ([], Raise e, w')
                end
            end = ([MkTemp p], Ok (p, true), w1)).
  { unfold no_output_file, PyStr.truthy_opt in Hno.
    destruct output_file as [f|].
    - destruct (PyStr.truthy f); [discriminate|]. rewrite Hmk. reflexivity.
    - rewrite Hmk. reflexivity. }
  rewrite Htarget, Hrun. unfold parse_and_cleanup.
  destruct (parse (path_is_file w2) (et_parse w2) et_fromstring output_type p)
    as [evs r].
  destruct (path_exists w2 p); reflexivity.
Qed.

(** X17. The report format is checked after helm has run: with an output
    type other than the three dialects and a given output file, the helm
    command is run all the same, then the unsupported-format error is
    raised and the report is neither looked up nor parsed. *)
Theorem X17_format_is_checked_after_helm (test_suite_files chart_path : string)
  (values_path : list string) (output_type f : string) (update : bool)
  (w w2 : World) (u : unit) :
  output_type <> "junit" -> output_type <> "xunit" -> output_type <> "nunit" ->
  f <> "" ->
  subprocess_run
    (helm_cmd test_suite_files chart_path values_path output_type f update) w
  = (Ok u, w2) ->
  _run_unittest_internal World mkstemp subprocess_run path_is_file et_parse
    et_fromstring path_exists os_remove test_suite_files chart_path values_path
    output_type (Some f) update w
  = ([Subprocess (helm_cmd test_suite_files chart_path values_path output_type f update);
      Parser []],
     Raise (ValueError (UnsupportedReportType output_type)), w2).
Proof.
  intros Hj Hx Hn Hf Hrun. unfold _run_unittest_internal.
  rewrite (truthy_nonempty _ Hf), Hrun. unfold parse_and_cleanup, parse.
  apply String.eqb_neq in Hj, Hx, Hn. rewrite Hj, Hx, Hn. reflexivity.
Qed.

(** X18. For a report file named by the caller the run is the helm
    command and, when helm returns, the parse of that file, which is the
    only thing that looks the file up or reads it; no temporary file is
    made and [os.path.exists] and [os.remove] are never called, so the
    file is never removed, and the machine is left as helm left it. *)
Theorem X18_given_report_is_never_removed (test_suite_files chart_path : string)
  (values_path : list string) (output_type f : string) (update : bool) (w : World) :
  f <> "" ->
  let cmd :=
    helm_cmd test_suite_files chart_path values_path output_type f update in
  let w2 := snd (subprocess_run cmd w) in
  let '(evs, _, w') :=
    _run_unittest_internal World mkstemp subprocess_run path_is_file et_parse
      et_fromstring path_exists os_remove test_suite_files chart_path values_path
      output_type (Some f) update w in
  evs = Subprocess cmd
        :: match fst (subprocess_run cmd w) with
           | Ok _ =>
               [Parser (fst (parse (path_is_file w2) (et_parse w2) et_fromstring
                               output_type f))]
           | Raise _ => []
           end
  /\ forallb (fun ev => negb (touches_temp ev)) evs = true
  /\ w' = w2.
Proof.
  intros Hf. unfold _run_unittest_internal. rewrite (truthy_nonempty _ Hf).
  destruct (subprocess_run _ w) as [[u|e] w2]; simpl.
  - unfold parse_and_cleanup.
    destruct (parse (path_is_file w2) (et_parse w2) et_fromstring output_type f)
      as [evs r]. simpl. repeat split.
  - repeat split.
Qed.

(** X19. When the helm process cannot be run, its error is raised as it
    is and nothing is parsed; the cleanup belongs to the parse that did not
    start, so a temporary file made for the report is left behind. *)
Theorem X19_helm_failure_skips_parse_and_cleanup
  (test_suite_files chart_path : string) (values_path : list string)
  (output_type : string) (output_file : option string) (update : bool)
  (w w1 w2 : World) (p : string) (e : exn) :
  no_output_file output_file = true ->
  mkstemp w = (Ok p, w1) ->
  subprocess_run
    (helm_cmd test_suite_files chart_path values_path output_type p update) w1
  = (Raise e, w2) ->
  _run_unittest_internal World mkstemp subprocess_run path_is_file et_parse
    et_fromstring path_exists os_remove test_suite_files chart_path values_path
    output_type output_file update w
  = ([MkTemp p;
      Subprocess (helm_cmd test_suite_files chart_path values_path output_type p update)],
     Raise e, w2).
Proof.
  intros Hno Hmk Hrun. unfold _run_unittest_internal.
  unfold no_output_file, PyStr.truthy_opt in Hno.
  destruct output_file as [f|].
  - destruct (PyStr.truthy f); [discriminate|]. rewrite Hmk, Hrun. reflexivity.
  - rewrite Hmk, Hrun. reflexivity.
Qed.

(** X20. When helm leaves no report at the path the caller named, the
    outcome follows the resolver's heuristic: a path that is not
    XML-like and has a separator or ends in [.xml] gives the
    file-not-found error, for each of the three dialects. *)
Theorem X20_missing_report_is_file_not_found (test_suite_files chart_path : string)
  (values_path : list string) (output_type f : string) (update : bool)
  (w w2 : World) (u : unit) :
  In output_type ["junit"; "xunit"; "nunit"] ->
  f <> "" ->
  PyStr.startswith (PyStr.strip f) "<" = false ->
  is_likely_path f = true ->
  subprocess_run
    (helm_cmd test_suite_files chart_path values_path output_type f update) w
  = (Ok u, w2) ->
  path_is_file w2 f <> Some true ->
  snd (fst (_run_unittest_internal World mkstemp subprocess_run path_is_file
              et_parse et_fromstring path_exists os_remove test_suite_files
              chart_path values_path output_type (Some f) update w))
  = Raise (FileNotFoundError f).
Proof.
  intros Hin Hf Hlt Hlikely Hrun Hfile. unfold _run_unittest_internal.
  rewrite (truthy_nonempty _ Hf), Hrun. unfold parse_and_cleanup.
  assert (Hparse : snd (parse (path_is_file w2) (et_parse w2) et_fromstring
                          output_type f) = Raise (FileNotFoundError f)).
  { assert (Hroot : snd (_get_root (path_is_file w2) (et_parse w2) et_fromstring f)
                    = Raise (FileNotFoundError f)).
    { rewrite (get_root_not_a_file _ _ _ _ Hlt Hfile), Hlikely. reflexivity. }
    destruct (parse_unresolved _ _ _ _ _ Hroot) as (Hj & Hx & Hn).
    simpl in Hin. destruct Hin as [<- | [<- | [<- | []]]]; assumption. }
  destruct (parse (path_is_file w2) (et_parse w2) et_fromstring output_type f)
    as [evs r]. simpl in *. exact Hparse.
Qed.

End RunTestsFacts.

Lemma X16_temporary_report_is_removed_witness :
  _run_unittest_internal (list string) toy_mkstemp toy_run toy_is_file toy_parse
    never_xml toy_exists toy_remove "tests/*_test.yaml" "chart" ["v.yaml"] "xunit"
    None false []
  = ([MkTemp "/tmp/t.xml";
      Subprocess ["helm"; "unittest"; "-f"; "tests/*_test.yaml"; "chart"; "-t";
                  "xunit"; "-o"; "/tmp/t.xml"; "-v"; "v.yaml"];
      Parser [PathLookup "/tmp/t.xml"; FileParse "/tmp/t.xml"];
      PathExists "/tmp/t.xml"; Remove "/tmp/t.xml"],
     Raise ParseError, []).
Proof.
  exact (X16_temporary_report_is_removed (list string) toy_mkstemp toy_run
           toy_is_file toy_parse never_xml toy_exists toy_remove
           "tests/*_test.yaml" "chart" ["v.yaml"] "xunit" None false
           [] ["/tmp/t.xml"] ["/tmp/t.xml"] "/tmp/t.xml" tt
           ltac:(reflexivity) ltac:(reflexivity) ltac:(reflexivity)).
Defined.

Lemma X17_format_is_checked_after_helm_witness :
  _run_unittest_internal (list string) toy_mkstemp toy_run toy_is_file toy_parse
    never_xml toy_exists toy_remove "t" "chart" [] "html" (Some "out.xml") true []
  = ([Subprocess ["helm"; "unittest"; "-f"; "t"; "chart"; "-t"; "html"; "-o";
                  "out.xml"; "-u"];
      Parser []],
     Raise (ValueError (UnsupportedReportType "html")), []).
Proof.
  apply (X17_format_is_checked_after_helm (list string) toy_mkstemp toy_run
           toy_is_file toy_parse never_xml toy_exists toy_remove
           "t" "chart" [] "html" "out.xml" true [] [] tt);
    try discriminate; reflexivity.
Defined.

Lemma X18_given_report_is_never_removed_witness :
  [Subprocess ["helm"; "unittest"; "-f"; "t"; "chart"; "-t"; "junit"; "-o"; "out.xml"];
   Parser [PathLookup "out.xml"; FileParse "out.xml"]]
  = Subprocess (helm_cmd "t" "chart" [] "junit" "out.xml" false)
    :: [Parser (fst (parse (toy_is_file ["out.xml"]) (toy_parse ["out.xml"])
                       never_xml "junit" "out.xml"))]
  /\ forallb (fun ev => negb (touches_temp ev))
       [Subprocess ["helm"; "unittest"; "-f"; "t"; "chart"; "-t"; "junit"; "-o";
                    "out.xml"];
        Parser [PathLookup "out.xml"; FileParse "out.xml"]] = true
  /\ ["out.xml"] = snd (toy_run (helm_cmd "t" "chart" [] "junit" "out.xml" false)
                          ["out.xml"]).
Proof.
  exact (X18_given_report_is_never_removed (list string) toy_mkstemp toy_run
           toy_is_file toy_parse never_xml toy_exists toy_remove
           "t" "chart" [] "junit" "out.xml" false ["out.xml"] ltac:(discriminate)).
Defined.

Lemma X19_helm_failure_skips_parse_and_cleanup_witness :
  _run_unittest_internal (list string) toy_mkstemp toy_no_helm toy_is_file
    toy_parse never_xml toy_exists toy_remove "t" "chart" [] "xunit" (Some "")
    false []
  = ([MkTemp "/tmp/t.xml";
      Subprocess ["helm"; "unittest"; "-f"; "t"; "chart"; "-t"; "xunit"; "-o";
                  "/tmp/t.xml"]],
     Raise (FileNotFoundError "helm"), ["/tmp/t.xml"]).
Proof.
  exact (X19_helm_failure_skips_parse_and_cleanup (list string) toy_mkstemp
           toy_no_helm toy_is_file toy_parse never_xml toy_exists toy_remove
           "t" "chart" [] "xunit" (Some "") false
           [] ["/tmp/t.xml"] ["/tmp/t.xml"] "/tmp/t.xml"
           (FileNotFoundError "helm")
           ltac:(reflexivity) ltac:(reflexivity) ltac:(reflexivity)).
Defined.

Lemma X20_missing_report_is_file_not_found_witness :
  snd (fst (_run_unittest_internal (list string) toy_mkstemp toy_run toy_is_file
              toy_parse never_xml toy_exists toy_remove "t" "chart" [] "nunit"
              (Some "out/report.xml") false []))
  = Raise (FileNotFoundError "out/report.xml").
Proof.
  apply (X20_missing_report_is_file_not_found (list string) toy_mkstemp toy_run
           toy_is_file toy_parse never_xml toy_exists toy_remove
           "t" "chart" [] "nunit" "out/report.xml" false [] [] tt);
    try reflexivity; try discriminate. simpl. auto.
Defined.

(* ================================================================== *)
(** ** tools/get_tests.py: one test file *)
(* ================================================================== *)

Lemma bytes_rstrip_idem (s : string) :
  PyObj.bytes_rstrip (PyObj.bytes_rstrip s) = PyObj.bytes_rstrip s.
Proof.
  induction s as [|c s IH]; simpl; [reflexivity|].
  destruct (PyObj.bytes_rstrip s) as [|c' r'] eqn:Hr.
  - destruct (PyObj.is_bytes_space c) eqn:Hc; simpl; [reflexivity|].
    rewrite Hc. reflexivity.
  - simpl in *. rewrite IH. reflexivity.
Qed.

Lemma bytes_lstrip_head (s : string) :
  match PyObj.bytes_lstrip s with
  | EmptyString => True
  | String c _ => PyObj.is_bytes_space c = false
  end.
Proof.
  induction s as [|c s IH]; simpl; [exact I|].
  destruct (PyObj.is_bytes_space c) eqn:Hc; [exact IH | exact Hc].
Qed.

Lemma bytes_strip_idem (s : string) :
  PyObj.bytes_strip (PyObj.bytes_strip s) = PyObj.bytes_strip s.
Proof.
  unfold PyObj.bytes_strip. pose proof (bytes_lstrip_head s) as Hh.
  destruct (PyObj.bytes_lstrip s) as [|c t]; [reflexivity|].
  assert (Hr : exists r, PyObj.bytes_rstrip (String c t) = String c r).
  { simpl. destruct (PyObj.bytes_rstrip t); [rewrite Hh|]; eexists; reflexivity. }
  destruct Hr as [r Hr]. rewrite Hr. simpl PyObj.bytes_lstrip. rewrite Hh.
  rewrite <- Hr. apply bytes_rstrip_idem.
Qed.

Lemma test_title_trimmed (x t : yaml) :
  test_title x = inr t -> trimmed_title t.
Proof.
  unfold test_title. destruct x; try discriminate.
  destruct (PyObj.dict_get "it" entries) as [v|]; [|discriminate].
  destruct v; simpl; try discriminate; intros H; inversion H; subst; simpl.
  - apply strip_idem.
  - apply bytes_strip_idem.
Qed.

Lemma test_titles_spec (items : list yaml) (titles : list yaml) :
  test_titles items = inr titles ->
  Forall2 (fun t x => test_title x = inr t) titles items.
Proof.
  revert titles. induction items as [|x items IH]; intros titles H; simpl in H.
  - inversion H; constructor.
  - destruct (test_title x) as [e|t] eqn:Hx; [discriminate|].
    destruct (test_titles items) as [e|ts]; [discriminate|].
    inversion H; subst. constructor; [exact Hx | apply IH; reflexivity].
Qed.

Lemma test_titles_fail (items : list yaml) :
  Exists (fun x => exists e, test_title x = inl e) items ->
  exists e, test_titles items = inl e.
Proof.
  induction 1 as [x items [e He] | x items _ [e IH]]; simpl.
  - rewrite He. eauto.
  - destruct (test_title x); [eauto|]. rewrite IH. eauto.
Qed.

Lemma missing_fields_none (d : list (yaml * yaml)) :
  filter (fun field => negb (PyObj.dict_has field d)) required_fields = []
  <-> PyObj.dict_has "suite" d = true /\ PyObj.dict_has "tests" d = true.
Proof.
  unfold required_fields. simpl.
  destruct (PyObj.dict_has "suite" d), (PyObj.dict_has "tests" d); simpl;
    split; try (intros [? ?]); try discriminate; auto.
Qed.

Section GetTestFacts.
Variable load_yaml : string -> load_outcome.

(** What a returned [TestFile] tells of the document it comes from. *)
Lemma get_test_from_file_Ok (p : string) (tf : TestFile.t) :
  get_test_from_file load_yaml p = TOk tf ->
  p <> ""
  /\ exists d items titles,
      load_yaml p = Loaded (YDict d)
      /\ PyObj.dict_get "suite" d = Some (YStr (TestFile.suite tf))
      /\ PyStr.strip (TestFile.suite tf) <> ""
      /\ PyObj.dict_get "tests" d = Some (YList items)
      /\ items <> []
      /\ test_titles items = inr titles
      /\ tf = TestFile.mk (TestFile.suite tf) titles
                (match PyObj.dict_get "release" d with
                 | Some r => r
                 | None => YDict []
                 end) p.
Proof.
  unfold get_test_from_file. intros H.
  destruct p as [|c p']; [discriminate|]. split; [discriminate|].
  simpl PyStr.truthy in H. cbv iota in H. simpl negb in H. cbv iota in H.
  destruct (load_yaml (String c p')) as [doc| | | |]; try discriminate.
  destruct doc as [| | | | | | |items|d| |]; try discriminate.
  destruct (filter _ required_fields); [|discriminate].
  destruct (PyObj.dict_get "suite" d) as [sv|] eqn:Hs; [|discriminate].
  destruct sv as [| | | |su| | | | | |]; try discriminate.
  destruct (PyStr.truthy (PyStr.strip su)) eqn:Hblank; [|discriminate].
  simpl in H.
  destruct (PyObj.dict_get "tests" d) as [tv|] eqn:Ht; [|discriminate].
  destruct tv as [| | | | | | |items| | |]; try discriminate.
  destruct items as [|x items]; [discriminate|].
  destruct (test_titles (x :: items)) as [e|titles] eqn:Htitles; [discriminate|].
  inversion H; subst. simpl.
  exists d, (x :: items), titles. repeat split; try assumption; try discriminate.
  intros Hempty. rewrite Hempty in Hblank. discriminate.
Qed.

(** X21. A [TestFile] is returned only for a non-empty path whose document
    is a mapping with a string [suite] that is not blank and a non-empty
    list [tests]; it carries that path, the suite name as written, the
    document's [release] (an empty mapping when absent) and one title per
    entry of [tests], in order: the entry's [it], a string or bytes,
    trimmed. *)
Theorem X21_test_file_reflects_document (p : string) (tf : TestFile.t) :
  get_test_from_file load_yaml p = TOk tf ->
  p <> "" /\ TestFile.file_path tf = p
  /\ exists d items,
      load_yaml p = Loaded (YDict d)
      /\ PyObj.dict_get "suite" d = Some (YStr (TestFile.suite tf))
      /\ PyStr.strip (TestFile.suite tf) <> ""
      /\ PyObj.dict_get "tests" d = Some (YList items)
      /\ items <> []
      /\ Forall2 (fun t x => test_title x = inr t) (TestFile.tests tf) items
      /\ Forall trimmed_title (TestFile.tests tf)
      /\ TestFile.release tf
         = match PyObj.dict_get "release" d with
           | Some r => r
           | None => YDict []
           end.
Proof.
  intros H. destruct (get_test_from_file_Ok p tf H)
    as (Hp & d & items & titles & Hl & Hs & Hb & Ht & Hne & Htitles & Htf).
  split; [exact Hp|]. split; [rewrite Htf; reflexivity|].
  exists d, items. rewrite Htf. simpl.
  pose proof (test_titles_spec _ _ Htitles) as HF.
  repeat split; try assumption.
  clear - HF. induction HF; constructor; [eapply test_title_trimmed; eauto | assumption].
Qed.

(** X22. For a readable file whose document is a mapping, [KeyError] is
    raised exactly when [suite] or [tests] is missing, whatever the types
    of the fields that are there. *)
Theorem X22_key_error_iff_field_missing (p : string) (d : list (yaml * yaml)) :
  p <> "" ->
  load_yaml p = Loaded (YDict d) ->
  (exists msg, get_test_from_file load_yaml p = TRaise (ToolKeyError msg))
  <-> (PyObj.dict_has "suite" d = false \/ PyObj.dict_has "tests" d = false).
Proof.
  intros Hp Hl. unfold get_test_from_file.
  rewrite (truthy_nonempty _ Hp), Hl. simpl negb. cbv iota.
  destruct (filter (fun field => negb (PyObj.dict_has field d)) required_fields)
    as [|f fs] eqn:Hmiss.
  - apply missing_fields_none in Hmiss. destruct Hmiss as [Hs Ht].
    split; [|intros [H | H]; congruence].
    intros [msg H]. exfalso. unfold PyObj.dict_has in Hs, Ht.
    destruct (PyObj.dict_get "suite" d) as [sv|]; [|discriminate].
    destruct (PyObj.dict_get "tests" d) as [tv|]; [|discriminate].
    destruct sv; try discriminate.
    destruct (negb (PyStr.truthy (PyStr.strip s))); [discriminate|].
    destruct tv; try discriminate.
    destruct items; [discriminate|].
    destruct (test_titles (y :: items)); discriminate.
  - split; [|intros _; eexists; reflexivity].
    intros _.
    destruct (PyObj.dict_has "suite" d) eqn:Hs; [|left; reflexivity].
    destruct (PyObj.dict_has "tests" d) eqn:Ht; [|right; reflexivity].
    assert (Hnone : filter (fun field => negb (PyObj.dict_has field d))
                      required_fields = [])
      by (apply missing_fields_none; split; assumption).
    congruence.
Qed.

(** X23. A file whose fields pass the checks but where some entry of
    [tests] is not a mapping, or has no [it], or an [it] that is neither a
    string nor bytes, is rejected as a whole with [ValueError], never with
    the [AttributeError] behind it, even when the other entries are
    fine. *)
Theorem X23_untitled_entry_rejects_file (p suite : string)
  (d : list (yaml * yaml)) (items : list yaml) :
  p <> "" ->
  load_yaml p = Loaded (YDict d) ->
  PyObj.dict_get "suite" d = Some (YStr suite) -> PyStr.strip suite <> "" ->
  PyObj.dict_get "tests" d = Some (YList items) ->
  Exists (fun x => exists e, test_title x = inl e) items ->
  exists e,
    test_titles items = inl e
    /\ get_test_from_file load_yaml p
       = TRaise (ToolValueError
                   ("Failed to create TestFile object from " ++ p ++ ": " ++ e)).
Proof.
  intros Hp Hl Hs Hb Ht Hbad. destruct (test_titles_fail _ Hbad) as [e He].
  exists e. split; [exact He|]. unfold get_test_from_file.
  rewrite (truthy_nonempty _ Hp), Hl. simpl negb. cbv iota.
  assert (Hnone : filter (fun field => negb (PyObj.dict_has field d))
                    required_fields = []).
  { apply missing_fields_none. unfold PyObj.dict_has. rewrite Hs, Ht. auto. }
  rewrite Hnone, Hs, (truthy_nonempty _ Hb), Ht. simpl negb. cbv iota.
  destruct items as [|x items]; [inversion Hbad|].
  rewrite He. reflexivity.
Qed.

End GetTestFacts.

Lemma X21_test_file_reflects_document_witness :
  "tests/a_test.yaml" <> ""
  /\ TestFile.file_path sample_test_file = "tests/a_test.yaml"
  /\ exists d items,
      sample_load "tests/a_test.yaml" = Loaded (YDict d)
      /\ PyObj.dict_get "suite" d = Some (YStr (TestFile.suite sample_test_file))
      /\ PyStr.strip (TestFile.suite sample_test_file) <> ""
      /\ PyObj.dict_get "tests" d = Some (YList items)
      /\ items <> []
      /\ Forall2 (fun t x => test_title x = inr t)
           (TestFile.tests sample_test_file) items
      /\ Forall trimmed_title (TestFile.tests sample_test_file)
      /\ TestFile.release sample_test_file
         = match PyObj.dict_get "release" d with
           | Some r => r
           | None => YDict []
           end.
Proof.
  exact (X21_test_file_reflects_document sample_load "tests/a_test.yaml"
           sample_test_file ltac:(vm_compute; reflexivity)).
Defined.

Lemma X22_key_error_iff_field_missing_witness :
  (exists msg, get_test_from_file sample_load "tests/c_test.yaml"
               = TRaise (ToolKeyError msg))
  <-> (PyObj.dict_has "suite" [(YStr "suite", YInt 1)] = false
       \/ PyObj.dict_has "tests" [(YStr "suite", YInt 1)] = false).
Proof.
  apply (X22_key_error_iff_field_missing sample_load "tests/c_test.yaml"
           [(YStr "suite", YInt 1)]); [discriminate | reflexivity].
Defined.

Lemma X23_untitled_entry_rejects_file_witness :
  exists e,
    test_titles [ YDict [(YStr "it", YStr "first")];
                  YDict [(YStr "name", YStr "second")];
                  YStr "third" ] = inl e
    /\ get_test_from_file sample_load "tests/b_test.yaml"
       = TRaise (ToolValueError
                   ("Failed to create TestFile object from " ++ "tests/b_test.yaml"
                    ++ ": " ++ e)).
Proof.
  apply (X23_untitled_entry_rejects_file sample_load "tests/b_test.yaml"
           "deployment"
           [ (YStr "suite", YStr "deployment");
             (YStr "tests",
              YList [ YDict [(YStr "it", YStr "first")];
                      YDict [(YStr "name", YStr "second")];
                      YStr "third" ]) ]);
    try reflexivity; try discriminate.
  apply Exists_cons_tl. apply Exists_cons_hd. eexists. reflexivity.
Defined.

(* ================================================================== *)
(** ** tools/get_tests.py: the walk *)
(* ================================================================== *)

Section GetTestsFacts.
Variable load_yaml : string -> load_outcome.
Variable path_exists : string -> bool.
Variable path_isdir : string -> bool.
Variable os_walk : string -> list (string * list string * list string).
Variable re_compile : string -> string + (string -> bool).
Variable default_pattern : string -> bool.

Lemma visit_files_spec (file_pattern : string -> bool) (root : string)
  (files : list string) (st : list TestFile.t * list (string * tool_exn)) :
  fold_left (visit_file load_yaml file_pattern root) files st
  = (fst st ++ parsed_of load_yaml
                 (map (PyObj.path_join root) (filter file_pattern files)),
     snd st ++ warnings_of load_yaml
                 (map (PyObj.path_join root) (filter file_pattern files))).
Proof.
  revert st. induction files as [|f files IH]; intros [oks warns]; simpl.
  - rewrite !app_nil_r. reflexivity.
  - rewrite IH. unfold visit_file at 1 2.
    destruct (file_pattern f); simpl; [|reflexivity].
    unfold parsed_of, warnings_of. simpl.
    destruct (get_test_from_file load_yaml (PyObj.path_join root f)); simpl;
      rewrite <- ?app_assoc; reflexivity.
Qed.

Lemma walk_spec (file_pattern : string -> bool)
  (walk : list (string * list string * list string))
  (st : list TestFile.t * list (string * tool_exn)) :
  fold_left (fun st entry =>
               let '(root, _, files) := entry in
               fold_left (visit_file load_yaml file_pattern root) files st)
    walk st
  = (fst st ++ parsed_of load_yaml (matching_paths walk file_pattern),
     snd st ++ warnings_of load_yaml (matching_paths walk file_pattern)).
Proof.
  revert st. induction walk as [|[[root dirs] files] walk IH]; intros [oks warns];
    simpl.
  - rewrite !app_nil_r. reflexivity.
  - rewrite visit_files_spec, IH. simpl.
    unfold parsed_of, warnings_of. rewrite !flat_map_app, !app_assoc. reflexivity.
Qed.

Lemma parsed_warnings_length (paths : list string) :
  (List.length (parsed_of load_yaml paths)
   + List.length (warnings_of load_yaml paths) = List.length paths)%nat.
Proof.
  induction paths as [|p paths IH]; simpl; [reflexivity|].
  unfold parsed_of, warnings_of in *. simpl.
  destruct (get_test_from_file load_yaml p); simpl; rewrite ?length_app; simpl; lia.
Qed.

Lemma parsed_paths (paths : list string) :
  Forall (fun tf => In (TestFile.file_path tf) paths) (parsed_of load_yaml paths).
Proof.
  induction paths as [|p paths IH]; simpl; [constructor|].
  unfold parsed_of in *. simpl. apply Forall_app. split.
  - destruct (get_test_from_file load_yaml p) as [tf|e] eqn:H; [|constructor].
    constructor; [|constructor].
    destruct (get_test_from_file_Ok _ _ _ H) as (_ & d & items & titles & Hrest).
    destruct Hrest as (_ & _ & _ & _ & _ & _ & ->). simpl. left. reflexivity.
  - eapply Forall_impl; [|exact IH]. intros tf Hin. right. exact Hin.
Qed.

(** X24. One unreadable or invalid test file never stops [get_tests]: for
    a non-empty path of an existing directory and a pattern that is blank
    or compiles, [get_tests] returns, whatever the files hold; every file
    of the walk whose name matches the pattern is tried, in the order of
    the walk; the files that parse are returned, in that order, each with
    its own path, and every other one gives one warning with its path and
    error, so returned files and warnings add up to the matching files. *)
Theorem X24_get_tests_skips_bad_files (dir_path : string) (pattern : option string)
  (m : string -> bool) :
  dir_path <> "" -> path_exists dir_path = true -> path_isdir dir_path = true ->
  chosen_pattern re_compile default_pattern pattern m ->
  get_tests load_yaml path_exists path_isdir os_walk re_compile default_pattern
    dir_path pattern
  = TOk (parsed_of load_yaml (matching_paths (os_walk dir_path) m),
         warnings_of load_yaml (matching_paths (os_walk dir_path) m))
  /\ (List.length (parsed_of load_yaml (matching_paths (os_walk dir_path) m))
      + List.length (warnings_of load_yaml (matching_paths (os_walk dir_path) m))
      = List.length (matching_paths (os_walk dir_path) m))%nat
  /\ Forall (fun tf => In (TestFile.file_path tf)
                          (matching_paths (os_walk dir_path) m))
       (parsed_of load_yaml (matching_paths (os_walk dir_path) m)).
Proof.
  intros Hne Hex Hdir Hchosen.
  split; [|split; [apply parsed_warnings_length | apply parsed_paths]].
  unfold get_tests. rewrite (truthy_nonempty _ Hne), Hex, Hdir. cbn [negb].
  destruct Hchosen as [[Hblank ->] | (p & -> & Hp & Hc)].
  - unfold blank_pattern in Hblank. destruct pattern as [p|].
    + rewrite Hblank, walk_spec. reflexivity.
    + rewrite walk_spec. reflexivity.
  - apply String.eqb_neq in Hp. rewrite Hp, Hc, walk_spec. reflexivity.
Qed.

(** X25. [get_tests] checks the directory before the pattern and walks
    nothing when a check fails: an empty path gives [ValueError], a path
    that does not exist [FileNotFoundError], one that is not a directory
    [NotADirectoryError], each whatever the pattern, even an invalid one;
    an invalid pattern on a valid directory gives [ValueError] with the
    pattern and the regex error. *)
Theorem X25_get_tests_checks_before_walking (dir_path : string)
  (pattern : option string) :
  (dir_path = "" ->
   get_tests load_yaml path_exists path_isdir os_walk re_compile default_pattern
     dir_path pattern
   = TRaise (ToolValueError "dir_path cannot be empty"))
  /\ (dir_path <> "" -> path_exists dir_path = false ->
      get_tests load_yaml path_exists path_isdir os_walk re_compile default_pattern
        dir_path pattern
      = TRaise (ToolFileNotFoundError ("Directory not found: " ++ dir_path)))
  /\ (dir_path <> "" -> path_exists dir_path = true -> path_isdir dir_path = false ->
      get_tests load_yaml path_exists path_isdir os_walk re_compile default_pattern
        dir_path pattern
      = TRaise (ToolNotADirectoryError ("Path is not a directory: " ++ dir_path)))
  /\ (forall p e,
         dir_path <> "" -> path_exists dir_path = true -> path_isdir dir_path = true ->
         pattern = Some p -> PyStr.strip p <> "" -> re_compile p = inl e ->
         get_tests load_yaml path_exists path_isdir os_walk re_compile default_pattern
           dir_path pattern
         = TRaise (ToolValueError ("Invalid regex pattern '" ++ p ++ "': " ++ e))).
Proof.
  unfold get_tests. repeat split.
  - intros ->. reflexivity.
  - intros Hne He. rewrite (truthy_nonempty _ Hne), He. reflexivity.
  - intros Hne He Hd. rewrite (truthy_nonempty _ Hne), He, Hd. reflexivity.
  - intros p e Hne He Hd -> Hp Hc. rewrite (truthy_nonempty _ Hne), He, Hd. simpl.
    apply String.eqb_neq in Hp. rewrite Hp, Hc. reflexivity.
Qed.

(** X26. A pattern that is [None], empty or made of whitespace only
    selects the default pattern: [get_tests] gives for it what it gives for
    [None], so a whitespace-only pattern is never used as a regex of its
    own. *)
Theorem X26_blank_pattern_is_default (dir_path : string) (pattern : option string) :
  blank_pattern pattern = true ->
  get_tests load_yaml path_exists path_isdir os_walk re_compile default_pattern
    dir_path pattern
  = get_tests load_yaml path_exists path_isdir os_walk re_compile default_pattern
      dir_path None.
Proof.
  unfold get_tests, blank_pattern. intros H.
  destruct pattern as [p|]; [rewrite H|]; reflexivity.
Qed.

End GetTestsFacts.

Lemma X24_get_tests_skips_bad_files_witness :
  get_tests sample_load (fun _ => true) (fun _ => true) sample_walk
    sample_compile ends_in_yaml "tests" None
  = TOk (parsed_of sample_load (matching_paths (sample_walk "tests") ends_in_yaml),
         warnings_of sample_load (matching_paths (sample_walk "tests") ends_in_yaml))
  /\ (List.length
        (parsed_of sample_load (matching_paths (sample_walk "tests") ends_in_yaml))
      + List.length
          (warnings_of sample_load
             (matching_paths (sample_walk "tests") ends_in_yaml))
      = List.length (matching_paths (sample_walk "tests") ends_in_yaml))%nat
  /\ Forall (fun tf => In (TestFile.file_path tf)
                          (matching_paths (sample_walk "tests") ends_in_yaml))
       (parsed_of sample_load (matching_paths (sample_walk "tests") ends_in_yaml)).
Proof.
  apply (X24_get_tests_skips_bad_files sample_load (fun _ => true) (fun _ => true)
           sample_walk sample_compile ends_in_yaml "tests" None ends_in_yaml).
  - discriminate.
  - reflexivity.
  - reflexivity.
  - left. split; reflexivity.
Defined.

Lemma X25_get_tests_checks_before_walking_witness :
  get_tests sample_load (fun _ => false) (fun _ => false) sample_walk
    sample_compile ends_in_yaml "missing" (Some "(")
  = TRaise (ToolFileNotFoundError ("Directory not found: " ++ "missing")).
Proof.
  apply (proj1 (proj2 (X25_get_tests_checks_before_walking sample_load
                         (fun _ => false) (fun _ => false) sample_walk
                         sample_compile ends_in_yaml "missing" (Some "("))));
    [discriminate | reflexivity].
Defined.

Lemma X26_blank_pattern_is_default_witness :
  get_tests sample_load (fun _ => true) (fun _ => true) sample_walk
    sample_compile ends_in_yaml "tests" (Some "   ")
  = get_tests sample_load (fun _ => true) (fun _ => true) sample_walk
      sample_compile ends_in_yaml "tests" None.
Proof.
  apply (X26_blank_pattern_is_default sample_load (fun _ => true) (fun _ => true)
           sample_walk sample_compile ends_in_yaml "tests" (Some "   ")).
  reflexivity.
Defined.
(* ================================================================== *)
(** ** tools/schema_validator.py: results and the schema cache *)
(* ================================================================== *)

Lemma report_caught_failed (p : string) (e : caught) :
  ValidationResult.success (report_caught p e) = false
  /\ exists text, ValidationResult.errors (report_caught p e) = Some [text].
Proof. destruct e; simpl; split; try reflexivity; eexists; reflexivity. Qed.

Section SchemaValidatorFacts.
Variable Schema : Type.
Variable http_get_json : nat -> string -> caught + Schema.
Variable file_exists : string -> caught + bool.
Variable load_yaml_utf8 : string -> caught + yaml.
Variable jsonschema_validate : yaml -> Schema -> caught + unit.

(** X27. A validation result is successful exactly when it has no error
    list, and a failed one has exactly one error; success means that the
    schema was there, the file exists, loads as YAML and satisfies the
    schema. *)
Theorem X27_validation_result_shape (p : string) (st : schema_state Schema) :
  let r := fst (validate_schema Schema http_get_json file_exists load_yaml_utf8
                  jsonschema_validate p st) in
  (ValidationResult.success r = true <-> ValidationResult.errors r = None)
  /\ (ValidationResult.success r = false ->
      exists text, ValidationResult.errors r = Some [text])
  /\ (ValidationResult.success r = true ->
      ValidationResult.message r = ("Validation successful for " ++ p)%string
      /\ file_exists p = inr true
      /\ exists schema doc u,
          fst (_get_schema Schema http_get_json schema_url st) = inr schema
          /\ load_yaml_utf8 p = inr doc
          /\ jsonschema_validate doc schema = inr u).
Proof.
  unfold validate_schema.
  destruct (_get_schema Schema http_get_json schema_url st) as [[e|schema] st'];
    simpl.
  - destruct (report_caught_failed p e) as [Hs [text He]]. rewrite Hs, He.
    repeat split; try discriminate. eexists; reflexivity.
  - destruct (validate_file Schema file_exists load_yaml_utf8 jsonschema_validate
                schema p) as [e|u] eqn:Hv; simpl.
    + destruct (report_caught_failed p e) as [Hs [text He]]. rewrite Hs, He.
      repeat split; try discriminate. eexists; reflexivity.
    + repeat split; try discriminate.
      * unfold validate_file in Hv.
        destruct (file_exists p) as [e|[|]]; try discriminate. reflexivity.
      * unfold validate_file in Hv.
        destruct (file_exists p) as [e|[|]]; try discriminate.
        destruct (load_yaml_utf8 p) as [e|doc]; [discriminate|].
        exists schema, doc, u. repeat split. exact Hv.
Qed.

(** X28. The schema is fetched before the file is looked at and kept for
    the process: with the schema in the cache a validation makes no
    request and leaves the cache as it is; without it exactly one request
    is made, a schema received is stored, and a failed request stores
    nothing and is the result of the validation whatever the file is. *)
Theorem X28_schema_is_fetched_once (p : string) (st : schema_state Schema) :
  (forall schema,
      cached Schema st = Some (schema_url, schema) ->
      snd (validate_schema Schema http_get_json file_exists load_yaml_utf8
             jsonschema_validate p st) = st)
  /\ (forall schema,
         cached Schema st = None ->
         http_get_json (requests_made Schema st) schema_url = inr schema ->
         snd (validate_schema Schema http_get_json file_exists load_yaml_utf8
                jsonschema_validate p st)
         = mkSchemaState Schema (Some (schema_url, schema))
             (S (requests_made Schema st)))
  /\ (forall e,
         cached Schema st = None ->
         http_get_json (requests_made Schema st) schema_url = inl e ->
         validate_schema Schema http_get_json file_exists load_yaml_utf8
           jsonschema_validate p st
         = (report_caught p e,
            mkSchemaState Schema None (S (requests_made Schema st)))).
Proof.
  unfold validate_schema, _get_schema. repeat split.
  - intros schema Hc. rewrite Hc, String.eqb_refl.
    destruct (validate_file Schema file_exists load_yaml_utf8 jsonschema_validate
                schema p); reflexivity.
  - intros schema Hc Hget. rewrite Hc, Hget.
    destruct (validate_file Schema file_exists load_yaml_utf8 jsonschema_validate
                schema p); reflexivity.
  - intros e Hc Hget. rewrite Hc, Hget. reflexivity.
Qed.

Variable path_exists : string -> bool.
Variable path_isdir : string -> bool.
Variable os_walk : string -> list (string * list string * list string).
Variable re_compile : string -> string + (string -> bool).
Variable default_pattern : string -> bool.

Lemma validate_schema_hit (p : string) (st : schema_state Schema) :
  forall schema,
    cached Schema st = Some (schema_url, schema) ->
    snd (validate_schema Schema http_get_json file_exists load_yaml_utf8
           jsonschema_validate p st) = st.
Proof.
  unfold validate_schema, _get_schema. intros schema Hc.
  rewrite Hc, String.eqb_refl.
  destruct (validate_file Schema file_exists load_yaml_utf8 jsonschema_validate
              schema p); reflexivity.
Qed.

Lemma validate_all_app (xs ys : list string) (st : schema_state Schema) :
  validate_all Schema http_get_json file_exists load_yaml_utf8 jsonschema_validate
    (xs ++ ys) st
  = let '(rs, st1) :=
      validate_all Schema http_get_json file_exists load_yaml_utf8
        jsonschema_validate xs st in
    let '(rs', st2) :=
      validate_all Schema http_get_json file_exists load_yaml_utf8
        jsonschema_validate ys st1 in
    (rs ++ rs', st2).
Proof.
  revert st. induction xs as [|x xs IH]; intros st; simpl.
  - destruct (validate_all _ _ _ _ _ ys st); reflexivity.
  - destruct (validate_schema _ _ _ _ _ x st) as [r st1]. rewrite IH.
    destruct (validate_all _ _ _ _ _ xs st1) as [rs st2].
    destruct (validate_all _ _ _ _ _ ys st2) as [rs' st3]. reflexivity.
Qed.

Lemma validate_visit_spec (m : string -> bool) (root : string)
  (files : list string) (acc : list ValidationResult.t * schema_state Schema) :
  fold_left (validate_visit Schema http_get_json file_exists load_yaml_utf8
               jsonschema_validate m root) files acc
  = let '(rs, st') :=
      validate_all Schema http_get_json file_exists load_yaml_utf8
        jsonschema_validate (map (PyObj.path_join root) (filter m files))
        (snd acc) in
    (fst acc ++ rs, st').
Proof.
  revert acc. induction files as [|f files IH]; intros [done st]; simpl.
  - rewrite app_nil_r. reflexivity.
  - rewrite IH. unfold validate_visit at 1 2. destruct (m f); simpl.
    + destruct (validate_schema _ _ _ _ _ (PyObj.path_join root f) st) as [r st1].
      simpl.
      destruct (validate_all _ _ _ _ _ (map (PyObj.path_join root) (filter m files))
                  st1) as [rs st2].
      rewrite <- app_assoc. reflexivity.
    + reflexivity.
Qed.

Lemma validate_walk_spec (m : string -> bool)
  (walk : list (string * list string * list string))
  (acc : list ValidationResult.t * schema_state Schema) :
  fold_left (fun acc entry =>
               let '(root, _, files) := entry in
               fold_left (validate_visit Schema http_get_json file_exists
                            load_yaml_utf8 jsonschema_validate m root) files acc)
    walk acc
  = let '(rs, st') :=
      validate_all Schema http_get_json file_exists load_yaml_utf8
        jsonschema_validate (matching_paths walk m) (snd acc) in
    (fst acc ++ rs, st').
Proof.
  revert acc. induction walk as [|[[root dirs] files] walk IH]; intros [done st];
    simpl.
  - rewrite app_nil_r. reflexivity.
  - rewrite validate_visit_spec, validate_all_app. simpl.
    destruct (validate_all _ _ _ _ _ (map (PyObj.path_join root) (filter m files))
                st) as [rs st1].
    rewrite IH. simpl.
    destruct (validate_all _ _ _ _ _ (matching_paths walk m) st1) as [rs' st2].
    rewrite app_assoc. reflexivity.
Qed.

Lemma validate_schema_step (p : string) (st : schema_state Schema) :
  cached Schema
    (snd (validate_schema Schema http_get_json file_exists load_yaml_utf8
            jsonschema_validate p st)) = None ->
  cached Schema st = None
  /\ requests_made Schema
       (snd (validate_schema Schema http_get_json file_exists load_yaml_utf8
               jsonschema_validate p st))
     = S (requests_made Schema st).
Proof.
  unfold validate_schema, _get_schema.
  destruct (cached Schema st) as [[key value]|] eqn:Hc.
  - destruct (key =? schema_url)%string.
    + destruct (validate_file _ _ _ _ value p); simpl; rewrite ?Hc; discriminate.
    + destruct (http_get_json (requests_made Schema st) schema_url) as [e|s].
      * simpl. rewrite ?Hc. discriminate.
      * destruct (validate_file _ _ _ _ s p); simpl; discriminate.
  - destruct (http_get_json (requests_made Schema st) schema_url) as [e|s].
    + simpl. intros _. split; reflexivity.
    + destruct (validate_file _ _ _ _ s p); simpl; discriminate.
Qed.

Lemma validate_all_facts (paths : list string) (st : schema_state Schema) :
  let '(rs, st') :=
    validate_all Schema http_get_json file_exists load_yaml_utf8
      jsonschema_validate paths st in
  List.length rs = List.length paths
  /\ (forall schema, cached Schema st = Some (schema_url, schema) -> st' = st)
  /\ (cached Schema st' = None ->
      cached Schema st = None
      /\ requests_made Schema st'
         = (requests_made Schema st + List.length paths)%nat).
Proof.
  revert st. induction paths as [|p paths IH]; intros st; simpl.
  - repeat split; try assumption. lia.
  - pose proof (validate_schema_step p st) as Hstep.
    pose proof (validate_schema_hit p st) as Hc.
    destruct (validate_schema _ _ _ _ _ p st) as [r st1] eqn:Hv.
    specialize (IH st1).
    destruct (validate_all _ _ _ _ _ paths st1) as [rs st2].
    destruct IH as (Hlen & Hhit & Hmiss). simpl in *.
    split; [lia|]. split.
    + intros schema Hcached. pose proof (Hc schema Hcached) as H1. subst st1.
      eapply Hhit; eauto.
    + intros Hnone. destruct (Hmiss Hnone) as [Hn1 Hr1].
      destruct (Hstep Hn1) as [Hn0 Hr0]. split; [exact Hn0|]. lia.
Qed.

(** X29. When [validate_tests] returns there is exactly one result for
    each file of the walk whose name matches the pattern, in the order of
    the walk, each the result of [validate_schema] on that path with the
    cache the former files left; with the schema in the cache at the start
    no request is made during the whole walk, and the cache is still empty
    at the end only if every file cost one failed request. *)
Theorem X29_validate_tests_one_result_per_file (dir_path : string)
  (pattern : option string) (st st' : schema_state Schema)
  (results : list ValidationResult.t) :
  validate_tests Schema http_get_json file_exists load_yaml_utf8
    jsonschema_validate path_exists path_isdir os_walk re_compile default_pattern
    dir_path pattern st = TOk (results, st') ->
  exists m,
    chosen_pattern re_compile default_pattern pattern m
    /\ (results, st')
       = validate_all Schema http_get_json file_exists load_yaml_utf8
           jsonschema_validate (matching_paths (os_walk dir_path) m) st
    /\ List.length results = List.length (matching_paths (os_walk dir_path) m)
    /\ (forall schema, cached Schema st = Some (schema_url, schema) -> st' = st)
    /\ (cached Schema st' = None ->
        requests_made Schema st'
        = (requests_made Schema st
           + List.length (matching_paths (os_walk dir_path) m))%nat).
Proof.
  unfold validate_tests. intros H.
  destruct (negb (PyStr.truthy dir_path)); [discriminate|].
  destruct (negb (path_exists dir_path)); [discriminate|].
  destruct (negb (path_isdir dir_path)); [discriminate|].
  assert (Hm : exists m,
             chosen_pattern re_compile default_pattern pattern m
             /\ TOk (fold_left
                       (fun acc entry =>
                          let '(root, _, files) := entry in
                          fold_left (validate_visit Schema http_get_json
                                       file_exists load_yaml_utf8
                                       jsonschema_validate m root) files acc)
                       (os_walk dir_path) ([], st))
                = TOk (results, st')).
  { destruct pattern as [p|].
    - destruct (PyStr.strip p =? "")%string eqn:Hblank.
      + exists default_pattern. split; [left; split; [exact Hblank | reflexivity]|].
        exact H.
      + destruct (re_compile p) as [e|m] eqn:Hc; [discriminate|].
        exists m. split; [|exact H].
        right. exists p. apply String.eqb_neq in Hblank. auto.
    - exists default_pattern. split; [left; split; reflexivity | exact H]. }
  destruct Hm as (m & Hchosen & Hrun). exists m. split; [exact Hchosen|].
  rewrite validate_walk_spec in Hrun. simpl in Hrun.
  pose proof (validate_all_facts (matching_paths (os_walk dir_path) m) st) as Hf.
  destruct (validate_all _ _ _ _ _ (matching_paths (os_walk dir_path) m) st)
    as [rs st2].
  inversion Hrun; subst. destruct Hf as (Hlen & Hhit & Hmiss).
  repeat split; try assumption. intros Hnone. apply Hmiss; exact Hnone.
Qed.

End SchemaValidatorFacts.

Lemma X27_validation_result_shape_witness :
  ValidationResult.message
    (fst (validate_schema nat flaky_get all_exist loads_sample accepts
            "tests/a_test.yaml" (mkSchemaState nat None 1)))
  = "Validation successful for tests/a_test.yaml"
  /\ all_exist "tests/a_test.yaml" = inr true
  /\ exists schema doc u,
      fst (_get_schema nat flaky_get schema_url (mkSchemaState nat None 1))
      = inr schema
      /\ loads_sample "tests/a_test.yaml" = inr doc
      /\ accepts doc schema = inr u.
Proof.
  apply (proj2 (proj2 (X27_validation_result_shape nat flaky_get all_exist
                         loads_sample accepts "tests/a_test.yaml"
                         (mkSchemaState nat None 1)))).
  reflexivity.
Defined.

Lemma X28_schema_is_fetched_once_witness :
  validate_schema nat flaky_get all_exist loads_sample accepts "tests/a_test.yaml"
    (mkSchemaState nat None 0)
  = (report_caught "tests/a_test.yaml" (IsRequestException "timed out"),
     mkSchemaState nat None 1).
Proof.
  apply (proj2 (proj2 (X28_schema_is_fetched_once nat flaky_get all_exist
                         loads_sample accepts "tests/a_test.yaml"
                         (mkSchemaState nat None 0))));
    reflexivity.
Defined.

Lemma X29_validate_tests_one_result_per_file_witness :
  exists m,
    chosen_pattern sample_compile ends_in_yaml None m
    /\ ([ report_caught "tests/a_test.yaml" (IsRequestException "timed out");
          ValidationResult.mk true "Validation successful for tests/b_test.yaml"
            None ],
        mkSchemaState nat (Some (schema_url, 7%nat)) 2)
       = validate_all nat flaky_get all_exist loads_sample accepts
           (matching_paths (sample_walk "tests") m) (mkSchemaState nat None 0)
    /\ List.length
         [ report_caught "tests/a_test.yaml" (IsRequestException "timed out");
           ValidationResult.mk true "Validation successful for tests/b_test.yaml"
             None ]
       = List.length (matching_paths (sample_walk "tests") m)
    /\ (forall schema,
           cached nat (mkSchemaState nat None 0) = Some (schema_url, schema) ->
           mkSchemaState nat (Some (schema_url, 7%nat)) 2 = mkSchemaState nat None 0)
    /\ (cached nat (mkSchemaState nat (Some (schema_url, 7%nat)) 2) = None ->
        requests_made nat (mkSchemaState nat (Some (schema_url, 7%nat)) 2)
        = (requests_made nat (mkSchemaState nat None 0)
           + List.length (matching_paths (sample_walk "tests") m))%nat).
Proof.
  exact (X29_validate_tests_one_result_per_file nat flaky_get all_exist
           loads_sample accepts (fun _ => true) (fun _ => true) sample_walk
           sample_compile ends_in_yaml "tests" None
           (mkSchemaState nat None 0)
           (mkSchemaState nat (Some (schema_url, 7%nat)) 2)
           [ report_caught "tests/a_test.yaml" (IsRequestException "timed out");
             ValidationResult.mk true "Validation successful for tests/b_test.yaml"
               None ]
           ltac:(vm_compute; reflexivity)).
Defined.
